(** * ifc-datareader: a shallow embedding and its specification

    The development follows the layout of the Python package:
    - [Py]      the few [str] and built-in operations the package relies on;
    - [Tools]   [tools.py] ([clean_str]);
    - [Schema]  [schema/ifc_schema_objects.py] and [schema/ifc_schema_reader.py];
    - [Raw]     the raw records handed over by the external record provider;
    - [Entity]  [ifc_base_entity.py], [ifc_object_entity*.py];
    - [Reader]  [ifc_data_reader.py];
    - [Memo]    the lazily loaded attributes, over an explicit object heap.

    Strings are [string]s of 8-bit characters; numeric payloads are carried
    around but never computed on. *)

From Stdlib Require Import Ascii String.
From stdpp Require Import base option list strings gmap sorting.

Local Open Scope stdpp_scope.

(** ** Exceptions *)

(** [RecursionError] is what the interpreter raises when the call depth runs
    out; the recursive walks below take the remaining depth as a parameter. *)
Inductive exn :=
  ValueError | KeyError | AttributeError | TypeError | RecursionError.

Inductive result (A : Type) :=
| Ok (a : A)
| Raise (e : exn).
Arguments Ok {A} a.
Arguments Raise {A} e.

Definition rbind {A B} (m : result A) (k : A -> result B) : result B :=
  match m with
  | Ok a => k a
  | Raise e => Raise e
  end.

Notation "x <-! m ; k" := (rbind m (fun x => k))
  (at level 100, m at next level, right associativity).

Global Instance exn_eq_dec : EqDecision exn.
Proof. solve_decision. Defined.

Global Instance result_eq_dec {A} `{EqDecision A} : EqDecision (result A).
Proof. solve_decision. Defined.

(** ** The Python string operations used by the package *)

Module Py.

Definition chr (c : ascii) : string := String c EmptyString.

(** [s.startswith(p)] *)
Definition startswith (s p : string) : bool := String.prefix p s.

Fixpoint take (n : nat) (s : string) : string :=
  match n, s with
  | S k, String c s' => String c (take k s')
  | _, _ => EmptyString
  end.

Fixpoint drop (n : nat) (s : string) : string :=
  match n, s with
  | S k, String _ s' => drop k s'
  | _, _ => s
  end.

(** [s.find(sep)]: offset of the leftmost occurrence, [None] for -1. *)
Fixpoint find (sep s : string) : option nat :=
  if String.prefix sep s then Some 0
  else match s with
       | EmptyString => None
       | String _ s' => S <$> find sep s'
       end.

(** [sub in s] *)
Definition contains (sub s : string) : bool := bool_decide (is_Some (find sub s)).

(** [s.partition(sep)], for a non-empty separator. *)
Definition partition (sep s : string) : string * string * string :=
  match find sep s with
  | Some i => (take i s, sep, drop (i + String.length sep) s)
  | None => (s, EmptyString, EmptyString)
  end.

(** [s.replace(old, new)]: the non-overlapping occurrences of [old], from
    the left.  [skip] counts the characters of a match still to be passed. *)
Fixpoint replace_go (old new : string) (skip : nat) (s : string) : string :=
  match s with
  | EmptyString => EmptyString
  | String c s' =>
      match skip with
      | S k => replace_go old new k s'
      | O =>
          if String.prefix old s
          then new +:+ replace_go old new (String.length old - 1) s'
          else String c (replace_go old new 0 s')
      end
  end.

Fixpoint interleave (new s : string) : string :=
  match s with
  | EmptyString => EmptyString
  | String c s' => String c (new +:+ interleave new s')
  end.

Definition replace (old new s : string) : string :=
  match old with
  | EmptyString => new +:+ interleave new s
  | _ => replace_go old new 0 s
  end.

(** [s.split(sep)] for a one-character separator; [cur] is the piece being
    read, reversed. *)
Fixpoint split_go (sep : ascii) (cur : string) (s : string) : list string :=
  match s with
  | EmptyString => [String.rev cur]
  | String c s' =>
      if decide (c = sep) then String.rev cur :: split_go sep EmptyString s'
      else split_go sep (String c cur) s'
  end.

Definition split (sep : ascii) (s : string) : list string :=
  split_go sep EmptyString s.

(** [s.lower()] on the ASCII range. *)
Definition lower_char (c : ascii) : ascii :=
  let n := nat_of_ascii c in
  if (65 <=? n)%nat && (n <=? 90)%nat then ascii_of_nat (n + 32) else c.

Fixpoint lower (s : string) : string :=
  match s with
  | EmptyString => EmptyString
  | String c s' => String (lower_char c) (lower s')
  end.

(** [string.punctuation] *)
Definition punctuation : string :=
  "!" +:+ chr "034" +:+ "#$%&'()*+,-./:;<=>?@[\]^_`{|}~".

(** [sorted(l)] on strings: ascending in code-point order. *)
Definition sorted (l : list string) : list string := merge_sort String.le l.

(** [min(l)]: the first least element under [<]; [ValueError] on an empty
    sequence. *)
Fixpoint min_from (best : string) (l : list string) : string :=
  match l with
  | [] => best
  | x :: l' => min_from (if String.ltb x best then x else best) l'
  end.

Definition min (l : list string) : result string :=
  match l with
  | [] => Raise ValueError
  | x :: l' => Ok (min_from x l')
  end.

(** Characters kept by a predicate (used to state what [replace] with an
    empty replacement leaves). *)
Fixpoint filter_chars (keep : ascii -> bool) (s : string) : string :=
  match s with
  | EmptyString => EmptyString
  | String c s' =>
      if keep c then String c (filter_chars keep s') else filter_chars keep s'
  end.

Fixpoint mem_char (c : ascii) (s : string) : bool :=
  match s with
  | EmptyString => false
  | String d s' => if decide (d = c) then true else mem_char c s'
  end.

End Py.

(** ** tools.py *)

Module Tools.

(** The loop of [clean_str] over the characters of [string.punctuation]. *)
Fixpoint clean_chars (chars str_in : string) : string :=
  match chars with
  | EmptyString => str_in
  | String cur_char rest =>
      clean_chars rest
        (if Py.contains (Py.chr cur_char) str_in
         then Py.replace (Py.chr cur_char) EmptyString str_in
         else str_in)
  end.

Definition clean_str (str_in : option string) : option string :=
  match str_in with
  | None => None
  | Some s => Some (clean_chars Py.punctuation s)
  end.

End Tools.


(** ** schema/ifc_schema_objects.py, schema/ifc_schema_reader.py *)

Module Schema.

Definition NL : ascii := "010".
Definition TAB : ascii := "009".
Definition NL_TAB : string := String NL (String TAB EmptyString).

(** [d[k]] on a dictionary *)
Definition dict_get {V} (d : gmap string V) (k : string) : result V :=
match d !! k with
| Some v => Ok v
| None => Raise KeyError
end.

(** [sorted(d)]: the keys of a dictionary, ascending. *)
Definition sorted_keys {V} (d : gmap string V) : list string :=
Py.sorted ((map_to_list d).*1).

Fixpoint mapM {A B} (f : A -> result B) (l : list A) : result (list B) :=
match l with
| [] => Ok []
| x :: l' => y <-! f x; ys <-! mapM f l'; Ok (y :: ys)
end.

(** *** IfcSchemaDefinedType *)

Record IfcSchemaDefinedType := {
  dt_name : string;
  _raw_value : string;
}.

Definition _SIMPLE_TYPES : list string :=
["INTEGER"; "REAL"; "STRING"; "NUMBER"; "LOGICAL"; "BOOLEAN"].

(** [re.split(' |\) |\(', s)]: at each position the alternatives are tried
    in order: a space, a closing parenthesis followed by a space, an opening
    parenthesis.  [cur] is the piece being read, reversed. *)
Fixpoint re_split_go (cur : string) (s : string) : list string :=
match s with
| EmptyString => [String.rev cur]
| String c s' =>
    if decide (c = " "%char) then String.rev cur :: re_split_go EmptyString s'
    else if decide (c = ")"%char) then
      match s' with
      | String " " s'' => String.rev cur :: re_split_go EmptyString s''
      | _ => re_split_go (String c cur) s'
      end
    else if decide (c = "("%char) then
      String.rev cur :: re_split_go EmptyString s'
    else re_split_go (String c cur) s'
end.

Definition re_split (s : string) : list string := re_split_go EmptyString s.

Definition dt_type_name (self : IfcSchemaDefinedType) : string :=
let raw_values := re_split (_raw_value self) in
if (size (list_to_set raw_values ∩ list_to_set _SIMPLE_TYPES : gset string)
    <=? 0)%nat
then "#" +:+ _raw_value self
else _raw_value self.

Definition is_ref (self : IfcSchemaDefinedType) : bool :=
Py.startswith (dt_type_name self) "#".

(** *** IfcSchemaSelectType, IfcSchemaEnum *)

Record IfcSchemaSelectType := {
  st_name : string;
  _raw_types : option string;
}.

Definition entity_names (self : IfcSchemaSelectType) : result (list string) :=
match _raw_types self with
| None => Raise AttributeError
| Some raw_types =>
    Ok (Py.sorted (Py.split "," (Py.replace NL_TAB EmptyString raw_types)))
end.

Record IfcSchemaEnum := {
  en_name : string;
  _raw_values : option string;
}.

Definition values (self : IfcSchemaEnum) : result (list string) :=
match _raw_values self with
| None => Raise AttributeError
| Some raw_values =>
    Ok (Py.sorted (Py.split "," (Py.replace NL_TAB EmptyString raw_values)))
end.

(** *** IfcSchemaEntityAttribute

    [attr_entity] is the name of the entity object the attribute was
    created in ([self.entity.name]). *)

Record IfcSchemaEntityAttribute := {
  attr_name : string;
  _raw_type : string;
  attr_entity : string;
}.

Definition is_optional (self : IfcSchemaEntityAttribute) : bool :=
Py.startswith (_raw_type self) "OPTIONAL".

(** *** IfcSchemaEntity *)

Record IfcSchemaEntity := {
  ent_name : string;
  supertype_name : option string;
  _attributes_by_name : gmap string IfcSchemaEntityAttribute;
  _inverse_by_name : gmap string IfcSchemaEntityAttribute;
}.

Definition _NO_ATTR : list string :=
["WHERE"; "INVERSE"; "WR2"; "WR3"; "WR4"; "WR5"; "UNIQUE"; "DERIVE"].

(** ['\n ' + noa] *)
Definition section_mark (noa : string) : string := String NL (String " " noa).

(** [re.search(';(.*?)$', raw_data, re.DOTALL).groups()[0]]: what follows
    the first semicolon, up to the end of the text or to the line break that
    ends it.  Without a semicolon the search gives [None], whose [groups]
    does not exist. *)
Definition drop_final_newline (s : string) : string :=
if String.prefix (String NL EmptyString) (String.rev s)
then Py.take (String.length s - 1) s
else s.

Definition inner_raw_data (raw_data : string) : result string :=
match Py.find ";" raw_data with
| None => Raise AttributeError
| Some i => Ok (drop_final_newline (Py.drop (i + 1) raw_data))
end.

Definition before_mark (text noa : string) : string :=
(Py.partition (section_mark noa) text).1.1.

Definition attrs_str (inner : string) : result string :=
Py.min (map (before_mark inner) _NO_ATTR).

Definition inverse_str (inner : string) : result string :=
let inverse_str := (Py.partition (section_mark "INVERSE") inner).2 in
Py.min (map (before_mark inverse_str) _NO_ATTR).

(** [re.finditer('(.*?) : (.*?);', text, re.DOTALL)], each group with its
    ['\n\t'] removed: a declaration runs to the first [" : "], its type to
    the next semicolon, and the scan resumes after that semicolon.  [n]
    bounds the number of declarations by the length of the text. *)
Fixpoint declarations (n : nat) (text : string) : list (string * string) :=
match n with
| O => []
| S n' =>
    match Py.find " : " text with
    | None => []
    | Some i =>
        let rest := Py.drop (i + 3) text in
        match Py.find ";" rest with
        | None => []
        | Some j =>
            (Py.replace NL_TAB EmptyString (Py.take i text),
             Py.replace NL_TAB EmptyString (Py.take j rest))
            :: declarations n' (Py.drop (j + 1) rest)
        end
    end
end.

Definition store_declarations (entity : string) (text : string)
  : gmap string IfcSchemaEntityAttribute :=
foldl (fun d '(name, type) =>
         <[name := {| attr_name := name; _raw_type := type;
                      attr_entity := entity |}]> d)
      ∅ (declarations (String.length text) text).

(** [IfcSchemaEntity.__init__]; [subtypeofmatch] is the group found by the
    search for ['.*SUBTYPE OF \((.*?)\);'], when there is one. *)
Definition IfcSchemaEntity_init (name : string) (subtypeofmatch : option string)
  (raw_data : string) : result IfcSchemaEntity :=
inner <-! inner_raw_data raw_data;
attrs <-! attrs_str inner;
inv <-! inverse_str inner;
Ok {| ent_name := name;
      supertype_name := subtypeofmatch;
      _attributes_by_name := store_declarations name attrs;
      _inverse_by_name := store_declarations name inv |}.

(** *** IfcSchema *)

Record IfcSchema := {
  version : string;
  _defined_types_by_name : gmap string IfcSchemaDefinedType;
  _select_types_by_name : gmap string IfcSchemaSelectType;
  _enumerations_by_name : gmap string IfcSchemaEnum;
  _entities_by_name : gmap string IfcSchemaEntity;
}.

(** [IfcSchema._read_entities], from the segmented blocks (name, supertype
    group, raw text), in file order. *)
Fixpoint _read_entities (blocks : list (string * option string * string))
  (ents : gmap string IfcSchemaEntity) : result (gmap string IfcSchemaEntity) :=
match blocks with
| [] => Ok ents
| (name, sup, raw_entity_str) :: rest =>
    e <-! IfcSchemaEntity_init name sup raw_entity_str;
    _read_entities rest (<[name := e]> ents)
end.

Definition get_defined_type (schema : IfcSchema) (defined_type_name : string) :=
dict_get (_defined_types_by_name schema) defined_type_name.

Definition get_entity (schema : IfcSchema) (entity_name : string) :=
dict_get (_entities_by_name schema) entity_name.

Definition ref_type (schema : IfcSchema) (self : IfcSchemaDefinedType)
  : result (option IfcSchemaDefinedType) :=
if is_ref self then
  t <-! get_defined_type schema (_raw_value self); Ok (Some t)
else Ok None.

Definition supertype (schema : IfcSchema) (self : IfcSchemaEntity)
  : result (option IfcSchemaEntity) :=
match supertype_name self with
| Some n => e <-! get_entity schema n; Ok (Some e)
| None => Ok None
end.

Definition attribute_names (self : IfcSchemaEntity) : list string :=
sorted_keys (_attributes_by_name self).

Definition attributes (self : IfcSchemaEntity)
  : result (list IfcSchemaEntityAttribute) :=
mapM (dict_get (_attributes_by_name self)) (attribute_names self).

Definition not_optional_attribute_names (self : IfcSchemaEntity)
  : result (list string) :=
attrs <-! attributes self;
Ok (map attr_name (filter (fun attr => negb (is_optional attr)) attrs)).

Definition not_optional_attributes (self : IfcSchemaEntity)
  : result (list IfcSchemaEntityAttribute) :=
names <-! not_optional_attribute_names self;
mapM (dict_get (_attributes_by_name self)) names.

(** [get_all_attributes]; [depth] is the call depth left. *)
Fixpoint get_all_attributes (depth : nat) (schema : IfcSchema)
  (self : IfcSchemaEntity) (include_optional : bool)
  : result (list IfcSchemaEntityAttribute) :=
match depth with
| O => Raise RecursionError
| S depth' =>
    all_attrs <-! (if include_optional then attributes self
                   else not_optional_attributes self);
    sup <-! supertype schema self;
    match sup with
    | Some parent =>
        inherited <-! get_all_attributes depth' schema parent include_optional;
        Ok (inherited ++ all_attrs)
    | None => Ok all_attrs
    end
end.

Definition _build_name (include_classname : bool) (classname name : string)
  : string :=
if include_classname then classname +:+ "." +:+ name else name.

Definition get_all_attribute_names (depth : nat) (schema : IfcSchema)
  (self : IfcSchemaEntity) (include_optional include_classname : bool)
  : result (list string) :=
attrs <-! get_all_attributes depth schema self include_optional;
Ok (map (fun attr => _build_name include_classname (attr_entity attr)
                       (attr_name attr)) attrs).

(** *** The other queries of the registry and of its entities *)

(** A generator with a condition that can raise. *)
Fixpoint filterM {A} (f : A -> result bool) (l : list A) : result (list A) :=
match l with
| [] => Ok []
| x :: l' =>
    b <-! f x;
    ys <-! filterM f l';
    Ok (if b : bool then x :: ys else ys)
end.

Definition get_attribute (self : IfcSchemaEntity) (attribute_name : string)
  : result IfcSchemaEntityAttribute :=
dict_get (_attributes_by_name self) attribute_name.

Definition get_inverse (self : IfcSchemaEntity) (inverse_name : string)
  : result IfcSchemaEntityAttribute :=
dict_get (_inverse_by_name self) inverse_name.

Definition inverse_names (self : IfcSchemaEntity) : list string :=
sorted_keys (_inverse_by_name self).

Definition inverse (self : IfcSchemaEntity)
  : result (list IfcSchemaEntityAttribute) :=
mapM (dict_get (_inverse_by_name self)) (inverse_names self).



(** [inherits]; [depth] is the call depth left. *)
Fixpoint inherits (depth : nat) (schema : IfcSchema) (self : IfcSchemaEntity)
  (parent_entity_name : string) (deep_inheritance : bool) : result bool :=
match depth with
| O => Raise RecursionError
| S depth' =>
    if bool_decide (supertype_name self = Some parent_entity_name) then Ok true
    else if deep_inheritance then
      sup <-! supertype schema self;
      match sup with
      | Some parent =>
          inherits depth' schema parent parent_entity_name deep_inheritance
      | None => Ok false
      end
    else Ok false
end.

(** [schema.entities]: the entities, ascending by name. *)
Definition entities (schema : IfcSchema) : result (list IfcSchemaEntity) :=
mapM (dict_get (_entities_by_name schema))
  (sorted_keys (_entities_by_name schema)).

Definition get_subtypes (depth : nat) (schema : IfcSchema)
  (self : IfcSchemaEntity) (deep_inheritance : bool)
  : result (list IfcSchemaEntity) :=
ents <-! entities schema;
filterM (fun cur_ent =>
           inherits depth schema cur_ent (ent_name self) deep_inheritance)
  ents.

Definition get_subtype_names (depth : nat) (schema : IfcSchema)
  (self : IfcSchemaEntity) (deep_inheritance : bool) : result (list string) :=
subs <-! get_subtypes depth schema self deep_inheritance;
Ok (map ent_name subs).

Definition entity_inherits (depth : nat) (schema : IfcSchema)
  (entity_name parent_entity_name : string) (deep_inheritance : bool)
  : result bool :=
e <-! dict_get (_entities_by_name schema) entity_name;
inherits depth schema e parent_entity_name deep_inheritance.

Definition get_select_type (schema : IfcSchema) (select_type_name : string) :=
dict_get (_select_types_by_name schema) select_type_name.

Definition get_enumeration (schema : IfcSchema) (enum_name : string) :=
dict_get (_enumerations_by_name schema) enum_name.


(** What [get_element] can return. *)
Inductive element :=
| ElDefinedType (t : IfcSchemaDefinedType)
| ElSelectType (t : IfcSchemaSelectType)
| ElEnum (t : IfcSchemaEnum)
| ElEntity (t : IfcSchemaEntity).

(** [try: return get(name) except KeyError: pass], then the rest. *)
Definition try_get {A} (found : result A) (wrap : A -> element)
  (rest : result (option element)) : result (option element) :=
match found with
| Ok x => Ok (Some (wrap x))
| Raise KeyError => rest
| Raise e => Raise e
end.

Definition get_element (schema : IfcSchema) (element_name : string)
  : result (option element) :=
try_get (get_defined_type schema element_name) ElDefinedType
  (try_get (get_select_type schema element_name) ElSelectType
     (try_get (get_enumeration schema element_name) ElEnum
        (try_get (get_entity schema element_name) ElEntity (Ok None)))).

End Schema.

(** ** Raw records

    The records come from the external provider (an [ifcopenshell] file).
    A record answers [is_a] for its own type and for every supertype of it,
    gives its attribute values as a dictionary ([get_info]), and has the
    relation collections and relation ends of its type as attributes.  The
    records of a file refer to one another, so they are held by number. *)

Module Raw.

Abbreviation rid := nat.

Inductive pyval :=
| VNone
| VStr (s : string)
| VNum (n : Z)
| VEntity (r : rid).

Global Instance pyval_eq_dec : EqDecision pyval.
Proof. solve_decision. Defined.

Record entity_instance := {
  ifc_type : string;
  supertypes : list string;
  fields : gmap string pyval;
  (* inverse collections of objects *)
  VoidsElements : list rid;
  ContainedInStructure : list rid;
  Decomposes : list rid;
  IsDecomposedBy : list rid;
  IsGroupedBy : list rid;
  IsDefinedBy : list rid;
  (* ends of relations *)
  RelatingBuildingElement : rid;
  RelatingStructure : rid;
  RelatingObject : rid;
  RelatedObjects : list rid;
  RelatingType : rid;
  RelatingPropertyDefinition : rid;
  (* property and quantity sets; [HasPropertySets] is optional *)
  HasPropertySets : option (list rid);
  HasProperties : list rid;
  Quantities : list rid;
  (* the value carried by a measure wrapper; [None] when the record is not
     a wrapper and has no such attribute *)
  wrappedValue : option pyval;
}.

(** [raw.is_a(name)] *)
Definition is_a (raw : entity_instance) (name : string) : bool :=
bool_decide (name = ifc_type raw) || bool_decide (name ∈ supertypes raw).

(** [raw.get_info()] *)
Definition get_info (raw : entity_instance) : gmap string pyval :=
<["type" := VStr (ifc_type raw)]> (fields raw).

(** [info.get(key)] *)
Definition dict_get_default (info : gmap string pyval) (key : string) : pyval :=
default VNone (info !! key).

(** The text of a label-valued entry ([GlobalId], [Name], [type]: strings
    in every schema version), [None] when it is unset. *)
Definition as_label (v : pyval) : option string :=
match v with
| VStr s => Some s
| _ => None
end.

Record ifc_file := {
  by_id : rid -> entity_instance;
  ids : list rid;
}.

(** [file.by_type(name)]: the records of that type or of a subtype of it, in
    file order. *)
Definition by_type (file : ifc_file) (name : string) : list rid :=
filter (fun r => is_a (by_id file r) name) (ids file).

End Raw.

(** ** ifc_base_entity.py, ifc_object_entity*.py *)

Module Entity.
Import Raw.

(** What a caller may pass for [raw_obj_entity] and for [expected_types]. *)
Inductive raw_arg :=
| ArgNone
| ArgStr (s : string)
| ArgInstance (r : rid).

Inductive types_arg :=
| TypesNone
| TypesStr (s : string)
| TypesTuple (l : list string).

Record IfcBaseEntity := {
  _raw : rid;
  info : gmap string pyval;
}.

Definition IfcObjectEntity := IfcBaseEntity.

Inductive pset_class :=
| IfcObjectEntityPropertySet
| IfcObjectEntityTypePropertySet.

Record PropertySet := {
  ps_class : pset_class;
  ps_base : IfcBaseEntity;
}.

Inductive Property :=
| IfcObjectEntitySimpleProperty (base : IfcBaseEntity)
| IfcObjectEntityTypeProperty (base : IfcBaseEntity) (_prop_name : option string).

Record Quantity := {
  q_base : IfcBaseEntity;
}.

(** [clean_str(self.name).lower().replace(' ', '')], for a display name
    that is a label or unset: [lower] does not exist on [None]. *)
Definition codename_of (name : option string) : result string :=
match Tools.clean_str name with
| None => Raise AttributeError
| Some cleaned => Ok (Py.replace " " EmptyString (Py.lower cleaned))
end.

(** The attributes an [IfcObjectEntity] answers to: those its constructors
    set and those the class and [IfcBaseEntity] define.  Neither class
    defines [__getattr__], so any other name raises [AttributeError]. *)
Definition IfcObjectEntity_dir : list string :=
["_raw"; "_schema"; "info"; "_parent"; "_kids"; "_property_sets";
 "_quantities"; "_object_type";
 "schema_version"; "type_name"; "global_id"; "name"; "description";
 "codename"; "schema_metadata"; "_print_debug_warning";
 "composition_type"; "is_element"; "object_type"; "parent"; "kids";
 "property_sets"; "quantities"; "_load_object_type"; "_load_parent";
 "_load_kids"; "_get_relating_object"; "_get_related_objects";
 "_load_property_sets"; "_load_quantities"; "get_property_set_codenames";
 "get_property_set"; "get_property_codenames"; "get_properties";
 "get_property"; "get_property_value"].

Section entities.
Context (file : ifc_file) (schema : option Schema.IfcSchema).

Definition raw_of (self : IfcBaseEntity) : entity_instance :=
by_id file (_raw self).

(** The loop of [IfcBaseEntity.__init__] over [expected_types]. *)
Fixpoint check_expected_types (raw : entity_instance)
  (expected_types : list string) : result unit :=
match expected_types with
| [] => Ok ()
| cur_expected_type :: rest =>
    if negb (is_a raw cur_expected_type) then Raise ValueError
    else check_expected_types raw rest
end.

Definition IfcBaseEntity_init (raw_obj_entity : raw_arg)
  (expected_types : types_arg) : result IfcBaseEntity :=
match raw_obj_entity with
| ArgInstance r =>
    match expected_types with
    | TypesTuple l =>
        _ <-! check_expected_types (by_id file r) l;
        Ok {| _raw := r; info := get_info (by_id file r) |}
    | _ => Raise ValueError
    end
| _ => Raise ValueError
end.

Definition type_name (self : IfcBaseEntity) : option string :=
as_label (dict_get_default (info self) "type").

Definition global_id (self : IfcBaseEntity) : option string :=
as_label (dict_get_default (info self) "GlobalId").

Definition name (self : IfcBaseEntity) : option string :=
as_label (dict_get_default (info self) "Name").

Definition codename (self : IfcBaseEntity) : result string :=
codename_of (name self).

Definition schema_metadata (self : IfcBaseEntity)
  : result Schema.IfcSchemaEntity :=
match schema with
| None => Raise AttributeError
| Some s =>
    match type_name self with
    | Some t => Schema.get_entity s t
    | None => Raise KeyError
    end
end.

(** *** IfcObjectEntity *)

Definition IfcObjectEntity_init (raw_obj_entity : raw_arg)
  (expected_types : types_arg) : result IfcObjectEntity :=
IfcBaseEntity_init raw_obj_entity expected_types.

Definition default_expected_types : types_arg := TypesTuple ["IfcObject"].

Definition composition_type (self : IfcObjectEntity) : pyval :=
if is_a (raw_of self) "IfcSpatialStructureElement"
then dict_get_default (info self) "CompositionType"
else VNone.

Definition is_element (self : IfcObjectEntity) : bool :=
bool_decide (composition_type self = VStr "ELEMENT").

(** [self.is_a(name)] on the wrapper (not on [self._raw]). *)
Definition wrapper_is_a (self : IfcObjectEntity) (name : string) : result bool :=
if bool_decide ("is_a" ∈ IfcObjectEntity_dir)
then Ok (is_a (raw_of self) name)
else Raise AttributeError.

Definition _get_relating_object (self : IfcObjectEntity) : option rid :=
let raw := raw_of self in
if is_a raw "IfcFeatureElementSubtraction"
   && (length (VoidsElements raw) =? 1)%nat
then (fun rel => RelatingBuildingElement (by_id file rel))
       <$> VoidsElements raw !! 0%nat
else if is_a raw "IfcElement"
        && (length (ContainedInStructure raw) =? 1)%nat
then (fun rel => RelatingStructure (by_id file rel))
       <$> ContainedInStructure raw !! 0%nat
else if is_a raw "IfcObjectDefinition"
        && (length (Decomposes raw) =? 1)%nat
then (fun rel => RelatingObject (by_id file rel))
       <$> Decomposes raw !! 0%nat
else None.

Definition _load_parent (self : IfcObjectEntity)
  : result (option IfcObjectEntity) :=
match _get_relating_object self with
| Some raw_parent_entity =>
    e <-! IfcObjectEntity_init (ArgInstance raw_parent_entity)
            default_expected_types;
    Ok (Some e)
| None => Ok None
end.

Definition _get_related_objects (self : IfcObjectEntity) : option (list rid) :=
let raw := raw_of self in
if is_a raw "IfcObjectDefinition" then
  let entity_relations :=
    if is_a raw "IfcZone" then IsGroupedBy raw else IsDecomposedBy raw in
  Some (foldl (fun related_objects cur_relation =>
                 related_objects ++ RelatedObjects (by_id file cur_relation))
              [] entity_relations)
else None.

Definition _load_kids (self : IfcObjectEntity)
  : result (option (list IfcObjectEntity)) :=
match _get_related_objects self with
| Some raw_kid_entities =>
    kids <-! Schema.mapM
               (fun r => IfcObjectEntity_init (ArgInstance r)
                           default_expected_types)
               raw_kid_entities;
    Ok (Some kids)
| None => Ok None
end.

(** The relation [_load_object_type] stops at. *)
Definition first_type_relation (rels : list rid) : option rid :=
head (filter (fun rel => is_a (by_id file rel) "IfcRelDefinesByType") rels).

Definition _load_object_type (self : IfcObjectEntity)
  : result (option IfcObjectEntity) :=
if is_a (raw_of self) "IfcObject" then
  match first_type_relation (IsDefinedBy (raw_of self)) with
  | Some cur_rel =>
      e <-! IfcObjectEntity_init
              (ArgInstance (RelatingType (by_id file cur_rel)))
              (TypesTuple ["IfcTypeProduct"]);
      Ok (Some e)
  | None => Ok None
  end
else Ok None.

(** *** Property sets and properties *)

Definition pset_create (raw_data : rid) : result (option PropertySet) :=
if is_a (by_id file raw_data) "IfcPropertySet" then
  b <-! IfcBaseEntity_init (ArgInstance raw_data)
          (TypesTuple ["IfcPropertySet"]);
  Ok (Some {| ps_class := IfcObjectEntityPropertySet; ps_base := b |})
else if is_a (by_id file raw_data) "IfcPropertySetDefinition" then
  b <-! IfcBaseEntity_init (ArgInstance raw_data)
          (TypesTuple ["IfcPropertySetDefinition"]);
  Ok (Some {| ps_class := IfcObjectEntityTypePropertySet; ps_base := b |})
else Ok None.

Definition prop_create (raw_data : rid) (prop_name : option string)
  : result (option Property) :=
if is_a (by_id file raw_data) "IfcSimpleProperty" then
  b <-! IfcBaseEntity_init (ArgInstance raw_data)
          (TypesTuple ["IfcSimpleProperty"]);
  Ok (Some (IfcObjectEntitySimpleProperty b))
else if is_a (by_id file raw_data) "IfcPropertySetDefinition" then
  b <-! IfcBaseEntity_init (ArgInstance raw_data)
          (TypesTuple ["IfcPropertySetDefinition"]);
  Ok (Some (IfcObjectEntityTypeProperty b prop_name))
else Ok None.

(** A loop that creates an instance per item and keeps those that are not
    [None]. *)
Fixpoint create_each {A B} (create : A -> result (option B)) (items : list A)
  : result (list B) :=
match items with
| [] => Ok []
| x :: rest =>
    o <-! create x;
    others <-! create_each create rest;
    Ok (match o with Some y => y :: others | None => others end)
end.

Definition prop_base (p : Property) : IfcBaseEntity :=
match p with
| IfcObjectEntitySimpleProperty b => b
| IfcObjectEntityTypeProperty b _ => b
end.

Definition prop_name (p : Property) : option string :=
match p with
| IfcObjectEntitySimpleProperty b => name b
| IfcObjectEntityTypeProperty _ n => n
end.

Definition prop_codename (p : Property) : result string :=
codename_of (prop_name p).



Definition pset_codename (ps : PropertySet) : result string :=
codename (ps_base ps).

(** [pset.properties] *)
Definition properties (ps : PropertySet) : result (list Property) :=
match ps_class ps with
| IfcObjectEntityPropertySet =>
    create_each (fun cur_prop => prop_create cur_prop None)
      (HasProperties (raw_of (ps_base ps)))
| IfcObjectEntityTypePropertySet =>
    meta <-! schema_metadata (ps_base ps);
    create_each (fun p_name => prop_create (_raw (ps_base ps)) (Some p_name))
      (Schema.attribute_names meta)
end.

(** The raw property sets [_load_property_sets] collects. *)
Definition raw_property_sets (self : IfcObjectEntity) : result (list rid) :=
let raw := raw_of self in
if is_a raw "IfcObject" then
  Ok (foldl (fun raw_psets cur_rel =>
               if is_a (by_id file cur_rel) "IfcRelDefinesByProperties" then
                 let cur_raw_pset :=
                   RelatingPropertyDefinition (by_id file cur_rel) in
                 if negb (is_a (by_id file cur_raw_pset) "IfcElementQuantity")
                 then raw_psets ++ [cur_raw_pset]
                 else raw_psets
               else raw_psets)
            [] (IsDefinedBy raw))
else if is_a raw "IfcTypeObject" then
  match HasPropertySets raw with
  | Some l => Ok l
  | None => Raise TypeError
  end
else Ok [].

Definition _load_property_sets (self : IfcObjectEntity)
  : result (option (list PropertySet)) :=
raw_psets <-! raw_property_sets self;
if (0 <? length raw_psets)%nat then
  psets <-! create_each pset_create raw_psets;
  Ok (Some psets)
else Ok None.

(** The lazily loaded attributes, as values: what the first access loads.
    The raw records do not change, so a later access loads the same; the
    caching itself, and the identity of what is loaded, are in [Memo]. *)
Definition property_sets := _load_property_sets.
Definition parent := _load_parent.

(** *** Quantities *)

Definition quantity_create (raw_data : rid) : result (option Quantity) :=
if is_a (by_id file raw_data) "IfcPhysicalSimpleQuantity" then
  b <-! IfcBaseEntity_init (ArgInstance raw_data)
          (TypesTuple ["IfcPhysicalSimpleQuantity"]);
  Ok (Some {| q_base := b |})
else Ok None.

Definition raw_element_quantities (self : IfcObjectEntity) : list rid :=
omap (fun cur_rel =>
        if is_a (by_id file cur_rel) "IfcRelDefinesByProperties"
           && is_a (by_id file (RelatingPropertyDefinition (by_id file cur_rel)))
                "IfcElementQuantity"
        then Some (RelatingPropertyDefinition (by_id file cur_rel))
        else None)
     (IsDefinedBy (raw_of self)).

Definition _load_quantities (self : IfcObjectEntity)
  : result (option (list Quantity)) :=
if is_a (raw_of self) "IfcObject" then
  all_quantities <-!
    create_each quantity_create
      (concat (map (fun cur_elmt_qty => Quantities (by_id file cur_elmt_qty))
                 (raw_element_quantities self)));
  Ok (Some all_quantities)
else Ok None.

(** *** Lookups *)

(** [pset_codename is None or pset.codename == pset_codename] *)
Definition pset_selected (wanted : option string) (pset : PropertySet)
  : result bool :=
match wanted with
| None => Ok true
| Some c => cn <-! pset_codename pset; Ok (bool_decide (cn = c))
end.

Fixpoint get_properties_loop (wanted : option string) (psets : list PropertySet)
  (props : list Property) : result (list Property) :=
match psets with
| [] => Ok props
| pset :: rest =>
    sel <-! pset_selected wanted pset;
    if sel : bool then
      ps <-! properties pset;
      get_properties_loop wanted rest (props ++ ps)
    else get_properties_loop wanted rest props
end.

Definition get_properties (self : IfcObjectEntity) (pset_codename : option string)
  : result (list Property) :=
psets <-! property_sets self;
get_properties_loop pset_codename (default [] psets) [].

Fixpoint get_property_loop (property_codename : string) (props : list Property)
  : result (option Property) :=
match props with
| [] => Ok None
| prop :: rest =>
    cn <-! prop_codename prop;
    if bool_decide (property_codename = cn) then Ok (Some prop)
    else get_property_loop property_codename rest
end.

Definition get_property (self : IfcObjectEntity) (property_codename : string)
  (pset_codename : option string) : result (option Property) :=
props <-! get_properties self pset_codename;
get_property_loop property_codename props.


(** *** The other lookups *)

Definition get_property_set_codenames (self : IfcObjectEntity)
  : result (list string) :=
psets <-! property_sets self;
Schema.mapM pset_codename (default [] psets).

Fixpoint get_property_set_loop (wanted : string) (psets : list PropertySet)
  : result (option PropertySet) :=
match psets with
| [] => Ok None
| pset :: rest =>
    cn <-! pset_codename pset;
    if bool_decide (wanted = cn) then Ok (Some pset)
    else get_property_set_loop wanted rest
end.

Definition get_property_set (self : IfcObjectEntity) (pset_codename : string)
  : result (option PropertySet) :=
psets <-! property_sets self;
get_property_set_loop pset_codename (default [] psets).

(** [pset.get_property_codenames()] *)
Definition pset_get_property_codenames (ps : PropertySet)
  : result (list string) :=
props <-! properties ps;
Schema.mapM prop_codename props.

Fixpoint get_property_codenames_loop (wanted : option string)
  (psets : list PropertySet) (prop_codenames : list string)
  : result (list string) :=
match psets with
| [] => Ok prop_codenames
| pset :: rest =>
    sel <-! pset_selected wanted pset;
    if sel : bool then
      cns <-! pset_get_property_codenames pset;
      get_property_codenames_loop wanted rest (prop_codenames ++ cns)
    else get_property_codenames_loop wanted rest prop_codenames
end.

Definition get_property_codenames (self : IfcObjectEntity)
  (pset_codename : option string) : result (list string) :=
psets <-! property_sets self;
get_property_codenames_loop pset_codename (default [] psets) [].

(** [IfcBaseEntity.__eq__], between two instances of one class. *)
Definition base_eq (self other : IfcBaseEntity) : bool :=
bool_decide (global_id self = global_id other).

(** *** Quantities: value and unit *)

(** [self.type_name[len('IfcQuantity'):]] followed by ['Value'] names the
    field; a missing field leaves [None]. *)
Definition quantity_value (q : Quantity) : result pyval :=
match type_name (q_base q) with
| Some t =>
    Ok (default VNone
          (info (q_base q) !! (Py.drop (String.length "IfcQuantity") t
                               +:+ "Value")))
| None => Raise TypeError
end.

Definition quantity_unit (q : Quantity) : pyval :=
dict_get_default (info (q_base q)) "Unit".

Definition kids := _load_kids.
Definition object_type := _load_object_type.
Definition quantities := _load_quantities.

End entities.
End Entity.

(** ** ifc_data_reader.py *)

Module Reader.
Import Raw Entity.

Section reader.
Context (file : ifc_file) (schema : option Schema.IfcSchema).

(** [_read_entities(entity_name)], without a parent filter, for a type name
    the provider knows (for another name [by_type] raises, and the reader
    turns that into [ValueError]). *)
Definition _read_entities (entity_name : string) : result (list IfcObjectEntity) :=
Schema.mapM
  (fun cur_raw_entity =>
     IfcObjectEntity_init file (ArgInstance cur_raw_entity)
       default_expected_types)
  (by_type file entity_name).

Fixpoint read_sites_loop (undivided_only : bool) (ents : list IfcObjectEntity)
  (site_entities : list IfcObjectEntity) : result (list IfcObjectEntity) :=
match ents with
| [] => Ok site_entities
| cur_ent :: rest =>
    if negb undivided_only || (undivided_only && is_element file cur_ent)
    then read_sites_loop undivided_only rest (site_entities ++ [cur_ent])
    else
      p <-! parent file cur_ent;
      match p with
      | None => read_sites_loop undivided_only rest site_entities
      | Some cur_parent =>
          if is_element file cur_parent then
            is_site <-! wrapper_is_a file cur_parent "IfcSite";
            if is_site : bool
            then read_sites_loop undivided_only rest
                   (site_entities ++ [cur_parent])
            else read_sites_loop undivided_only rest site_entities
          else read_sites_loop undivided_only rest site_entities
      end
end.

Definition read_sites (undivided_only : bool) : result (list IfcObjectEntity) :=
ents <-! _read_entities "IfcSite";
read_sites_loop undivided_only ents [].

(** What a caller may pass for [parent_entity]. *)
Inductive parent_arg :=
| ParentNone
| ParentOther
| ParentEntity (e : IfcObjectEntity).

(** [cur_entity.parent.global_id == parent_entity.global_id] *)
Definition has_parent (parent_entity cur_entity : IfcObjectEntity)
  : result bool :=
p <-! parent file cur_entity;
match p with
| Some cur_parent =>
    Ok (bool_decide (global_id cur_parent = global_id parent_entity))
| None => Raise AttributeError
end.

(** [_read_entities(entity_name, parent_entity=...)] *)
Definition read_entity (entity_name : string) (parent_entity : parent_arg)
  : result (list IfcObjectEntity) :=
match parent_entity with
| ParentOther => Raise ValueError
| ParentNone => _read_entities entity_name
| ParentEntity p =>
    entities <-! _read_entities entity_name;
    Schema.filterM (has_parent p) entities
end.

Definition _read_project : result IfcObjectEntity :=
res <-! _read_entities "IfcProject";
match res with
| [project] => Ok project
| _ => Raise TypeError
end.

(** [not undivided_only or (undivided_only and cur_ent.is_element)] *)
Definition kept (undivided_only : bool) (cur_ent : IfcObjectEntity) : bool :=
negb undivided_only || (undivided_only && is_element file cur_ent).

Definition read_buildings (undivided_only : bool) (parent_entity : parent_arg)
  : result (list IfcObjectEntity) :=
ents <-! read_entity "IfcBuilding" parent_entity;
Ok (filter (kept undivided_only) ents).

Definition read_building_storeys (undivided_only : bool)
  (parent_entity : parent_arg) : result (list IfcObjectEntity) :=
ents <-! read_entity "IfcBuildingStorey" parent_entity;
Ok (filter (kept undivided_only) ents).

Definition read_spaces (undivided_only : bool) (parent_entity : parent_arg)
  : result (list IfcObjectEntity) :=
ents <-! read_entity "IfcSpace" parent_entity;
Ok (filter (kept undivided_only) ents).

Definition read_zones : result (list IfcObjectEntity) :=
_read_entities "IfcZone".

Definition read_walls : result (list IfcObjectEntity) :=
walls <-! _read_entities "IfcWall";
standard_walls <-! _read_entities "IfcWallStandardCase";
Ok (walls ++ standard_walls).

Definition read_windows : result (list IfcObjectEntity) :=
_read_entities "IfcWindow".

Definition get_object (entity : raw_arg) : result IfcObjectEntity :=
IfcObjectEntity_init file entity default_expected_types.

End reader.
End Reader.

(** ** The lazily loaded attributes

    The wrappers are objects with identity: each lives in a heap cell, a
    lazily loaded attribute holds [None] or the address of what was loaded,
    and a tuple is an object of its own.  A computation takes the heap and
    gives a result or an exception, and the heap it leaves. *)

Module Memo.
Import Raw Entity.

Abbreviation addr := nat.

Record object_entity := {
  oe_base : IfcBaseEntity;
  _parent : option addr;
  _kids : option addr;
  _property_sets : option addr;
  _quantities : option addr;
  _object_type : option addr;
}.

Record pset_entity := {
  pe_class : pset_class;
  pe_base : IfcBaseEntity;
  _properties : option addr;
}.

Inductive cell :=
| CTuple (items : list addr)
| CObjectEntity (o : object_entity)
| CPropertySet (p : pset_entity)
| CProperty (p : Property) (property_set : addr)
| CQuantity (q : Quantity).

Abbreviation heap := (list cell).

Definition M (A : Type) := heap -> result A * heap.

Definition ret {A} (a : A) : M A := fun h => (Ok a, h).

Definition raise {A} (e : exn) : M A := fun h => (Raise e, h).

Definition bind {A B} (m : M A) (k : A -> M B) : M B :=
fun h =>
  match m h with
  | (Ok a, h') => k a h'
  | (Raise e, h') => (Raise e, h')
  end.

Notation "x <- m ;; k" := (bind m (fun x => k))
  (at level 100, m at next level, right associativity).

(** A computation that does not touch the heap. *)
Definition lift {A} (r : result A) : M A := fun h => (r, h).

(** A new object: the next free address. *)
Definition alloc (c : cell) : M addr := fun h => (Ok (length h), h ++ [c]).

(** An attribute of a class that holds [None] or an object: how to read it
    from a cell (nothing for a cell of another class) and how to write it. *)
Record attribute := {
  fget : cell -> option (option addr);
  fset : option addr -> cell -> cell;
}.

(** [self.x]; asking an object for an attribute it does not have raises
    [AttributeError]. *)
Definition get_attr (F : attribute) (self : addr) : M (option addr) :=
fun h =>
  match h !! self ≫= fget F with
  | Some v => (Ok v, h)
  | None => (Raise AttributeError, h)
  end.

(** [self.x = v] *)
Definition set_attr (F : attribute) (self : addr) (v : option addr) : M unit :=
fun h =>
  match h !! self with
  | Some c =>
      match fget F c with
      | Some _ => (Ok (), <[self := fset F v c]> h)
      | None => (Raise AttributeError, h)
      end
  | None => (Raise AttributeError, h)
  end.

(** The shape of every lazily loaded property of the package:
    [if self.x is None: self.x = self.load(); return self.x]. *)
Definition lazy (F : attribute) (load : addr -> M (option addr)) (self : addr)
  : M (option addr) :=
cur <- get_attr F self;;
match cur with
| Some v => ret (Some v)
| None =>
    r <- load self;;
    _ <- set_attr F self r;;
    get_attr F self
end.

Definition F_parent : attribute := {|
  fget c := match c with CObjectEntity o => Some (_parent o) | _ => None end;
  fset v c :=
    match c with
    | CObjectEntity o =>
        CObjectEntity {| oe_base := oe_base o; _parent := v; _kids := _kids o;
                         _property_sets := _property_sets o;
                         _quantities := _quantities o;
                         _object_type := _object_type o |}
    | _ => c
    end |}.

Definition F_kids : attribute := {|
  fget c := match c with CObjectEntity o => Some (_kids o) | _ => None end;
  fset v c :=
    match c with
    | CObjectEntity o =>
        CObjectEntity {| oe_base := oe_base o; _parent := _parent o; _kids := v;
                         _property_sets := _property_sets o;
                         _quantities := _quantities o;
                         _object_type := _object_type o |}
    | _ => c
    end |}.

Definition F_property_sets : attribute := {|
  fget c :=
    match c with CObjectEntity o => Some (_property_sets o) | _ => None end;
  fset v c :=
    match c with
    | CObjectEntity o =>
        CObjectEntity {| oe_base := oe_base o; _parent := _parent o;
                         _kids := _kids o; _property_sets := v;
                         _quantities := _quantities o;
                         _object_type := _object_type o |}
    | _ => c
    end |}.

Definition F_quantities : attribute := {|
  fget c := match c with CObjectEntity o => Some (_quantities o) | _ => None end;
  fset v c :=
    match c with
    | CObjectEntity o =>
        CObjectEntity {| oe_base := oe_base o; _parent := _parent o;
                         _kids := _kids o;
                         _property_sets := _property_sets o;
                         _quantities := v;
                         _object_type := _object_type o |}
    | _ => c
    end |}.

Definition F_object_type : attribute := {|
  fget c := match c with CObjectEntity o => Some (_object_type o) | _ => None end;
  fset v c :=
    match c with
    | CObjectEntity o =>
        CObjectEntity {| oe_base := oe_base o; _parent := _parent o;
                         _kids := _kids o;
                         _property_sets := _property_sets o;
                         _quantities := _quantities o;
                         _object_type := v |}
    | _ => c
    end |}.

Definition F_properties : attribute := {|
  fget c := match c with CPropertySet p => Some (_properties p) | _ => None end;
  fset v c :=
    match c with
    | CPropertySet p =>
        CPropertySet {| pe_class := pe_class p; pe_base := pe_base p;
                        _properties := v |}
    | _ => c
    end |}.

(** [IfcObjectEntity.__init__] after the checks of the base class. *)
Definition new_object_entity (base : IfcBaseEntity) : cell :=
CObjectEntity {| oe_base := base; _parent := None; _kids := None;
                 _property_sets := None; _quantities := None;
                 _object_type := None |}.

Definition new_pset_entity (ps : PropertySet) : cell :=
CPropertySet {| pe_class := ps_class ps; pe_base := ps_base ps;
                _properties := None |}.

Section memo.
Context (file : ifc_file) (schema : option Schema.IfcSchema).

(** [self._raw] and [self.info] of an object entity *)
Definition object_base (self : addr) : M IfcBaseEntity :=
fun h =>
  match h !! self with
  | Some (CObjectEntity o) => (Ok (oe_base o), h)
  | _ => (Raise AttributeError, h)
  end.

Definition pset_self (self : addr) : M PropertySet :=
fun h =>
  match h !! self with
  | Some (CPropertySet p) =>
      (Ok {| ps_class := pe_class p; ps_base := pe_base p |}, h)
  | _ => (Raise AttributeError, h)
  end.

Definition tuple_items (t : addr) : M (list addr) :=
fun h =>
  match h !! t with
  | Some (CTuple items) => (Ok items, h)
  | _ => (Raise TypeError, h)
  end.

(** [IfcObjectEntity(raw, schema, expected_types=...)] *)
Definition IfcObjectEntity_new (raw : rid) (expected_types : types_arg)
  : M addr :=
e <- lift (IfcObjectEntity_init file (ArgInstance raw) expected_types);;
alloc (new_object_entity e).

Fixpoint new_each {A} (new : A -> M addr) (items : list A) : M (list addr) :=
match items with
| [] => ret []
| x :: rest =>
    a <- new x;;
    others <- new_each new rest;;
    ret (a :: others)
end.

(** A loop that creates an object per item and keeps those created. *)
Fixpoint new_each_opt {A} (new : A -> M (option addr)) (items : list A)
  : M (list addr) :=
match items with
| [] => ret []
| x :: rest =>
    o <- new x;;
    others <- new_each_opt new rest;;
    ret (match o with Some a => a :: others | None => others end)
end.

Definition _load_parent (self : addr) : M (option addr) :=
base <- object_base self;;
match _get_relating_object file base with
| Some raw_parent_entity =>
    a <- IfcObjectEntity_new raw_parent_entity default_expected_types;;
    ret (Some a)
| None => ret None
end.

Definition _load_kids (self : addr) : M (option addr) :=
base <- object_base self;;
match _get_related_objects file base with
| Some raw_kid_entities =>
    kids <- new_each
              (fun r => IfcObjectEntity_new r default_expected_types)
              raw_kid_entities;;
    t <- alloc (CTuple kids);;
    ret (Some t)
| None => ret None
end.

Definition _load_object_type (self : addr) : M (option addr) :=
base <- object_base self;;
if is_a (raw_of file base) "IfcObject" then
  match first_type_relation file (IsDefinedBy (raw_of file base)) with
  | Some cur_rel =>
      a <- IfcObjectEntity_new (RelatingType (by_id file cur_rel))
             (TypesTuple ["IfcTypeProduct"]);;
      ret (Some a)
  | None => ret None
  end
else ret None.

Definition pset_new (raw_data : rid) : M (option addr) :=
o <- lift (pset_create file raw_data);;
match o with
| Some ps => a <- alloc (new_pset_entity ps);; ret (Some a)
| None => ret None
end.

Definition _load_property_sets (self : addr) : M (option addr) :=
base <- object_base self;;
raw_psets <- lift (raw_property_sets file base);;
if (0 <? length raw_psets)%nat then
  psets <- new_each_opt pset_new raw_psets;;
  t <- alloc (CTuple psets);;
  ret (Some t)
else ret None.

Definition quantity_new (raw_data : rid) : M (option addr) :=
o <- lift (quantity_create file raw_data);;
match o with
| Some q => a <- alloc (CQuantity q);; ret (Some a)
| None => ret None
end.

Definition _load_quantities (self : addr) : M (option addr) :=
base <- object_base self;;
if is_a (raw_of file base) "IfcObject" then
  all_quantities <-
    new_each_opt quantity_new
      (concat (map (fun cur_elmt_qty => Quantities (by_id file cur_elmt_qty))
                 (raw_element_quantities file base)));;
  t <- alloc (CTuple all_quantities);;
  ret (Some t)
else ret None.

(** [self._properties += (prop,)] *)
Definition append_property (self : addr) (prop : addr) : M unit :=
cur <- get_attr F_properties self;;
match cur with
| Some t =>
    items <- tuple_items t;;
    t' <- alloc (CTuple (items ++ [prop]));;
    set_attr F_properties self (Some t')
| None => raise TypeError
end.

(** The loop of [_load_properties]: create a property, append it when it is
    not [None]. *)
Fixpoint load_properties_loop {A} (create : A -> result (option Property))
  (self : addr) (items : list A) : M unit :=
match items with
| [] => ret ()
| x :: rest =>
    o <- lift (create x);;
    _ <- match o with
         | Some p => a <- alloc (CProperty p self);; append_property self a
         | None => ret ()
         end;;
    load_properties_loop create self rest
end.

Definition _load_properties (self : addr) : M (option addr) :=
ps <- pset_self self;;
cur <- get_attr F_properties self;;
_ <- match cur with
     | None =>
         t <- alloc (CTuple []);;
         _ <- set_attr F_properties self (Some t);;
         match ps_class ps with
         | IfcObjectEntityPropertySet =>
             load_properties_loop
               (fun cur_prop => prop_create file cur_prop None) self
               (HasProperties (raw_of file (ps_base ps)))
         | IfcObjectEntityTypePropertySet =>
             meta <- lift (schema_metadata schema (ps_base ps));;
             load_properties_loop
               (fun p_name =>
                  prop_create file (_raw (ps_base ps)) (Some p_name)) self
               (Schema.attribute_names meta)
         end
     | Some _ => ret ()
     end;;
get_attr F_properties self.

Definition parent : addr -> M (option addr) := lazy F_parent _load_parent.
Definition kids : addr -> M (option addr) := lazy F_kids _load_kids.
Definition property_sets : addr -> M (option addr) :=
lazy F_property_sets _load_property_sets.
Definition quantities : addr -> M (option addr) :=
lazy F_quantities _load_quantities.
Definition object_type : addr -> M (option addr) :=
lazy F_object_type _load_object_type.
Definition properties : addr -> M (option addr) :=
lazy F_properties _load_properties.

End memo.
End Memo.

(** ** Notions used in the statements *)

(** The characters outside a given set. *)
Definition not_in (chars : string) (c : ascii) : bool :=
negb (Py.mem_char c chars).


(** ** Sample data *)

(** [TYPE IfcLabel = STRING(255);] *)
Definition IfcLabel_type : Schema.IfcSchemaDefinedType :=
{| Schema.dt_name := "IfcLabel"; Schema._raw_value := "STRING(255)" |}.

(** A select type whose member list names [IfcWall] twice. *)
Definition repeating_select : Schema.IfcSchemaSelectType :=
{| Schema.st_name := "IfcWallSelect";
   Schema._raw_types := Some "IfcWall,IfcSlab,IfcWall" |}.

(** Raw records are written with their type, its supertypes, their
    attribute values, their relation collections and their relation ends. *)
Definition mk_record (ty : string) (sups : list string)
  (values : list (string * Raw.pyval)) (colls : list (string * list Raw.rid))
  (ends : list (string * Raw.rid)) : Raw.entity_instance :=
let coll k := default [] ((list_to_map colls : gmap string (list Raw.rid)) !! k) in
let end_ k := default 0%nat ((list_to_map ends : gmap string Raw.rid) !! k) in
{| Raw.ifc_type := ty;
   Raw.supertypes := sups;
   Raw.fields := list_to_map values;
   Raw.VoidsElements := coll "VoidsElements";
   Raw.ContainedInStructure := coll "ContainedInStructure";
   Raw.Decomposes := coll "Decomposes";
   Raw.IsDecomposedBy := coll "IsDecomposedBy";
   Raw.IsGroupedBy := coll "IsGroupedBy";
   Raw.IsDefinedBy := coll "IsDefinedBy";
   Raw.RelatingBuildingElement := end_ "RelatingBuildingElement";
   Raw.RelatingStructure := end_ "RelatingStructure";
   Raw.RelatingObject := end_ "RelatingObject";
   Raw.RelatedObjects := coll "RelatedObjects";
   Raw.RelatingType := end_ "RelatingType";
   Raw.RelatingPropertyDefinition := end_ "RelatingPropertyDefinition";
   Raw.HasPropertySets :=
     (list_to_map colls : gmap string (list Raw.rid)) !! "HasPropertySets";
   Raw.HasProperties := coll "HasProperties";
   Raw.Quantities := coll "Quantities";
   Raw.wrappedValue := None |}.

Definition mk_file (records : list Raw.entity_instance) : Raw.ifc_file :=
{| Raw.by_id r := default (mk_record "" [] [] [] []) (records !! r);
   Raw.ids := seq 0 (length records) |}.

Definition object_chain : list string :=
["IfcObject"; "IfcObjectDefinition"; "IfcRoot"].
Definition spatial_chain : list string :=
"IfcSpatialStructureElement" :: "IfcProduct" :: object_chain.
Definition element_chain : list string :=
"IfcElement" :: "IfcProduct" :: object_chain.
Definition relation_chain (kind : string) : list string :=
[kind; "IfcRelationship"; "IfcRoot"].

(** An opening that voids nothing and is contained in a storey:
    #0 the opening, #1 the containment relation, #2 the storey. *)
Definition opening_file : Raw.ifc_file :=
mk_file
  [mk_record "IfcOpeningElement"
     ("IfcFeatureElementSubtraction" :: "IfcFeatureElement" :: element_chain)
     [("GlobalId", Raw.VStr "0opening"); ("Name", Raw.VStr "Opening 1")]
     [("ContainedInStructure", [1%nat])] [];
   mk_record "IfcRelContainedInSpatialStructure" (relation_chain "IfcRelConnects")
     [("GlobalId", Raw.VStr "1contains")]
     [] [("RelatingStructure", 2%nat)];
   mk_record "IfcBuildingStorey" spatial_chain
     [("GlobalId", Raw.VStr "2storey"); ("Name", Raw.VStr "Level 1");
      ("CompositionType", Raw.VStr "ELEMENT")]
     [] []].

(** Two sites: #0 an undivided site, #1 a complex site that decomposes #0
    through the aggregation #2. *)
Definition two_sites_file : Raw.ifc_file :=
mk_file
  [mk_record "IfcSite" spatial_chain
     [("GlobalId", Raw.VStr "0site"); ("Name", Raw.VStr "Site");
      ("CompositionType", Raw.VStr "ELEMENT")]
     [("IsDecomposedBy", [2%nat])] [];
   mk_record "IfcSite" spatial_chain
     [("GlobalId", Raw.VStr "1site"); ("Name", Raw.VStr "Site part");
      ("CompositionType", Raw.VStr "COMPLEX")]
     [("Decomposes", [2%nat])] [];
   mk_record "IfcRelAggregates" (relation_chain "IfcRelDecomposes")
     [("GlobalId", Raw.VStr "2aggregates")]
     [("RelatedObjects", [1%nat])] [("RelatingObject", 0%nat)]].

(** The wrapper of a record of a file. *)
Definition wrap (file : Raw.ifc_file) (r : Raw.rid) : Entity.IfcBaseEntity :=
{| Entity._raw := r; Entity.info := Raw.get_info (Raw.by_id file r) |}.

(** The three rules of parent resolution: the kind of the record and a
    relation collection of exactly one entry. *)
Definition voids_rule (raw : Raw.entity_instance) : Prop :=
Raw.is_a raw "IfcFeatureElementSubtraction" = true
/\ length (Raw.VoidsElements raw) = 1%nat.

Definition containment_rule (raw : Raw.entity_instance) : Prop :=
Raw.is_a raw "IfcElement" = true
/\ length (Raw.ContainedInStructure raw) = 1%nat.

Definition decomposition_rule (raw : Raw.entity_instance) : Prop :=
Raw.is_a raw "IfcObjectDefinition" = true
/\ length (Raw.Decomposes raw) = 1%nat.


(** The body of [IfcObject] in the schema, after the header: an attribute,
    an inverse, a rule. *)
Definition IfcObject_inner : string :=
Schema.NL_TAB +:+ "ObjectType : OPTIONAL IfcLabel;"
+:+ Py.chr Schema.NL +:+ " INVERSE"
+:+ Schema.NL_TAB
+:+ "IsDefinedBy : SET [0:?] OF IfcRelDefines FOR RelatedObjects;"
+:+ Py.chr Schema.NL +:+ " WHERE"
+:+ Schema.NL_TAB +:+ "WR1 : SIZEOF(QUERY(temp <* IsDefinedBy)) <= 1;".


(** The supertype chain of an entity in a schema, from the root down to the
    entity itself. *)
Inductive chain (schema : Schema.IfcSchema)
  : Schema.IfcSchemaEntity -> list Schema.IfcSchemaEntity -> Prop :=
| chain_root e :
    Schema.supertype_name e = None -> chain schema e [e]
| chain_step e n p l :
    Schema.supertype_name e = Some n ->
    Schema._entities_by_name schema !! n = Some p ->
    chain schema p l ->
    chain schema e (l ++ [e]).

(** What the constructors establish: an attribute is stored under its name
    and knows the entity that declares it; an entity is stored under its
    name. *)
Definition entity_wf (e : Schema.IfcSchemaEntity) : Prop :=
forall k a,
  Schema._attributes_by_name e !! k = Some a ->
  Schema.attr_name a = k /\ Schema.attr_entity a = Schema.ent_name e.

Definition schema_wf (schema : Schema.IfcSchema) : Prop :=
forall k e,
  Schema._entities_by_name schema !! k = Some e ->
  Schema.ent_name e = k /\ entity_wf e.




(** Three entity blocks of the schema, as the segmenter gives them: name,
    supertype group, raw text. *)
Definition sample_blocks : list (string * option string * string) :=
[("IfcRoot", None,
  "ABSTRACT SUPERTYPE OF (ONEOF (IfcObjectDefinition));"
  +:+ Schema.NL_TAB +:+ "GlobalId : IfcGloballyUniqueId;"
  +:+ Schema.NL_TAB +:+ "OwnerHistory : IfcOwnerHistory;"
  +:+ Schema.NL_TAB +:+ "Name : OPTIONAL IfcLabel;"
  +:+ Schema.NL_TAB +:+ "Description : OPTIONAL IfcText;"
  +:+ Py.chr Schema.NL);
 ("IfcObjectDefinition", Some "IfcRoot",
  "ABSTRACT SUPERTYPE OF (ONEOF (IfcObject))"
  +:+ Py.chr Schema.NL +:+ " SUBTYPE OF (IfcRoot);"
  +:+ Py.chr Schema.NL +:+ " INVERSE"
  +:+ Schema.NL_TAB
  +:+ "Decomposes : SET [0:1] OF IfcRelDecomposes FOR RelatedObjects;"
  +:+ Py.chr Schema.NL);
 ("IfcObject", Some "IfcObjectDefinition",
  "ABSTRACT SUPERTYPE OF (ONEOF (IfcProduct))"
  +:+ Py.chr Schema.NL +:+ " SUBTYPE OF (IfcObjectDefinition);"
  +:+ IfcObject_inner +:+ Py.chr Schema.NL)].

Definition sample_schema : Schema.IfcSchema :=
{| Schema.version := "IFC2X3";
   Schema._defined_types_by_name := ∅;
   Schema._select_types_by_name := ∅;
   Schema._enumerations_by_name := ∅;
   Schema._entities_by_name :=
     match Schema._read_entities sample_blocks ∅ with
     | Ok ents => ents
     | Raise _ => ∅
     end |}.

Definition sample_entity (name : string) : Schema.IfcSchemaEntity :=
default {| Schema.ent_name := name; Schema.supertype_name := None;
           Schema._attributes_by_name := ∅; Schema._inverse_by_name := ∅ |}
  (Schema._entities_by_name sample_schema !! name).

(** The lazily loaded attributes of the package. *)
Inductive accessor :=
| Parent | Kids | PropertySets | Quantities | ObjectType | Properties.

Definition access (file : Raw.ifc_file) (schema : option Schema.IfcSchema)
  (a : accessor) : Memo.addr -> Memo.M (option Memo.addr) :=
match a with
| Parent => Memo.parent file
| Kids => Memo.kids file
| PropertySets => Memo.property_sets file
| Quantities => Memo.quantities file
| ObjectType => Memo.object_type file
| Properties => Memo.properties file schema
end.

(** Reading back what was written, and writing what is there. *)
Definition lawful (F : Memo.attribute) : Prop :=
(forall c v, Memo.fget F c = Some v -> Memo.fset F v c = c)
/\ (forall c v w, Memo.fget F c = Some w -> Memo.fget F (Memo.fset F v c) = Some v).

(** A load that gives [None] creates nothing. *)
Definition quiet (load : Memo.addr -> Memo.M (option Memo.addr)) : Prop :=
forall self h h1, load self h = (Ok None, h1) -> h1 = h.

(** The heap in which the opening has just been wrapped. *)
Definition opening_heap : Memo.heap :=
[Memo.new_object_entity (wrap opening_file 0)].

(** While the properties of a set are loaded, its attribute holds a tuple. *)
Definition holds_tuple (self : Memo.addr) (h : Memo.heap) : Prop :=
exists t, h !! self ≫= Memo.fget Memo.F_properties = Some (Some t).

(** The same heap once the parent of the opening has been asked for: the
    storey lives at address 1 and the opening remembers it. *)
Definition opening_heap_loaded : Memo.heap :=
[Memo.fset Memo.F_parent (Some 1%nat)
   (Memo.new_object_entity (wrap opening_file 0));
 Memo.new_object_entity (wrap opening_file 2)].





(** A measure wrapper around a value. *)
Definition mk_measure (ty : string) (v : Raw.pyval) : Raw.entity_instance :=
{| Raw.ifc_type := ty;
   Raw.supertypes := [];
   Raw.fields := ∅;
   Raw.VoidsElements := [];
   Raw.ContainedInStructure := [];
   Raw.Decomposes := [];
   Raw.IsDecomposedBy := [];
   Raw.IsGroupedBy := [];
   Raw.IsDefinedBy := [];
   Raw.RelatingBuildingElement := 0%nat;
   Raw.RelatingStructure := 0%nat;
   Raw.RelatingObject := 0%nat;
   Raw.RelatedObjects := [];
   Raw.RelatingType := 0%nat;
   Raw.RelatingPropertyDefinition := 0%nat;
   Raw.HasPropertySets := None;
   Raw.HasProperties := [];
   Raw.Quantities := [];
   Raw.wrappedValue := Some v |}.

Definition pset_chain : list string :=
["IfcPropertySetDefinition"; "IfcPropertyDefinition"; "IfcRoot"].

Definition property_chain : list string := ["IfcSimpleProperty"; "IfcProperty"].

(** A door with two property sets: #0 the door; #1, #3 the defining
    relations; #2 the set [Dimensions] with #5 [Height] and #7 [Width];
    #4 the set [Identity Data] with #9 [Mark]; #6, #8, #10 the values. *)
Definition door_file : Raw.ifc_file :=
mk_file
  [mk_record "IfcDoor" ("IfcBuildingElement" :: element_chain)
     [("GlobalId", Raw.VStr "0door"); ("Name", Raw.VStr "Door 1")]
     [("IsDefinedBy", [1; 3]%nat)] [];
   mk_record "IfcRelDefinesByProperties" (relation_chain "IfcRelDefines")
     [] [("RelatedObjects", [0%nat])] [("RelatingPropertyDefinition", 2%nat)];
   mk_record "IfcPropertySet" pset_chain
     [("GlobalId", Raw.VStr "2pset"); ("Name", Raw.VStr "Dimensions")]
     [("HasProperties", [5; 7]%nat)] [];
   mk_record "IfcRelDefinesByProperties" (relation_chain "IfcRelDefines")
     [] [("RelatedObjects", [0%nat])] [("RelatingPropertyDefinition", 4%nat)];
   mk_record "IfcPropertySet" pset_chain
     [("GlobalId", Raw.VStr "4pset"); ("Name", Raw.VStr "Identity Data")]
     [("HasProperties", [9%nat])] [];
   mk_record "IfcPropertySingleValue" property_chain
     [("Name", Raw.VStr "Height"); ("NominalValue", Raw.VEntity 6)] [] [];
   mk_measure "IfcLengthMeasure" (Raw.VNum 2110);
   mk_record "IfcPropertySingleValue" property_chain
     [("Name", Raw.VStr "Width"); ("NominalValue", Raw.VEntity 8)] [] [];
   mk_measure "IfcLengthMeasure" (Raw.VNum 910);
   mk_record "IfcPropertySingleValue" property_chain
     [("Name", Raw.VStr "Mark"); ("NominalValue", Raw.VEntity 10)] [] [];
   mk_measure "IfcLabel" (Raw.VStr "D1")].




(** The attribute an accessor caches in, and the load it runs. *)
Definition attr_of (a : accessor) : Memo.attribute :=
match a with
| Parent => Memo.F_parent
| Kids => Memo.F_kids
| PropertySets => Memo.F_property_sets
| Quantities => Memo.F_quantities
| ObjectType => Memo.F_object_type
| Properties => Memo.F_properties
end.

Definition load_of (file : Raw.ifc_file) (schema : option Schema.IfcSchema)
  (a : accessor) : Memo.addr -> Memo.M (option Memo.addr) :=
match a with
| Parent => Memo._load_parent file
| Kids => Memo._load_kids file
| PropertySets => Memo._load_property_sets file
| Quantities => Memo._load_quantities file
| ObjectType => Memo._load_object_type file
| Properties => Memo._load_properties file schema
end.

(** One access to a lazily loaded attribute of some object of the heap,
    whatever comes of it. *)
Definition access_step (file : Raw.ifc_file) (schema : option Schema.IfcSchema)
  (h h' : Memo.heap) : Prop :=
exists a s res, access file schema a s h = (res, h').

(** An object as it was created: nothing loaded yet. *)
Definition as_created (c : Memo.cell) : Memo.cell :=
match c with
| Memo.CObjectEntity o => Memo.new_object_entity (Memo.oe_base o)
| Memo.CPropertySet p =>
    Memo.new_pset_entity
      {| Entity.ps_class := Memo.pe_class p; Entity.ps_base := Memo.pe_base p |}
| _ => c
end.

(** What a computation on attribute [F] of object [s] may do to the heap:
    every object stays where it is, and stays as it is but for that
    attribute of [s]. *)
Definition frame (F : Memo.attribute) (s : Memo.addr) (h h' : Memo.heap) : Prop :=
forall i c,
  h !! i = Some c ->
  exists c', h' !! i = Some c'
             /\ (c' = c \/ (i = s /\ exists v, c' = Memo.fset F v c)).

Definition framed {A} (F : Memo.attribute) (s : Memo.addr) (m : Memo.M A) : Prop :=
forall h res h', m h = (res, h') -> frame F s h h'.

Global Instance accessor_eq_dec : EqDecision accessor.
Proof. solve_decision. Defined.

(** ** Notions used in the further statements *)

(** The entities above an entity in its chain: the chain without its last
    element. *)
Definition ancestors (l : list Schema.IfcSchemaEntity)
  : list Schema.IfcSchemaEntity :=
take (length l - 1) l.

(** An entity with a supertype chain that fits in the call depth. *)
Definition has_chain (schema : Schema.IfcSchema) (depth : nat)
  (e : Schema.IfcSchemaEntity) : Prop :=
exists l, chain schema e l /\ length l <= depth.

(** The chain of [IfcObject] in the sample schema. *)
Definition IfcObject_chain : list Schema.IfcSchemaEntity :=
[sample_entity "IfcRoot"] ++ [sample_entity "IfcObjectDefinition"]
++ [sample_entity "IfcObject"].

(** The entities of the sample schema, in name order. *)
Definition sample_entities : list Schema.IfcSchemaEntity :=
[sample_entity "IfcObject"; sample_entity "IfcObjectDefinition";
 sample_entity "IfcRoot"].



(** The records an entity is decomposed into (grouped, for a zone), in the
    order of the relations and, within a relation, of its related objects. *)
Definition related_records (file : Raw.ifc_file) (raw : Raw.entity_instance)
  : list Raw.rid :=
(if Raw.is_a raw "IfcZone" then Raw.IsGroupedBy raw else Raw.IsDecomposedBy raw)
≫= (fun rel => Raw.RelatedObjects (Raw.by_id file rel)).

(** What the defining relations by properties of a record point to, in the
    order of the relations. *)
Definition defining_sets (file : Raw.ifc_file) (raw : Raw.entity_instance)
  : list Raw.rid :=
(fun rel => Raw.RelatingPropertyDefinition (Raw.by_id file rel))
<$> filter (fun rel => Raw.is_a (Raw.by_id file rel) "IfcRelDefinesByProperties")
      (Raw.IsDefinedBy raw).

Definition is_quantity_set (file : Raw.ifc_file) (r : Raw.rid) : bool :=
Raw.is_a (Raw.by_id file r) "IfcElementQuantity".

Definition quantity_chain : list string :=
["IfcPhysicalSimpleQuantity"; "IfcPhysicalQuantity"].

Definition type_chain : list string :=
["IfcBuildingElementType"; "IfcElementType"; "IfcTypeProduct"; "IfcTypeObject";
 "IfcObjectDefinition"; "IfcRoot"].

(** A slab with quantities, a property set and a type: #0 the slab; #1, #3
    the defining relations by properties; #2 the quantity set with #5 [Depth]
    and #6 [Area]; #4 the property set; #8 the defining relation by type and
    #7 the slab type. *)
Definition slab_file : Raw.ifc_file :=
mk_file
  [mk_record "IfcSlab" ("IfcBuildingElement" :: element_chain)
     [("GlobalId", Raw.VStr "0slab"); ("Name", Raw.VStr "Slab 1")]
     [("IsDefinedBy", [1; 3; 8]%nat)] [];
   mk_record "IfcRelDefinesByProperties" (relation_chain "IfcRelDefines")
     [] [("RelatedObjects", [0%nat])] [("RelatingPropertyDefinition", 2%nat)];
   mk_record "IfcElementQuantity" pset_chain
     [("GlobalId", Raw.VStr "2qto"); ("Name", Raw.VStr "BaseQuantities")]
     [("Quantities", [5; 6]%nat)] [];
   mk_record "IfcRelDefinesByProperties" (relation_chain "IfcRelDefines")
     [] [("RelatedObjects", [0%nat])] [("RelatingPropertyDefinition", 4%nat)];
   mk_record "IfcPropertySet" pset_chain
     [("GlobalId", Raw.VStr "4pset"); ("Name", Raw.VStr "Pset_SlabCommon")]
     [("HasProperties", [])] [];
   mk_record "IfcQuantityLength" quantity_chain
     [("Name", Raw.VStr "Depth"); ("LengthValue", Raw.VNum 200)] [] [];
   mk_record "IfcQuantityArea" quantity_chain
     [("Name", Raw.VStr "Area"); ("AreaValue", Raw.VNum 12)] [] [];
   mk_record "IfcSlabType" type_chain
     [("GlobalId", Raw.VStr "7type"); ("Name", Raw.VStr "Slab type")]
     [("HasPropertySets", [])] [];
   mk_record "IfcRelDefinesByType" (relation_chain "IfcRelDefines")
     [] [("RelatedObjects", [0%nat])] [("RelatingType", 7%nat)]].

(** A project with two walls and two buildings: #0 the project, #1 a wall,
    #2 a standard-case wall, #3 an undivided building, #4 a complex
    building. *)
Definition building_file : Raw.ifc_file :=
mk_file
  [mk_record "IfcProject" object_chain
     [("GlobalId", Raw.VStr "0project"); ("Name", Raw.VStr "Project")] [] [];
   mk_record "IfcWall" ("IfcBuildingElement" :: element_chain)
     [("GlobalId", Raw.VStr "1wall"); ("Name", Raw.VStr "Wall 1")] [] [];
   mk_record "IfcWallStandardCase"
     ("IfcWall" :: "IfcBuildingElement" :: element_chain)
     [("GlobalId", Raw.VStr "2wall"); ("Name", Raw.VStr "Wall 2")] [] [];
   mk_record "IfcBuilding" spatial_chain
     [("GlobalId", Raw.VStr "3building"); ("Name", Raw.VStr "Building");
      ("CompositionType", Raw.VStr "ELEMENT")] [] [];
   mk_record "IfcBuilding" spatial_chain
     [("GlobalId", Raw.VStr "4building"); ("Name", Raw.VStr "Campus");
      ("CompositionType", Raw.VStr "COMPLEX")] [] []].

(** The records a query for undivided entities keeps. *)
Definition undivided (file : Raw.ifc_file) (r : Raw.rid) : bool :=
Raw.is_a (Raw.by_id file r) "IfcSpatialStructureElement"
&& bool_decide (Raw.fields (Raw.by_id file r) !! "CompositionType"
                = Some (Raw.VStr "ELEMENT")).

(** A set of the slab file taken as the set of an object type. *)
Definition slab_type_pset : Entity.PropertySet :=
{| Entity.ps_class := Entity.IfcObjectEntityTypePropertySet;
   Entity.ps_base := wrap slab_file 2 |}.

(** The property set a record stands for: a set proper, the set of an
    object type, or nothing. *)
Definition pset_of (file : Raw.ifc_file) (r : Raw.rid)
  : option Entity.PropertySet :=
if Raw.is_a (Raw.by_id file r) "IfcPropertySet" then
  Some {| Entity.ps_class := Entity.IfcObjectEntityPropertySet;
          Entity.ps_base := wrap file r |}
else if Raw.is_a (Raw.by_id file r) "IfcPropertySetDefinition" then
  Some {| Entity.ps_class := Entity.IfcObjectEntityTypePropertySet;
          Entity.ps_base := wrap file r |}
else None.

Definition quantity_of (file : Raw.ifc_file) (r : Raw.rid) : Entity.Quantity :=
{| Entity.q_base := wrap file r |}.

Definition is_simple_quantity (file : Raw.ifc_file) (r : Raw.rid) : bool :=
Raw.is_a (Raw.by_id file r) "IfcPhysicalSimpleQuantity".

(** * Specification *)

(** ** Facts about the string operations *)

Section py_facts.

Lemma prefix_empty (s : string) : String.prefix EmptyString s = true.
Proof. by destruct s. Qed.

Lemma prefix_cons (c d : ascii) (p s : string) :
  String.prefix (String c p) (String d s)
  = bool_decide (c = d) && String.prefix p s.
Proof.
  cbn [String.prefix]. destruct (ascii_dec c d) as [->|Hne].
  - by rewrite bool_decide_eq_true_2.
  - by rewrite bool_decide_eq_false_2.
Qed.

Lemma append_empty_l (s : string) : EmptyString +:+ s = s.
Proof. reflexivity. Qed.

Lemma append_cons (c : ascii) (s t : string) :
  String c s +:+ t = String c (s +:+ t).
Proof. reflexivity. Qed.

Lemma filter_chars_ext (p q : ascii -> bool) (s : string) :
  (forall c, p c = q c) -> Py.filter_chars p s = Py.filter_chars q s.
Proof.
  intros Hpq. induction s as [|c s IH]; [done|].
  cbn. rewrite Hpq, IH. done.
Qed.

Lemma filter_chars_twice (p q : ascii -> bool) (s : string) :
  Py.filter_chars p (Py.filter_chars q s)
  = Py.filter_chars (fun c => q c && p c) s.
Proof.
  induction s as [|c s IH]; [done|].
  cbn. destruct (q c); cbn; [|done].
  destruct (p c); by rewrite IH.
Qed.


(** Replacing a character by nothing removes it. *)
Lemma replace_char_empty (c : ascii) (s : string) :
  Py.replace (Py.chr c) EmptyString s
  = Py.filter_chars (fun x => negb (bool_decide (x = c))) s.
Proof.
  unfold Py.replace, Py.chr. induction s as [|x s IH]; [done|].
  cbn [Py.replace_go Py.filter_chars]. rewrite prefix_cons, prefix_empty.
  rewrite andb_true_r. cbn [String.length Nat.sub]. rewrite IH.
  destruct (decide (c = x)) as [->|Hne].
  - by rewrite !bool_decide_eq_true_2.
  - rewrite !bool_decide_eq_false_2 by congruence. done.
Qed.

Lemma find_char_None (c : ascii) (s : string) :
  Py.find (Py.chr c) s = None ->
  Py.filter_chars (fun x => negb (bool_decide (x = c))) s = s.
Proof.
  unfold Py.chr. induction s as [|x s IH]; [done|].
  cbn [Py.find Py.filter_chars]. rewrite prefix_cons, prefix_empty, andb_true_r.
  case_bool_decide as Hcx; [done|].
  rewrite bool_decide_eq_false_2 by congruence. cbn.
  destruct (Py.find (String c EmptyString) s) eqn:Hf; [done|].
  intros _. by rewrite IH.
Qed.

End py_facts.

Section tools_spec.

Lemma clean_chars_filter (chars s : string) :
  Tools.clean_chars chars s = Py.filter_chars (not_in chars) s.
Proof.
  revert s. induction chars as [|d chars IH]; intros s.
  - cbn. induction s as [|c s IHs]; [done|]. cbn. by rewrite <- IHs.
  - cbn [Tools.clean_chars].
    assert ((if Py.contains (Py.chr d) s
             then Py.replace (Py.chr d) EmptyString s else s)
            = Py.filter_chars (fun x => negb (bool_decide (x = d))) s) as ->.
    { unfold Py.contains. case_bool_decide as Hc.
      - apply replace_char_empty.
      - symmetry. apply find_char_None.
        destruct (Py.find (Py.chr d) s); [|done]. by destruct Hc. }
    rewrite IH, filter_chars_twice. apply filter_chars_ext.
    intros c. unfold not_in. cbn [Py.mem_char].
    destruct (decide (d = c)) as [->|Hne].
    + by rewrite bool_decide_eq_true_2.
    + rewrite bool_decide_eq_false_2 by congruence. done.
Qed.




End tools_spec.

(** ** Defined types and select types *)

Section schema_types.
Import Schema.

Lemma no_simple_type_iff (tokens : list string) :
  (size (list_to_set tokens ∩ list_to_set _SIMPLE_TYPES : gset string)
   <=? 0)%nat = true
  <-> Forall (fun t => t ∉ _SIMPLE_TYPES) tokens.
Proof.
  rewrite Nat.leb_le, Nat.le_0_r, size_empty_iff, Forall_forall.
  split.
  - intros Hempty t Ht Hs.
    apply (not_elem_of_empty (C := gset string) t).
    rewrite <- Hempty. apply elem_of_intersection.
    by rewrite !elem_of_list_to_set.
  - intros Hnone t. split; [|by intros ?%not_elem_of_empty].
    rewrite elem_of_intersection, !elem_of_list_to_set.
    intros [Ht Hs]. by destruct (Hnone t Ht).
Qed.

Lemma startswith_hash (s : string) : Py.startswith ("#" +:+ s) "#" = true.
Proof.
  unfold Py.startswith. rewrite append_cons, append_empty_l, prefix_cons.
  by rewrite prefix_empty.
Qed.

(** C6 (as the code has it). A defined type is a reference exactly when no
    piece of its raw expression, cut at spaces and parentheses, is one of
    the simple types (or when the expression itself starts with the
    reference mark); a reference is resolved by name in the defined types of
    the schema, with [KeyError] when there is none of that name, and a type
    that is not a reference has no referenced type. *)
Theorem is_ref_spec (schema : IfcSchema) (self : IfcSchemaDefinedType) :
  (is_ref self = true
   <-> Forall (fun t => t ∉ _SIMPLE_TYPES) (re_split (_raw_value self))
       \/ Py.startswith (_raw_value self) "#" = true)
  /\ ref_type schema self
     = if is_ref self then
         match _defined_types_by_name schema !! _raw_value self with
         | Some t => Ok (Some t)
         | None => Raise KeyError
         end
       else Ok None.
Proof.
  split.
  - unfold is_ref, dt_type_name.
    destruct (size _ <=? 0)%nat eqn:Hsize.
    + rewrite startswith_hash. apply no_simple_type_iff in Hsize. tauto.
    + split; [tauto|]. intros [Hnone|]; [|done].
      apply no_simple_type_iff in Hnone. congruence.
  - unfold ref_type, get_defined_type, dict_get.
    destruct (is_ref self); [|done].
    by destruct (_defined_types_by_name schema !! _raw_value self).
Qed.

(** C6 as stated fails: the raw expression of [IfcLabel] is not one of the
    simple types, and yet the type is not a reference. *)
Lemma is_ref_not_set_membership :
  (_raw_value IfcLabel_type ∉ _SIMPLE_TYPES) /\ is_ref IfcLabel_type = false.
Proof.
  split; [|by vm_compute].
  unfold _SIMPLE_TYPES, IfcLabel_type. cbn [_raw_value].
  rewrite !elem_of_cons, elem_of_nil. intros H.
  repeat (destruct H as [H|H]; [discriminate H|]). done.
Qed.

(** C7 (as the code has it). The entity names of a select type are its raw
    members in ascending order: sorted, and with every member as often as it
    is written. *)
Theorem entity_names_sorted (name raw_types : string) :
  exists names,
    entity_names {| st_name := name; _raw_types := Some raw_types |} = Ok names
    /\ Sorted String.le names
    /\ names ≡ₚ Py.split "," (Py.replace NL_TAB EmptyString raw_types).
Proof.
  eexists. split; [reflexivity|]. split.
  - apply (Sorted_merge_sort String.le).
  - apply (merge_sort_Permutation String.le).
Qed.

(** C7 as stated fails: a member written twice comes out twice. *)
Lemma entity_names_repeats_member :
  entity_names repeating_select = Ok ["IfcSlab"; "IfcWall"; "IfcWall"]
  /\ ~ NoDup ["IfcSlab"; "IfcWall"; "IfcWall"].
Proof.
  split; [by vm_compute|].
  intros Hnd. apply NoDup_cons in Hnd as [_ Hnd].
  apply NoDup_cons in Hnd as [Hnotin _].
  apply Hnotin. apply list_elem_of_here.
Qed.

End schema_types.

(** ** The sections of an entity block *)

Section schema_sections.
Import Schema.


Lemma drop_all (s : string) (j : nat) :
  String.length s <= j -> Py.drop j s = EmptyString.
Proof.
  revert j. induction s as [|c s IH]; intros [|j] Hj; cbn in *; try done.
  - lia.
  - apply IH. lia.
Qed.











(** The keywords are not tried in their order in [_NO_ATTR]: in the body of
    [IfcObject] the mark of [INVERSE] comes before that of [WHERE], the first
    keyword, and ends the attribute declarations. *)
Lemma attrs_str_IfcObject :
  attrs_str IfcObject_inner
  = Ok (NL_TAB +:+ "ObjectType : OPTIONAL IfcLabel;")
  /\ before_mark IfcObject_inner "WHERE"
     <> NL_TAB +:+ "ObjectType : OPTIONAL IfcLabel;".
Proof. split; [by vm_compute|]. vm_compute. discriminate. Qed.

End schema_sections.

(** ** Attributes along the supertype chain *)

Section schema_chain.
Import Schema.

Lemma attribute_names_perm (e : IfcSchemaEntity) :
  attribute_names e ≡ₚ (map_to_list (_attributes_by_name e)).*1.
Proof. apply (merge_sort_Permutation String.le). Qed.

Lemma attribute_names_elem (e : IfcSchemaEntity) (k : string) :
  k ∈ attribute_names e <-> is_Some (_attributes_by_name e !! k).
Proof.
  rewrite attribute_names_perm, list_elem_of_fmap. split.
  - intros ([k' a] & -> & Hin). apply elem_of_map_to_list in Hin. by exists a.
  - intros [a Ha]. exists (k, a). split; [done|]. by apply elem_of_map_to_list.
Qed.

Lemma mapM_dict_get {V} (d : gmap string V) (ks : list string) :
  Forall (fun k => is_Some (d !! k)) ks ->
  exists vs, mapM (dict_get d) ks = Ok vs
             /\ Forall2 (fun k v => d !! k = Some v) ks vs.
Proof.
  induction 1 as [|k ks [v Hv] _ (vs & Hvs & Hall)]; cbn.
  - by exists [].
  - exists (v :: vs). unfold dict_get at 1. rewrite Hv. cbn. rewrite Hvs. cbn.
    split; [done|]. by constructor.
Qed.

Lemma attributes_Ok (e : IfcSchemaEntity) :
  exists attrs,
    attributes e = Ok attrs
    /\ Forall2 (fun k a => _attributes_by_name e !! k = Some a)
         (attribute_names e) attrs.
Proof.
  apply mapM_dict_get, Forall_forall. intros k. apply attribute_names_elem.
Qed.

Lemma mapM_attr_name (e : IfcSchemaEntity)
  (xs : list IfcSchemaEntityAttribute) :
  Forall (fun a => _attributes_by_name e !! attr_name a = Some a) xs ->
  mapM (dict_get (_attributes_by_name e)) (map attr_name xs) = Ok xs.
Proof.
  induction 1 as [|a xs Ha _ IH]; [done|].
  cbn. unfold dict_get at 1. rewrite Ha. cbn. by rewrite IH.
Qed.

Lemma stored_under_name (e : IfcSchemaEntity) (ks : list string)
  (attrs : list IfcSchemaEntityAttribute) :
  entity_wf e ->
  Forall2 (fun k a => _attributes_by_name e !! k = Some a) ks attrs ->
  Forall (fun a => _attributes_by_name e !! attr_name a = Some a) attrs.
Proof.
  intros Hwf. induction 1 as [|k a ks attrs Hk _ IH]; constructor; [|done].
  destruct (Hwf k a Hk) as [-> _]. done.
Qed.



Lemma chain_functional (schema : IfcSchema) (e : IfcSchemaEntity)
  (l1 l2 : list IfcSchemaEntity) :
  chain schema e l1 -> chain schema e l2 -> l1 = l2.
Proof.
  intros H1. revert l2.
  induction H1 as [e Hroot|e n p l Hsup Hp Hchain IH]; intros l2 H2.
  - inversion H2; [done|congruence].
  - inversion H2 as [|e' n' p' l' Hsup' Hp' Hchain']; subst; [congruence|].
    assert (n' = n) as -> by congruence.
    assert (p' = p) as -> by congruence.
    by rewrite (IH _ Hchain').
Qed.

Lemma chain_member (schema : IfcSchema) (e D : IfcSchemaEntity)
  (l : list IfcSchemaEntity) :
  chain schema e l -> D ∈ l ->
  exists l', chain schema D l' /\ length l' <= length l.
Proof.
  induction 1 as [e Hroot|e n p l Hsup Hp Hchain IH]; intros HD.
  - apply list_elem_of_singleton in HD as ->. exists [e].
    split; [by constructor|done].
  - apply elem_of_app in HD as [HD|HD].
    + destruct (IH HD) as (l' & Hl' & Hlen). exists l'. split; [done|].
      rewrite length_app. lia.
    + apply list_elem_of_singleton in HD as ->. exists (l ++ [e]).
      split; [by econstructor|done].
Qed.

Lemma chain_registered (schema : IfcSchema) (e : IfcSchemaEntity)
  (l : list IfcSchemaEntity) :
  schema_wf schema -> chain schema e l ->
  _entities_by_name schema !! ent_name e = Some e ->
  Forall (fun D => _entities_by_name schema !! ent_name D = Some D) l.
Proof.
  intros Hwf. induction 1 as [e Hroot|e n p l Hsup Hp Hchain IH]; intros He.
  - by repeat constructor.
  - apply Forall_app. split; [|by repeat constructor].
    apply IH. destruct (Hwf n p Hp) as [-> _]. done.
Qed.

Lemma chain_names_NoDup (schema : IfcSchema) (e : IfcSchemaEntity)
  (l : list IfcSchemaEntity) :
  schema_wf schema -> chain schema e l ->
  _entities_by_name schema !! ent_name e = Some e ->
  NoDup (ent_name <$> l).
Proof.
  intros Hwf. induction 1 as [e Hroot|e n p l Hsup Hp Hchain IH]; intros He.
  - cbn. apply NoDup_singleton.
  - assert (_entities_by_name schema !! ent_name p = Some p) as Hpreg.
    { destruct (Hwf n p Hp) as [-> _]. done. }
    rewrite fmap_app. apply NoDup_app. split; [by apply IH|].
    split; [|apply NoDup_singleton].
    intros name' Hin Hin'. cbn in Hin'.
    apply list_elem_of_singleton in Hin' as ->.
    apply list_elem_of_fmap in Hin as (D & Hname & HD).
    pose proof (chain_registered _ _ _ Hwf Hchain Hpreg) as Hreg.
    rewrite Forall_forall in Hreg. specialize (Hreg D HD).
    rewrite <- Hname, He in Hreg. injection Hreg as <-.
    destruct (chain_member _ _ _ _ Hchain HD) as (l' & Hl' & Hlen).
    assert (chain schema e (l ++ [e])) as Hfull by by econstructor.
    rewrite (chain_functional _ _ _ _ Hl' Hfull), length_app in Hlen.
    cbn in Hlen. lia.
Qed.





End schema_chain.

(** ** Schemas as the reader builds them *)

Section schema_built.
Import Schema.

Lemma store_declarations_wf (entity text : string) (k : string)
  (a : IfcSchemaEntityAttribute) :
  store_declarations entity text !! k = Some a ->
  attr_name a = k /\ attr_entity a = entity.
Proof.
  unfold store_declarations.
  generalize (declarations (String.length text) text). intros decls.
  assert (forall k a, (∅ : gmap string IfcSchemaEntityAttribute) !! k = Some a ->
                      attr_name a = k /\ attr_entity a = entity) as Hinv
    by (intros ? ?; by rewrite lookup_empty).
  revert Hinv k a. generalize (∅ : gmap string IfcSchemaEntityAttribute).
  induction decls as [|[name type] decls IH]; intros d Hinv k a; cbn.
  - apply Hinv.
  - apply IH. intros k' a'. rewrite lookup_insert.
    case_decide as Hk; [|apply Hinv]. intros [= <-]. by subst.
Qed.

Lemma IfcSchemaEntity_init_wf (name : string) (sup : option string)
  (raw_data : string) (e : IfcSchemaEntity) :
  IfcSchemaEntity_init name sup raw_data = Ok e ->
  ent_name e = name /\ entity_wf e.
Proof.
  unfold IfcSchemaEntity_init.
  destruct (inner_raw_data raw_data) as [inner|]; cbn [rbind]; [|done].
  destruct (attrs_str inner) as [attrs|]; cbn [rbind]; [|done].
  destruct (inverse_str inner) as [inv|]; cbn [rbind]; [|done].
  intros [= <-]. split; [done|]. intros k a. apply store_declarations_wf.
Qed.

Lemma _read_entities_wf (blocks : list (string * option string * string))
  (ents res : gmap string IfcSchemaEntity) :
  (forall k e, ents !! k = Some e -> ent_name e = k /\ entity_wf e) ->
  _read_entities blocks ents = Ok res ->
  forall k e, res !! k = Some e -> ent_name e = k /\ entity_wf e.
Proof.
  revert ents. induction blocks as [|[[name sup] raw] blocks IH];
    intros ents Hinv; cbn.
  - by intros [= <-].
  - destruct (IfcSchemaEntity_init name sup raw) as [e0|] eqn:Hinit;
      cbn [rbind]; [|done].
    apply IH. intros k e. rewrite lookup_insert.
    case_decide as Hk; [|apply Hinv]. intros [= <-]. subst k.
    by apply IfcSchemaEntity_init_wf in Hinit.
Qed.

Lemma sample_schema_wf : schema_wf sample_schema.
Proof.
  unfold schema_wf, sample_schema. cbn [_entities_by_name].
  destruct (_read_entities sample_blocks ∅) as [ents|ex] eqn:Hread.
  - apply (_read_entities_wf sample_blocks ∅ ents); [|done].
    intros k e. by rewrite lookup_empty.
  - intros k e. by rewrite lookup_empty.
Qed.


Example get_all_attribute_names_IfcObject :
  get_all_attribute_names 1000 sample_schema (sample_entity "IfcObject")
    true true
  = Ok ["IfcRoot.Description"; "IfcRoot.GlobalId"; "IfcRoot.Name";
        "IfcRoot.OwnerHistory"; "IfcObject.ObjectType"].
Proof. vm_compute. reflexivity. Qed.

End schema_built.

(** ** Record validation and parent resolution *)

Section entity_spec.
Import Raw Entity.
Context (file : ifc_file).

Lemma check_expected_types_Ok (raw : entity_instance) (l : list string) :
  check_expected_types raw l = Ok ()
  <-> Forall (fun t => is_a raw t = true) l.
Proof.
  induction l as [|t l IH]; cbn.
  - split; [constructor|done].
  - rewrite Forall_cons. destruct (is_a raw t); cbn.
    + rewrite IH. tauto.
    + split; [done|]. by intros [? _].
Qed.

Lemma check_expected_types_Raise (raw : entity_instance) (l : list string)
  (ex : exn) :
  check_expected_types raw l = Raise ex
  <-> ex = ValueError /\ Exists (fun t => is_a raw t = false) l.
Proof.
  induction l as [|t l IH]; cbn.
  - split; [done|]. by intros [_ ?%Exists_nil].
  - rewrite Exists_cons. destruct (is_a raw t) eqn:Ht; cbn.
    + rewrite IH. split; [tauto|]. intros [? [?|?]]; [done|tauto].
    + split; [|by intros [-> _]]. intros [= <-]. tauto.
Qed.

(** What the constructor of the record-validation base does: it succeeds
    exactly when a raw record is given, the expected types are a tuple, and
    the record satisfies [is_a] for every name of the tuple; every other
    construction raises [ValueError]: no record, expected types that are not
    a tuple, or a name of the tuple the record is not an instance of. *)
Theorem IfcBaseEntity_init_spec (raw_obj_entity : raw_arg)
  (expected_types : types_arg) :
  (forall e,
     IfcBaseEntity_init file raw_obj_entity expected_types = Ok e
     <-> exists r l,
           raw_obj_entity = ArgInstance r /\ expected_types = TypesTuple l
           /\ Forall (fun t => is_a (by_id file r) t = true) l
           /\ e = {| _raw := r; info := get_info (by_id file r) |})
  /\ (forall ex,
        IfcBaseEntity_init file raw_obj_entity expected_types = Raise ex
        <-> ex = ValueError
            /\ ((forall r, raw_obj_entity <> ArgInstance r)
                \/ (forall l, expected_types <> TypesTuple l)
                \/ exists r l,
                     raw_obj_entity = ArgInstance r
                     /\ expected_types = TypesTuple l
                     /\ Exists (fun t => is_a (by_id file r) t = false) l)).
Proof.
  split.
  - intros e. unfold IfcBaseEntity_init. split.
    + destruct raw_obj_entity as [| |r]; [done..|].
      destruct expected_types as [| |l]; [done..|].
      destruct (check_expected_types (by_id file r) l) as [[]|] eqn:Hc;
        [|done].
      cbn. intros [= <-]. exists r, l.
      by apply check_expected_types_Ok in Hc.
    + intros (r & l & -> & -> & Hall & ->).
      apply check_expected_types_Ok in Hall. by rewrite Hall.
  - intros ex. unfold IfcBaseEntity_init. split.
    + destruct raw_obj_entity as [| |r].
      1,2: intros [= <-]; split; [done|]; left; by intros r.
      destruct expected_types as [| |l].
      1,2: intros [= <-]; split; [done|]; right; left; by intros l.
      destruct (check_expected_types (by_id file r) l) as [[]|ex'] eqn:Hc;
        [done|].
      cbn. intros [= <-].
      apply check_expected_types_Raise in Hc as [-> Hex].
      split; [done|]. right; right. by exists r, l.
    + intros [-> [Hraw|[Htypes|(r & l & -> & -> & Hex)]]].
      * destruct raw_obj_entity as [| |r]; [done..|]. by destruct (Hraw r).
      * destruct raw_obj_entity as [| |r]; [done..|].
        destruct expected_types as [| |l]; [done..|]. by destruct (Htypes l).
      * assert (check_expected_types (by_id file r) l = Raise ValueError)
          as -> by by apply check_expected_types_Raise.
        done.
Qed.

Lemma single_entry {A} (l : list A) :
  length l = 1%nat -> exists x, l = [x].
Proof. destruct l as [|x [|]]; [done| |done]. by exists x. Qed.

Lemma rule_test (b : bool) (l : list rid) :
  b && (length l =? 1)%nat = true <-> b = true /\ length l = 1%nat.
Proof. by rewrite andb_true_iff, Nat.eqb_eq. Qed.

(** C1 (as the code has it). Parent resolution tries three rules in a fixed
    order: subtraction feature with exactly one voids relation, element with
    exactly one containment relation, decomposable object with exactly one
    decomposition relation.  Each rule tests the kind of the record and the
    size of the collection together, the first rule that holds gives the
    parent, and a rule that does not hold lets the next one be tried; when
    none holds the parent is [None], without an error. *)
Theorem parent_resolution (self : IfcObjectEntity) :
  let raw := raw_of file self in
  (voids_rule raw ->
   exists rel, VoidsElements raw = [rel]
     /\ _get_relating_object file self
        = Some (RelatingBuildingElement (by_id file rel)))
  /\ (~ voids_rule raw -> containment_rule raw ->
      exists rel, ContainedInStructure raw = [rel]
        /\ _get_relating_object file self
           = Some (RelatingStructure (by_id file rel)))
  /\ (~ voids_rule raw -> ~ containment_rule raw -> decomposition_rule raw ->
      exists rel, Decomposes raw = [rel]
        /\ _get_relating_object file self
           = Some (RelatingObject (by_id file rel)))
  /\ (~ voids_rule raw -> ~ containment_rule raw -> ~ decomposition_rule raw ->
      _get_relating_object file self = None
      /\ _load_parent file self = Ok None).
Proof.
  cbn zeta. unfold voids_rule, containment_rule, decomposition_rule,
    _load_parent, _get_relating_object.
  rewrite <- !rule_test.
  destruct (is_a _ "IfcFeatureElementSubtraction" && _) eqn:H1.
  { apply rule_test in H1 as [_ [rel Hrel]%single_entry].
    rewrite Hrel. repeat split; try done. by exists rel. }
  destruct (is_a _ "IfcElement" && _) eqn:H2.
  { apply rule_test in H2 as [_ [rel Hrel]%single_entry].
    rewrite Hrel. repeat split; try done. by exists rel. }
  destruct (is_a _ "IfcObjectDefinition" && _) eqn:H3.
  { apply rule_test in H3 as [_ [rel Hrel]%single_entry].
    rewrite Hrel. repeat split; try done. by exists rel. }
  repeat split; done.
Qed.

End entity_spec.

Section entity_samples.
Import Raw Entity.

(** C2, on the opening: the record is an [IfcObject], so it satisfies one
    name of the tuple of expected types, and the construction, which the
    documentation of the class refuses only to a record that does not
    inherit from one of the expected types, raises [ValueError] because of
    the other name. *)
Lemma init_needs_every_expected_type :
  is_a (by_id opening_file 0) "IfcObject" = true
  /\ IfcBaseEntity_init opening_file (ArgInstance 0)
       (TypesTuple ["IfcObject"; "IfcWall"]) = Raise ValueError.
Proof. split; by vm_compute. Qed.

(** C1 as stated fails: an opening without a voids relation gets the storey
    that contains it as its parent. *)
Lemma opening_parent_is_its_storey :
  is_a (by_id opening_file 0) "IfcFeatureElementSubtraction" = true
  /\ length (VoidsElements (by_id opening_file 0)) = 0%nat
  /\ _load_parent opening_file (wrap opening_file 0)
     = Ok (Some (wrap opening_file 2)).
Proof. repeat split; by vm_compute. Qed.

Lemma parent_resolution_opening :
  exists rel,
    ContainedInStructure (by_id opening_file 0) = [rel]
    /\ _get_relating_object opening_file (wrap opening_file 0)
       = Some (RelatingStructure (by_id opening_file rel)).
Proof.
  apply (proj1 (proj2 (parent_resolution opening_file (wrap opening_file 0)))).
  - intros [_ H]. vm_compute in H. discriminate H.
  - split; reflexivity.
Defined.

End entity_samples.

(** ** Property lookups *)

Section property_spec.
Import Raw Entity.
Context (file : ifc_file) (schema : option Schema.IfcSchema).





End property_spec.

Section property_samples.
Import Raw Entity.



End property_samples.

(** ** The site query *)

Section reader_spec.
Import Raw Entity Reader.

(** The wrapper classes define no [is_a]. *)
Lemma wrapper_is_a_raises (file : ifc_file) (self : IfcObjectEntity)
  (name : string) :
  wrapper_is_a file self name = Raise AttributeError.
Proof.
  unfold wrapper_is_a.
  destruct (bool_decide ("is_a" ∈ IfcObjectEntity_dir)) eqn:Hdir; [|done].
  vm_compute in Hdir. discriminate Hdir.
Qed.

(** C8, on the file of the two sites: record #1 is a site of composition
    kind COMPLEX, its parent is record #0, a site of composition kind
    ELEMENT; the query for undivided sites keeps #0, comes to #1, resolves
    its parent and then asks the wrapper of the parent, which has no such
    method, for [is_a]: the query raises [AttributeError] where the parent
    was to take the place of #1. *)
Theorem read_sites_complex_site_raises :
  by_type two_sites_file "IfcSite" = [0; 1]%nat
  /\ composition_type two_sites_file (wrap two_sites_file 1) = VStr "COMPLEX"
  /\ parent two_sites_file (wrap two_sites_file 1)
     = Ok (Some (wrap two_sites_file 0))
  /\ is_element two_sites_file (wrap two_sites_file 0) = true
  /\ is_a (by_id two_sites_file 0) "IfcSite" = true
  /\ read_sites two_sites_file true = Raise AttributeError.
Proof. repeat split; by vm_compute. Qed.

(** The same in general: once the loop meets a site that is not undivided
    and whose parent is, it raises. *)
Lemma read_sites_loop_raises (file : ifc_file) (cur_ent cur_parent : IfcObjectEntity)
  (rest acc : list IfcObjectEntity) :
  is_element file cur_ent = false ->
  parent file cur_ent = Ok (Some cur_parent) ->
  is_element file cur_parent = true ->
  read_sites_loop file true (cur_ent :: rest) acc = Raise AttributeError.
Proof.
  intros Hcur Hparent Hpar. cbn [read_sites_loop].
  rewrite Hcur, Hparent. cbn. rewrite Hpar.
  by rewrite wrapper_is_a_raises.
Qed.

(** What holds of the query when it returns: every site that is undivided
    is in the result. *)
Lemma read_sites_loop_keeps (file : ifc_file) (ents acc res : list IfcObjectEntity) :
  read_sites_loop file true ents acc = Ok res ->
  forall e, (e ∈ acc \/ (e ∈ ents /\ is_element file e = true)) -> e ∈ res.
Proof.
  revert acc. induction ents as [|cur rest IH]; intros acc Hloop e He.
  - cbn in Hloop. injection Hloop as <-.
    destruct He as [?|[?%elem_of_nil _]]; done.
  - cbn [read_sites_loop] in Hloop. cbn in Hloop.
    destruct (is_element file cur) eqn:Hcur.
    + apply (IH _ Hloop). destruct He as [He|[He Hel]].
      * left. apply elem_of_app. by left.
      * apply elem_of_cons in He as [->|He]; [|by right].
        left. apply elem_of_app. right. apply list_elem_of_here.
    + assert (e ∈ acc \/ e ∈ rest /\ is_element file e = true) as He'.
      { destruct He as [He|[He Hel]]; [by left|].
        apply elem_of_cons in He as [->|He]; [congruence|by right]. }
      destruct (parent file cur) as [[p|]|] eqn:Hp; cbn in Hloop; [| |done].
      * destruct (is_element file p); [|by apply (IH _ Hloop)].
        rewrite wrapper_is_a_raises in Hloop. done.
      * by apply (IH _ Hloop).
Qed.

End reader_spec.

(** ** Lazily loaded attributes *)

Section memo_spec.
Import Raw Entity Memo.

Lemma lazy_fixpoint (F : attribute) (load : addr -> M (option addr))
  (self : addr) (h h' : heap) (r : option addr) :
  lawful F -> quiet load ->
  lazy F load self h = (Ok r, h') ->
  lazy F load self h' = (Ok r, h').
Proof.
  intros [Hsame Hback] Hquiet Hfirst. revert Hfirst.
  unfold lazy, bind, get_attr.
  destruct (h !! self ≫= fget F) as [[v|]|] eqn:Hget; cbn; [| |done].
  { intros [= <- <-]. by rewrite Hget. }
  destruct (load self h) as [[r0|ex] h1] eqn:Hload; [|done].
  unfold set_attr.
  destruct (h1 !! self) as [c|] eqn:Hc; [|done].
  destruct (fget F c) as [w|] eqn:Hw; [|done].
  rewrite list_lookup_insert_eq by by eapply lookup_lt_Some.
  cbn. rewrite (Hback c r0 w Hw). intros [= <- <-].
  rewrite list_lookup_insert_eq by by eapply lookup_lt_Some.
  cbn. rewrite (Hback c r0 w Hw).
  destruct r0 as [v|]; [done|].
  assert (h1 = h) as -> by by eapply Hquiet.
  rewrite Hc in Hget. cbn in Hget. rewrite Hw in Hget. injection Hget as ->.
  rewrite (Hsame c None Hw), list_insert_id by done.
  rewrite Hload. rewrite Hc, Hw.
  rewrite (Hsame c None Hw), list_insert_id by done.
  rewrite Hc. cbn. by rewrite Hw.
Qed.

Lemma lawful_object_attributes :
  lawful F_parent /\ lawful F_kids /\ lawful F_property_sets
  /\ lawful F_quantities /\ lawful F_object_type /\ lawful F_properties.
Proof.
  repeat split.
  all: try (intros [|[]|[]| |] v; cbn; (done || by intros [= <-])).
  all: intros [|[]|[]| |] v w; cbn; done.
Qed.

Lemma quiet_load_parent (file : ifc_file) : quiet (_load_parent file).
Proof.
  intros self h h1. unfold _load_parent, bind, object_base.
  destruct (h !! self) as [[]|]; try done.
  destruct (_get_relating_object file _); [|by intros [= <-]].
  unfold IfcObjectEntity_new, bind, lift, alloc.
  by destruct (IfcObjectEntity_init file _ _).
Qed.

Lemma quiet_load_object_type (file : ifc_file) : quiet (_load_object_type file).
Proof.
  intros self h h1. unfold _load_object_type, bind, object_base.
  destruct (h !! self) as [[]|]; try done.
  destruct (is_a _ "IfcObject"); [|by intros [= <-]].
  destruct (first_type_relation file _); [|by intros [= <-]].
  unfold IfcObjectEntity_new, bind, lift, alloc.
  by destruct (IfcObjectEntity_init file _ _).
Qed.

Lemma quiet_load_kids (file : ifc_file) : quiet (_load_kids file).
Proof.
  intros self h h1. unfold _load_kids, bind, object_base.
  destruct (h !! self) as [[]|]; try done.
  destruct (_get_related_objects file _); [|by intros [= <-]].
  by destruct (new_each _ _ h) as [[] ?].
Qed.

Lemma quiet_load_property_sets (file : ifc_file) :
  quiet (_load_property_sets file).
Proof.
  intros self h h1. unfold _load_property_sets, bind, object_base, lift.
  destruct (h !! self) as [[]|]; try done.
  destruct (raw_property_sets file _); [|done].
  destruct (0 <? _)%nat; [|by intros [= <-]].
  by destruct (new_each_opt _ _ h) as [[] ?].
Qed.

Lemma quiet_load_quantities (file : ifc_file) : quiet (_load_quantities file).
Proof.
  intros self h h1. unfold _load_quantities, bind, object_base.
  destruct (h !! self) as [[]|]; try done.
  destruct (is_a _ "IfcObject"); [|by intros [= <-]].
  by destruct (new_each_opt _ _ h) as [[] ?].
Qed.

Lemma append_property_holds (self prop : addr) (h h1 : heap) (res : result unit) :
  append_property self prop h = (res, h1) ->
  holds_tuple self h -> holds_tuple self h1.
Proof.
  unfold append_property, bind, get_attr, holds_tuple. intros Hrun [t Ht].
  revert Hrun. rewrite Ht.
  destruct (h !! self) as [c|] eqn:Hc; [|done].
  change (fget F_properties c = Some (Some t)) in Ht.
  unfold tuple_items.
  destruct (h !! t) as [[items| | | |]|];
    try (intros [= _ <-]; exists t; by rewrite Hc).
  unfold alloc, set_attr.
  rewrite lookup_app_l by by eapply lookup_lt_Some.
  rewrite Hc, Ht. intros [= _ <-]. exists (length h).
  rewrite list_lookup_insert_eq
    by (rewrite length_app; apply lookup_lt_Some in Hc; lia).
  cbn. by destruct c.
Qed.

Lemma lookup_after_alloc (self : addr) (c : cell) (h : heap) :
  holds_tuple self h -> holds_tuple self (h ++ [c]).
Proof.
  intros [t Ht]. exists t.
  destruct (h !! self) as [c0|] eqn:Hc; [|done].
  by rewrite lookup_app_l, Hc by by eapply lookup_lt_Some.
Qed.

Lemma load_properties_loop_holds {A} (create : A -> result (option Property))
  (self : addr) (items : list A) (h h1 : heap) (res : result unit) :
  load_properties_loop create self items h = (res, h1) ->
  holds_tuple self h -> holds_tuple self h1.
Proof.
  revert h. induction items as [|x items IH]; intros h; cbn [load_properties_loop].
  - by intros [= _ <-].
  - unfold bind, lift, alloc, ret.
    destruct (create x) as [[p|]|ex]; [| |by intros [= _ <-]].
    + destruct (append_property self (length h) (h ++ [CProperty p self]))
        as [[[]|ex] h2] eqn:Happ; intros Hrun Hh.
      * apply (IH h2 Hrun). apply (append_property_holds _ _ _ _ _ Happ).
        by apply lookup_after_alloc.
      * injection Hrun as _ <-.
        apply (append_property_holds _ _ _ _ _ Happ).
        by apply lookup_after_alloc.
    + apply IH.
Qed.

Lemma _load_properties_Some (file : ifc_file) (schema : option Schema.IfcSchema)
  (self : addr) (h h1 : heap) (r : option addr) :
  _load_properties file schema self h = (Ok r, h1) -> is_Some r.
Proof.
  unfold _load_properties.
  unfold bind at 1. unfold pset_self.
  destruct (h !! self) as [[|?|p| |]|] eqn:Hself; try done.
  unfold bind at 1. unfold get_attr at 1. rewrite Hself.
  cbn [mbind option_bind fget F_properties].
  destruct (_properties p) as [t|] eqn:Hp.
  - unfold bind, ret, get_attr. rewrite Hself. cbn. rewrite Hp.
    intros [= <- _]. by eexists.
  - unfold bind at 1.
    match goal with
    | |- context [match ?m h with _ => _ end] =>
        destruct (m h) as [[[]|ex] h2] eqn:Hbody; [|done]
    end.
    assert (holds_tuple self h2) as [t Ht].
    { revert Hbody. unfold bind at 1. unfold alloc.
      unfold bind at 1. unfold set_attr.
      rewrite lookup_app_l, Hself by by eapply lookup_lt_Some.
      cbn [fget F_properties].
      assert (holds_tuple self
                (<[self:=fset F_properties (Some (length h)) (CPropertySet p)]>
                   (h ++ [CTuple []]))) as Hstart.
      { exists (length h). rewrite list_lookup_insert_eq; [done|].
        rewrite length_app. apply lookup_lt_Some in Hself. lia. }
      cbn [ps_class]. destruct (pe_class p).
      - intros Hloop. by apply (load_properties_loop_holds _ _ _ _ _ _ Hloop).
      - unfold bind, lift. destruct (schema_metadata schema _); [|done].
        intros Hloop. by apply (load_properties_loop_holds _ _ _ _ _ _ Hloop). }
    unfold get_attr. rewrite Ht. intros [= <- _]. by eexists.
Qed.

Lemma quiet_load_properties (file : ifc_file) (schema : option Schema.IfcSchema) :
  quiet (_load_properties file schema).
Proof. intros self h h1 Hload. by apply _load_properties_Some in Hload as [? [=]]. Qed.

End memo_spec.

(** ** Accesses in between *)

Section memo_frame.
Import Raw Entity Memo.
Context (file : ifc_file) (schema : option Schema.IfcSchema).

Lemma access_lazy (a : accessor) :
  access file schema a = lazy (attr_of a) (load_of file schema a).
Proof. by destruct a. Qed.

Lemma attr_of_lawful (a : accessor) : lawful (attr_of a).
Proof.
  destruct lawful_object_attributes as (H1 & H2 & H3 & H4 & H5 & H6).
  by destruct a.
Qed.

Lemma fset_fset (a : accessor) (v w : option addr) (c : cell) :
  fset (attr_of a) w (fset (attr_of a) v c) = fset (attr_of a) w c.
Proof. by destruct a, c. Qed.

Lemma fget_fset_other (a a' : accessor) (v : option addr) (c : cell) :
  a <> a' -> fget (attr_of a) (fset (attr_of a') v c) = fget (attr_of a) c.
Proof. by destruct a, a', c. Qed.

Lemma as_created_fset (a : accessor) (v : option addr) (c : cell) :
  as_created (fset (attr_of a) v c) = as_created c.
Proof. by destruct a, c. Qed.

Lemma frame_refl (F : attribute) (s : addr) (h : heap) : frame F s h h.
Proof. intros i c Hc. exists c. by split; [|left]. Qed.

Lemma frame_alloc (F : attribute) (s : addr) (h : heap) (c : cell) :
  frame F s h (h ++ [c]).
Proof.
  intros i c0 Hc. exists c0. split; [|by left].
  by rewrite lookup_app_l by by eapply lookup_lt_Some.
Qed.

Lemma frame_trans (a : accessor) (s : addr) (h1 h2 h3 : heap) :
  frame (attr_of a) s h1 h2 -> frame (attr_of a) s h2 h3 ->
  frame (attr_of a) s h1 h3.
Proof.
  intros H12 H23 i c Hc.
  destruct (H12 i c Hc) as (c2 & Hc2 & Hrel2).
  destruct (H23 i c2 Hc2) as (c3 & Hc3 & Hrel3).
  exists c3. split; [done|].
  destruct Hrel2 as [->|(-> & v & ->)]; [done|].
  destruct Hrel3 as [->|(_ & w & ->)].
  - right. split; [done|]. by exists v.
  - right. split; [done|]. exists w. by rewrite fset_fset.
Qed.

Lemma framed_ret {A} (F : attribute) (s : addr) (x : A) : framed F s (ret x).
Proof. intros h res h' [= _ <-]. apply frame_refl. Qed.

Lemma framed_raise {A} (F : attribute) (s : addr) (e : exn) :
  framed F s (raise (A := A) e).
Proof. intros h res h' [= _ <-]. apply frame_refl. Qed.

Lemma framed_lift {A} (F : attribute) (s : addr) (r : result A) :
  framed F s (lift r).
Proof. intros h res h' [= _ <-]. apply frame_refl. Qed.

Lemma framed_alloc (F : attribute) (s : addr) (c : cell) : framed F s (alloc c).
Proof. intros h res h' [= _ <-]. apply frame_alloc. Qed.

Lemma framed_bind {A B} (a : accessor) (s : addr) (m : M A) (k : A -> M B) :
  framed (attr_of a) s m -> (forall x, framed (attr_of a) s (k x)) ->
  framed (attr_of a) s (bind m k).
Proof.
  intros Hm Hk h res h'. unfold bind.
  destruct (m h) as [[x|e] h1] eqn:Hmh.
  - intros Hkx. eapply frame_trans; [by eapply Hm|by eapply Hk].
  - intros [= _ <-]. by eapply Hm.
Qed.

Lemma framed_get_attr (F F' : attribute) (s s' : addr) :
  framed F s (get_attr F' s').
Proof.
  intros h res h'. unfold get_attr.
  destruct (h !! s' ≫= fget F'); intros [= _ <-]; apply frame_refl.
Qed.

Lemma framed_set_attr (F : attribute) (s : addr) (v : option addr) :
  framed F s (set_attr F s v).
Proof.
  intros h res h'. unfold set_attr.
  destruct (h !! s) as [c|] eqn:Hc; [|intros [= _ <-]; apply frame_refl].
  destruct (fget F c); intros [= _ <-]; [|apply frame_refl].
  intros i c0 Hc0. destruct (decide (i = s)) as [->|Hne].
  - rewrite list_lookup_insert_eq by by eapply lookup_lt_Some.
    eexists. split; [done|]. right. split; [done|].
    exists v. congruence.
  - rewrite list_lookup_insert_ne by done. exists c0. by split; [|left].
Qed.

Lemma framed_object_base (F : attribute) (s s' : addr) :
  framed F s (object_base s').
Proof.
  intros h res h'. unfold object_base.
  destruct (h !! s') as [[]|]; intros [= _ <-]; apply frame_refl.
Qed.

Lemma framed_pset_self (F : attribute) (s s' : addr) :
  framed F s (pset_self s').
Proof.
  intros h res h'. unfold pset_self.
  destruct (h !! s') as [[]|]; intros [= _ <-]; apply frame_refl.
Qed.

Lemma framed_tuple_items (F : attribute) (s t : addr) :
  framed F s (tuple_items t).
Proof.
  intros h res h'. unfold tuple_items.
  destruct (h !! t) as [[]|]; intros [= _ <-]; apply frame_refl.
Qed.

Lemma framed_new_each {A} (a : accessor) (s : addr) (new : A -> M addr)
  (items : list A) :
  (forall x, framed (attr_of a) s (new x)) ->
  framed (attr_of a) s (new_each new items).
Proof.
  intros Hnew. induction items as [|x items IH]; cbn [new_each].
  - apply framed_ret.
  - apply framed_bind; [done|]. intros y.
    apply framed_bind; [done|]. intros ys. apply framed_ret.
Qed.

Lemma framed_new_each_opt {A} (a : accessor) (s : addr)
  (new : A -> M (option addr)) (items : list A) :
  (forall x, framed (attr_of a) s (new x)) ->
  framed (attr_of a) s (new_each_opt new items).
Proof.
  intros Hnew. induction items as [|x items IH]; cbn [new_each_opt].
  - apply framed_ret.
  - apply framed_bind; [done|]. intros y.
    apply framed_bind; [done|]. intros ys. apply framed_ret.
Qed.

Lemma framed_IfcObjectEntity_new (a : accessor) (s : addr) (raw : rid)
  (expected_types : types_arg) :
  framed (attr_of a) s (IfcObjectEntity_new file raw expected_types).
Proof.
  apply framed_bind; [apply framed_lift|]. intros e. apply framed_alloc.
Qed.

Lemma framed_load_properties_loop {A} (create : A -> result (option Property))
  (self : addr) (items : list A) :
  framed (attr_of Properties) self (load_properties_loop create self items).
Proof.
  induction items as [|x items IH]; cbn [load_properties_loop].
  - apply framed_ret.
  - apply framed_bind; [apply framed_lift|]. intros [p|].
    + apply framed_bind; [|by intros _].
      apply framed_bind; [apply framed_alloc|]. intros t.
      unfold append_property.
      apply framed_bind; [apply framed_get_attr|]. intros [cur|];
        [|apply framed_raise].
      apply framed_bind; [apply framed_tuple_items|]. intros l.
      apply framed_bind; [apply framed_alloc|]. intros t'.
      apply (framed_set_attr F_properties).
    + apply framed_bind; [apply framed_ret|]. by intros _.
Qed.

Lemma load_of_framed (a : accessor) (s : addr) :
  framed (attr_of a) s (load_of file schema a s).
Proof.
  destruct a; cbn [load_of].
  - unfold _load_parent.
    apply framed_bind; [apply framed_object_base|]. intros base.
    destruct (_get_relating_object file base); [|apply framed_ret].
    apply framed_bind; [apply framed_IfcObjectEntity_new|]. intros x.
    apply framed_ret.
  - unfold _load_kids.
    apply framed_bind; [apply framed_object_base|]. intros base.
    destruct (_get_related_objects file base); [|apply framed_ret].
    apply framed_bind.
    { apply framed_new_each. intros r. apply framed_IfcObjectEntity_new. }
    intros kids. apply framed_bind; [apply framed_alloc|]. intros t.
    apply framed_ret.
  - unfold _load_property_sets.
    apply framed_bind; [apply framed_object_base|]. intros base.
    apply framed_bind; [apply framed_lift|]. intros raw_psets.
    destruct (0 <? length raw_psets)%nat; [|apply framed_ret].
    apply framed_bind.
    { apply framed_new_each_opt. intros r. unfold pset_new.
      apply framed_bind; [apply framed_lift|]. intros [ps|];
        [|apply framed_ret].
      apply framed_bind; [apply framed_alloc|]. intros x. apply framed_ret. }
    intros psets. apply framed_bind; [apply framed_alloc|]. intros t.
    apply framed_ret.
  - unfold _load_quantities.
    apply framed_bind; [apply framed_object_base|]. intros base.
    destruct (is_a _ "IfcObject"); [|apply framed_ret].
    apply framed_bind.
    { apply framed_new_each_opt. intros r. unfold quantity_new.
      apply framed_bind; [apply framed_lift|]. intros [q|];
        [|apply framed_ret].
      apply framed_bind; [apply framed_alloc|]. intros x. apply framed_ret. }
    intros qs. apply framed_bind; [apply framed_alloc|]. intros t.
    apply framed_ret.
  - unfold _load_object_type.
    apply framed_bind; [apply framed_object_base|]. intros base.
    destruct (is_a _ "IfcObject"); [|apply framed_ret].
    destruct (first_type_relation file _); [|apply framed_ret].
    apply framed_bind; [apply framed_IfcObjectEntity_new|]. intros x.
    apply framed_ret.
  - unfold _load_properties.
    apply framed_bind; [apply framed_pset_self|]. intros ps.
    apply framed_bind; [apply framed_get_attr|]. intros cur.
    apply framed_bind; [|intros _; apply framed_get_attr].
    destruct cur as [t|]; [apply framed_ret|].
    apply framed_bind; [apply framed_alloc|]. intros t.
    apply framed_bind; [apply (framed_set_attr F_properties)|]. intros _.
    destruct (ps_class ps).
    + apply framed_load_properties_loop.
    + apply framed_bind; [apply framed_lift|]. intros meta.
      apply framed_load_properties_loop.
Qed.

Lemma access_framed (a : accessor) (s : addr) :
  framed (attr_of a) s (access file schema a s).
Proof.
  rewrite access_lazy. unfold lazy.
  apply framed_bind; [apply framed_get_attr|]. intros [v|];
    [apply framed_ret|].
  apply framed_bind; [apply load_of_framed|]. intros r.
  apply framed_bind; [apply framed_set_attr|]. intros _.
  apply framed_get_attr.
Qed.

End memo_frame.

Section memo_later.
Import Raw Entity Memo.
Context (file : ifc_file) (schema : option Schema.IfcSchema).

Lemma load_of_quiet (a : accessor) : quiet (load_of file schema a).
Proof.
  destruct a; cbn [load_of].
  - apply quiet_load_parent.
  - apply quiet_load_kids.
  - apply quiet_load_property_sets.
  - apply quiet_load_quantities.
  - apply quiet_load_object_type.
  - apply quiet_load_properties.
Qed.

(** A load that gives [None] looks at nothing but the record wrapped. *)
Lemma load_of_None_again (a : accessor) (self : addr) (h h' : heap)
  (c c' : cell) :
  load_of file schema a self h = (Ok None, h) ->
  h !! self = Some c -> h' !! self = Some c' ->
  as_created c = as_created c' ->
  load_of file schema a self h' = (Ok None, h').
Proof.
  intros Hload Hc Hc' Hsame. revert Hload.
  destruct a; cbn [load_of];
    try (unfold _load_parent, _load_kids, _load_property_sets,
           _load_quantities, _load_object_type, bind, object_base, lift;
         rewrite Hc, Hc';
         destruct c as [|o| | |]; try done;
         destruct c' as [|o'| | |]; try done;
         injection Hsame as <-).
  - destruct (_get_relating_object file _); [|done].
    unfold IfcObjectEntity_new, bind, lift, alloc.
    by destruct (IfcObjectEntity_init file _ _).
  - destruct (_get_related_objects file _); [|done].
    by destruct (new_each _ _ h) as [[] ?].
  - destruct (raw_property_sets file _); [|done].
    destruct (0 <? _)%nat; [|done].
    by destruct (new_each_opt _ _ h) as [[] ?].
  - destruct (is_a _ "IfcObject"); [|done].
    by destruct (new_each_opt _ _ h) as [[] ?].
  - destruct (is_a _ "IfcObject"); [|done].
    destruct (first_type_relation file _); [|done].
    unfold IfcObjectEntity_new, bind, lift, alloc.
    by destruct (IfcObjectEntity_init file _ _).
  - intros Hload. by apply _load_properties_Some in Hload as [? [=]].
Qed.

Lemma lazy_cached (F : attribute) (load : addr -> M (option addr))
  (self v : addr) (h : heap) :
  h !! self ≫= fget F = Some (Some v) ->
  lazy F load self h = (Ok (Some v), h).
Proof. intros Hget. unfold lazy, bind, get_attr. by rewrite Hget. Qed.

Lemma lazy_None (F : attribute) (load : addr -> M (option addr))
  (self : addr) (h : heap) (c : cell) :
  lawful F -> h !! self = Some c -> fget F c = Some None ->
  load self h = (Ok None, h) ->
  lazy F load self h = (Ok None, h).
Proof.
  intros [Hsame _] Hc Hget Hload. unfold lazy, bind, get_attr, set_attr.
  rewrite Hc. cbn. rewrite Hget, Hload, Hc, Hget.
  rewrite (Hsame c None Hget), list_insert_id by done.
  rewrite Hc. cbn. by rewrite Hget.
Qed.

Lemma lazy_first (F : attribute) (load : addr -> M (option addr))
  (self : addr) (h h1 : heap) (r : option addr) :
  lawful F -> quiet load ->
  lazy F load self h = (Ok r, h1) ->
  match r with
  | Some v => h1 !! self ≫= fget F = Some (Some v)
  | None =>
      h1 = h
      /\ exists c, h !! self = Some c /\ fget F c = Some None
                   /\ load self h = (Ok None, h)
  end.
Proof.
  intros [Hsame Hback] Hquiet. unfold lazy, bind, get_attr.
  destruct (h !! self ≫= fget F) as [[v|]|] eqn:Hget; cbn; [| |done].
  { by intros [= <- <-]. }
  destruct (load self h) as [[r0|ex] h1'] eqn:Hload; [|done].
  unfold set_attr.
  destruct (h1' !! self) as [c|] eqn:Hc; [|done].
  destruct (fget F c) as [w|] eqn:Hw; [|done].
  rewrite list_lookup_insert_eq by by eapply lookup_lt_Some.
  cbn. rewrite (Hback c r0 w Hw). intros [= <- <-].
  destruct r0 as [v|].
  { rewrite list_lookup_insert_eq by by eapply lookup_lt_Some.
    cbn. by rewrite (Hback c (Some v) w Hw). }
  assert (h1' = h) as -> by by eapply Hquiet.
  rewrite Hc in Hget. cbn in Hget. rewrite Hw in Hget. injection Hget as ->.
  rewrite (Hsame c None Hw), list_insert_id by done.
  split; [done|]. by exists c.
Qed.

(** C9. Every lazily loaded attribute (parent, kids, property sets,
    quantities, object type, and the properties of a property set) is
    idempotent: once an access has returned, every later access, whatever
    attributes of whatever objects have been accessed in between, returns
    the very object the first access returned (the same address, or [None]
    again) and changes nothing. *)
Theorem lazy_attribute_idempotent (a : accessor) (self : addr)
  (h h1 : heap) (r : option addr) :
  access file schema a self h = (Ok r, h1) ->
  forall h2, rtc (access_step file schema) h1 h2 ->
  access file schema a self h2 = (Ok r, h2).
Proof.
  intros Hfirst h2 Hlater.
  rewrite access_lazy in Hfirst.
  apply lazy_first in Hfirst; [|apply attr_of_lawful|apply load_of_quiet].
  destruct r as [v|].
  - rewrite access_lazy. apply lazy_cached.
    induction Hlater as [h1|h1 h1' h2 (a' & s' & res & Hstep) _ IH]; [done|].
    apply IH. destruct (decide (a' = a /\ s' = self)) as [[-> ->]|Hother].
    + rewrite access_lazy, (lazy_cached _ _ _ v) in Hstep by done.
      by injection Hstep as _ <-.
    + destruct (h1 !! self) as [c|] eqn:Hc; [|done]. cbn in Hfirst.
      destruct (access_framed file schema a' s' _ _ _ Hstep self c Hc)
        as (c' & -> & [->|(-> & v' & ->)]); [done|].
      cbn. rewrite fget_fset_other; [done|]. intros ->. by apply Hother.
  - destruct Hfirst as (-> & c0 & Hc0 & Hnone & Hload).
    assert (forall h' c',
              h' !! self = Some c' -> as_created c0 = as_created c' ->
              load_of file schema a self h' = (Ok None, h')) as Hagain
      by (intros h' c' Hc' Hs; by apply (load_of_None_again a self h h' c0 c')).
    assert (exists c, h2 !! self = Some c /\ fget (attr_of a) c = Some None
                      /\ as_created c0 = as_created c) as (c & Hc & Hget & Hsame).
    { assert (exists c, h !! self = Some c /\ fget (attr_of a) c = Some None
                        /\ as_created c0 = as_created c) as Hinv
        by by exists c0.
      clear Hc0 Hnone Hload.
      induction Hlater as [h|h h' h2 (a' & s' & res & Hstep) _ IH]; [done|].
      apply IH; clear IH. destruct Hinv as (c & Hc & Hget & Hsame).
      destruct (decide (a' = a /\ s' = self)) as [[-> ->]|Hother].
      - rewrite access_lazy, (lazy_None _ _ _ _ c) in Hstep;
          [|apply attr_of_lawful|done|done|by eapply Hagain].
        injection Hstep as _ <-. by exists c.
      - destruct (access_framed file schema a' s' _ _ _ Hstep self c Hc)
          as (c' & Hc' & [->|(-> & v' & ->)]); [by exists c|].
        eexists. split; [done|]. split.
        + rewrite fget_fset_other; [done|]. intros ->. by apply Hother.
        + by rewrite as_created_fset. }
    rewrite access_lazy. apply (lazy_None _ _ _ _ c); try done.
    + apply attr_of_lawful.
    + by eapply Hagain.
Qed.

End memo_later.

Section memo_samples.
Import Raw Entity Memo.

Lemma parent_of_opening_later :
  access opening_file None Parent 0
    (access opening_file None Kids 0 opening_heap_loaded).2
  = (Ok (Some 1%nat), (access opening_file None Kids 0 opening_heap_loaded).2).
Proof.
  apply (lazy_attribute_idempotent opening_file None Parent 0 opening_heap
           opening_heap_loaded (Some 1%nat)).
  - vm_compute. reflexivity.
  - apply rtc_once. exists Kids, 0%nat, (access opening_file None Kids 0 opening_heap_loaded).1.
    apply surjective_pairing.
Defined.

End memo_samples.

(** * Further properties *)

(** ** Dictionaries read in key order *)

Section sorted_dicts.
Import Schema.

Lemma sorted_keys_perm {V} (d : gmap string V) :
  sorted_keys d ≡ₚ (map_to_list d).*1.
Proof. apply (merge_sort_Permutation String.le). Qed.

Lemma sorted_keys_elem {V} (d : gmap string V) (k : string) :
  k ∈ sorted_keys d <-> is_Some (d !! k).
Proof.
  rewrite sorted_keys_perm, list_elem_of_fmap. split.
  - intros ([k' a] & -> & Hin). apply elem_of_map_to_list in Hin. by exists a.
  - intros [a Ha]. exists (k, a). split; [done|]. by apply elem_of_map_to_list.
Qed.

Lemma sorted_keys_NoDup {V} (d : gmap string V) : NoDup (sorted_keys d).
Proof. rewrite sorted_keys_perm. apply NoDup_fst_map_to_list. Qed.

Lemma sorted_keys_Sorted {V} (d : gmap string V) :
  Sorted String.le (sorted_keys d).
Proof. apply (Sorted_merge_sort String.le). Qed.

Lemma sorted_keys_StronglySorted {V} (d : gmap string V) :
  StronglySorted String.le (sorted_keys d).
Proof. apply (StronglySorted_merge_sort String.le); apply _. Qed.

Lemma StronglySorted_sublist {A} (R : relation A) (l1 l2 : list A) :
  sublist l1 l2 -> StronglySorted R l2 -> StronglySorted R l1.
Proof.
  induction 1 as [|x l1 l2 Hsub IH|x l1 l2 Hsub IH]; [done|..].
  - intros [Hall Hs]%StronglySorted_cons. apply StronglySorted_cons.
    split; [|by apply IH].
    rewrite Forall_forall in Hall. apply Forall_forall. intros y Hy.
    apply Hall. by eapply elem_of_sublist.
  - intros [_ Hs]%StronglySorted_cons. by apply IH.
Qed.

Lemma values_in_key_order {V} (d : gmap string V) :
  exists vs, mapM (dict_get d) (sorted_keys d) = Ok vs
             /\ Forall2 (fun k v => d !! k = Some v) (sorted_keys d) vs.
Proof.
  apply mapM_dict_get, Forall_forall. intros k. apply sorted_keys_elem.
Qed.

Lemma filterM_filter {A} (f : A -> result bool) (g : A -> bool)
  (l : list A) :
  Forall (fun x => f x = Ok (g x)) l ->
  filterM f l = Ok (filter (fun x => g x = true) l).
Proof.
  induction 1 as [|x l Hx _ IH]; [done|].
  cbn [filterM]. rewrite Hx, IH. cbn [rbind].
  rewrite filter_cons.
  destruct (g x); [rewrite decide_True by done|rewrite decide_False by done];
    done.
Qed.

End sorted_dicts.

(** ** Inheritance and subtypes *)

Section schema_inheritance.
Import Schema.

Lemma ancestors_snoc (l : list IfcSchemaEntity) (e : IfcSchemaEntity) :
  ancestors (l ++ [e]) = l.
Proof.
  unfold ancestors. rewrite length_app. cbn.
  replace (length l + 1 - 1) with (length l) by lia.
  by rewrite take_app_length.
Qed.

Lemma chain_last (schema : IfcSchema) (e : IfcSchemaEntity)
  (l : list IfcSchemaEntity) :
  chain schema e l -> l = ancestors l ++ [e].
Proof.
  destruct 1 as [e Hroot|e n p l Hsup Hp Hchain].
  - done.
  - by rewrite ancestors_snoc.
Qed.

Lemma chain_length (schema : IfcSchema) (e : IfcSchemaEntity)
  (l : list IfcSchemaEntity) :
  chain schema e l -> 0 < length l.
Proof.
  destruct 1; cbn; [lia|]. rewrite length_app. cbn. lia.
Qed.

Lemma inherits_shallow (schema : IfcSchema) (e : IfcSchemaEntity)
  (depth : nat) (name : string) :
  0 < depth ->
  inherits depth schema e name false
  = Ok (bool_decide (supertype_name e = Some name)).
Proof.
  destruct depth as [|depth]; [lia|]. intros _. cbn [inherits].
  by destruct (bool_decide (supertype_name e = Some name)).
Qed.

Lemma inherits_in_chain (schema : IfcSchema) (name : string)
  (e : IfcSchemaEntity) (l : list IfcSchemaEntity) :
  schema_wf schema -> chain schema e l ->
  forall depth, length l <= depth ->
  inherits depth schema e name true
  = Ok (bool_decide (name ∈ ent_name <$> ancestors l)).
Proof.
  intros Hwf. induction 1 as [e Hroot|e n p l Hsup Hp Hchain IH];
    intros depth Hdepth.
  - destruct depth as [|depth]; [cbn in Hdepth; lia|].
    cbn [inherits]. unfold supertype. rewrite Hroot.
    rewrite bool_decide_eq_false_2 by done. cbn.
    rewrite bool_decide_eq_false_2; [done|]. by intros ?%elem_of_nil.
  - rewrite length_app in Hdepth. cbn in Hdepth.
    destruct depth as [|depth]; [lia|].
    rewrite ancestors_snoc. cbn [inherits].
    unfold supertype, get_entity, dict_get. rewrite Hsup, Hp. cbn [rbind].
    destruct (Hwf n p Hp) as [Hname _].
    rewrite (chain_last _ _ _ Hchain), fmap_app. cbn [fmap list_fmap].
    rewrite Hname.
    destruct (decide (n = name)) as [->|Hn].
    + rewrite bool_decide_eq_true_2 by done.
      rewrite bool_decide_eq_true_2; [done|].
      apply elem_of_app. right. apply list_elem_of_here.
    + rewrite bool_decide_eq_false_2 by congruence.
      rewrite IH by lia. f_equal. apply bool_decide_ext.
      rewrite elem_of_app, list_elem_of_singleton. split; [tauto|].
      intros [?|Heq]; [done|]. by destruct Hn.
Qed.

Lemma supertype_in_ancestors (schema : IfcSchema) (e : IfcSchemaEntity)
  (l : list IfcSchemaEntity) (name : string) :
  schema_wf schema -> chain schema e l ->
  supertype_name e = Some name -> name ∈ ent_name <$> ancestors l.
Proof.
  intros Hwf Hchain Hsup.
  destruct Hchain as [e Hroot|e n p l Hs Hp Hchain]; [congruence|].
  rewrite ancestors_snoc, (chain_last _ _ _ Hchain), fmap_app.
  apply elem_of_app. right. cbn.
  destruct (Hwf n p Hp) as [Hname _].
  assert (name = ent_name p) as -> by congruence. apply list_elem_of_here.
Qed.

Lemma own_name_not_above (schema : IfcSchema) (e : IfcSchemaEntity)
  (l : list IfcSchemaEntity) :
  schema_wf schema -> _entities_by_name schema !! ent_name e = Some e ->
  chain schema e l -> ent_name e ∉ ent_name <$> ancestors l.
Proof.
  intros Hwf He Hchain Hin.
  pose proof (chain_names_NoDup _ _ _ Hwf Hchain He) as Hnd.
  rewrite (chain_last _ _ _ Hchain), fmap_app in Hnd.
  apply NoDup_app in Hnd as (_ & Hdisj & _).
  apply (Hdisj _ Hin). cbn. apply list_elem_of_here.
Qed.

(** X1. For an entity of a schema as the reader builds it, with a finite
    supertype chain and call depth for it: without deep inheritance
    [inherits] holds exactly of the name of the immediate supertype; with
    deep inheritance it holds exactly of the names of the entities above it
    in its chain, which include the immediate supertype; and an entity of
    the registry does not inherit from itself. *)
Theorem inherits_spec (schema : IfcSchema) (e : IfcSchemaEntity)
  (l : list IfcSchemaEntity) (depth : nat) (name : string) :
  schema_wf schema ->
  _entities_by_name schema !! ent_name e = Some e ->
  chain schema e l ->
  length l <= depth ->
  inherits depth schema e name false
  = Ok (bool_decide (supertype_name e = Some name))
  /\ inherits depth schema e name true
     = Ok (bool_decide (name ∈ ent_name <$> ancestors l))
  /\ (supertype_name e = Some name -> name ∈ ent_name <$> ancestors l)
  /\ inherits depth schema e (ent_name e) true = Ok false.
Proof.
  intros Hwf He Hchain Hdepth.
  pose proof (chain_length _ _ _ Hchain) as Hpos.
  split; [|split; [|split]].
  - apply inherits_shallow. lia.
  - by apply inherits_in_chain.
  - by apply (supertype_in_ancestors schema).
  - rewrite (inherits_in_chain schema _ e l Hwf Hchain depth Hdepth).
    rewrite bool_decide_eq_false_2; [done|].
    by apply (own_name_not_above schema).
Qed.

Lemma IfcRoot_chain_holds :
  chain sample_schema (sample_entity "IfcRoot") [sample_entity "IfcRoot"].
Proof. apply chain_root. vm_compute. reflexivity. Qed.

Lemma IfcObjectDefinition_chain_holds :
  chain sample_schema (sample_entity "IfcObjectDefinition")
    ([sample_entity "IfcRoot"] ++ [sample_entity "IfcObjectDefinition"]).
Proof.
  apply (chain_step _ _ "IfcRoot" (sample_entity "IfcRoot"));
    [vm_compute; reflexivity..|].
  exact IfcRoot_chain_holds.
Qed.

Lemma IfcObject_chain_holds :
  chain sample_schema (sample_entity "IfcObject") IfcObject_chain.
Proof.
  unfold IfcObject_chain. rewrite app_assoc.
  apply (chain_step _ _ "IfcObjectDefinition"
           (sample_entity "IfcObjectDefinition"));
    [vm_compute; reflexivity..|].
  exact IfcObjectDefinition_chain_holds.
Qed.

Lemma sample_entities_have_chains :
  Forall (has_chain sample_schema 1000) sample_entities.
Proof.
  repeat constructor.
  - exists IfcObject_chain. split; [exact IfcObject_chain_holds|cbn; lia].
  - eexists. split; [exact IfcObjectDefinition_chain_holds|cbn; lia].
  - eexists. split; [exact IfcRoot_chain_holds|cbn; lia].
Qed.

Lemma inherits_IfcObject :
  inherits 1000 sample_schema (sample_entity "IfcObject") "IfcRoot" false
  = Ok (bool_decide
          (supertype_name (sample_entity "IfcObject") = Some "IfcRoot"))
  /\ inherits 1000 sample_schema (sample_entity "IfcObject") "IfcRoot" true
     = Ok (bool_decide ("IfcRoot" ∈ ent_name <$> ancestors IfcObject_chain))
  /\ (supertype_name (sample_entity "IfcObject") = Some "IfcRoot" ->
      "IfcRoot" ∈ ent_name <$> ancestors IfcObject_chain)
  /\ inherits 1000 sample_schema (sample_entity "IfcObject")
       (ent_name (sample_entity "IfcObject")) true = Ok false.
Proof.
  apply (inherits_spec sample_schema (sample_entity "IfcObject")
           IfcObject_chain 1000 "IfcRoot").
  - exact sample_schema_wf.
  - vm_compute. reflexivity.
  - exact IfcObject_chain_holds.
  - cbn. lia.
Defined.

Lemma inherits_own_name (schema : IfcSchema) (e : IfcSchemaEntity)
  (depth : nat) (deep : bool) :
  schema_wf schema -> _entities_by_name schema !! ent_name e = Some e ->
  has_chain schema depth e ->
  inherits depth schema e (ent_name e) deep = Ok false.
Proof.
  intros Hwf He (l & Hchain & Hdepth).
  pose proof (chain_length _ _ _ Hchain) as Hpos.
  pose proof (own_name_not_above _ _ _ Hwf He Hchain) as Hnot.
  destruct deep.
  - rewrite (inherits_in_chain schema _ e l Hwf Hchain depth Hdepth).
    by rewrite bool_decide_eq_false_2.
  - rewrite inherits_shallow by lia.
    rewrite bool_decide_eq_false_2; [done|]. intros Hsup.
    by apply Hnot, (supertype_in_ancestors schema e).
Qed.

Lemma inherits_returns (schema : IfcSchema) (e : IfcSchemaEntity)
  (depth : nat) (name : string) (deep : bool) :
  schema_wf schema -> has_chain schema depth e ->
  exists b, inherits depth schema e name deep = Ok b.
Proof.
  intros Hwf (l & Hchain & Hdepth).
  pose proof (chain_length _ _ _ Hchain) as Hpos.
  destruct deep.
  - eexists. by apply inherits_in_chain.
  - eexists. apply inherits_shallow. lia.
Qed.

Lemma entities_registered (schema : IfcSchema) (ents : list IfcSchemaEntity) :
  schema_wf schema -> entities schema = Ok ents ->
  ent_name <$> ents = sorted_keys (_entities_by_name schema)
  /\ forall D, D ∈ ents <-> _entities_by_name schema !! ent_name D = Some D.
Proof.
  intros Hwf Hents.
  destruct (values_in_key_order (_entities_by_name schema))
    as (vs & Hvs & Hall).
  unfold entities in Hents. rewrite Hvs in Hents. injection Hents as <-.
  assert (ent_name <$> vs = sorted_keys (_entities_by_name schema)) as Hnames.
  { clear Hvs. revert Hall.
    generalize (sorted_keys (_entities_by_name schema)).
    intros ks. induction 1 as [|k D ks vs Hk _ IH]; [done|].
    cbn. destruct (Hwf k D Hk) as [-> _]. by rewrite IH. }
  split; [done|]. intros D. split.
  - intros Hin. apply list_elem_of_lookup in Hin as [i Hi].
    destruct (Forall2_lookup_r _ _ _ _ _ Hall Hi) as (k & _ & Hk).
    by destruct (Hwf k D Hk) as [-> _].
  - intros HD.
    assert (ent_name D ∈ sorted_keys (_entities_by_name schema)) as Hin.
    { apply sorted_keys_elem. by exists D. }
    apply list_elem_of_lookup in Hin as [i Hi].
    destruct (Forall2_lookup_l _ _ _ _ _ Hall Hi) as (D' & HiD & HD').
    assert (D' = D) as -> by congruence.
    by apply list_elem_of_lookup_2 in HiD.
Qed.

(** X2. In a schema as the reader builds it, where every entity has a
    supertype chain within the call depth, [get_subtypes] returns, in
    ascending order of name and without repeats, exactly the registered
    entities that inherit from the entity (directly, or at any distance when
    deep); the entity itself is never among them; [get_subtype_names] gives
    their names. *)
Theorem get_subtypes_spec (schema : IfcSchema) (ents : list IfcSchemaEntity)
  (depth : nat) (e : IfcSchemaEntity) (deep : bool) :
  schema_wf schema ->
  entities schema = Ok ents ->
  Forall (has_chain schema depth) ents ->
  _entities_by_name schema !! ent_name e = Some e ->
  exists subs,
    get_subtypes depth schema e deep = Ok subs
    /\ get_subtype_names depth schema e deep = Ok (ent_name <$> subs)
    /\ StronglySorted String.le (ent_name <$> subs)
    /\ NoDup (ent_name <$> subs)
    /\ (e ∉ subs)
    /\ forall D, D ∈ subs <->
         _entities_by_name schema !! ent_name D = Some D
         /\ inherits depth schema D (ent_name e) deep = Ok true.
Proof.
  intros Hwf Hents Hchains He.
  destruct (entities_registered schema ents Hwf Hents) as [Hnames Hreg].
  set (g := fun D => match inherits depth schema D (ent_name e) deep with
                     | Ok b => b
                     | Raise _ => false
                     end).
  assert (Forall (fun D =>
            inherits depth schema D (ent_name e) deep = Ok (g D)) ents)
    as Hg.
  { eapply Forall_impl; [exact Hchains|]. intros D HD. unfold g.
    by destruct (inherits_returns schema D depth (ent_name e) deep Hwf HD)
      as [b ->]. }
  pose proof (filterM_filter _ g ents Hg) as Hsubs.
  exists (filter (fun x => g x = true) ents).
  assert (get_subtypes depth schema e deep
          = Ok (filter (fun x => g x = true) ents)) as Hget.
  { unfold get_subtypes. rewrite Hents. exact Hsubs. }
  assert (sublist (ent_name <$> filter (fun x => g x = true) ents)
            (sorted_keys (_entities_by_name schema))) as Hsub.
  { rewrite <-Hnames. apply fmap_sublist, sublist_filter. }
  rewrite Forall_forall in Hg.
  split; [done|split; [|split; [|split; [|split]]]].
  - unfold get_subtype_names. by rewrite Hget.
  - eapply StronglySorted_sublist; [exact Hsub|].
    apply sorted_keys_StronglySorted.
  - eapply sublist_NoDup; [|exact Hsub]. apply sorted_keys_NoDup.
  - intros [Htrue Hin]%list_elem_of_filter.
    pose proof (Hg e Hin) as Hinh.
    rewrite inherits_own_name in Hinh; [congruence|done..|].
    rewrite Forall_forall in Hchains. by apply Hchains.
  - intros D. rewrite list_elem_of_filter, <-Hreg. split.
    + intros [Htrue Hin]. split; [done|]. by rewrite (Hg D Hin), Htrue.
    + intros [Hin Hinh]. split; [|done]. rewrite (Hg D Hin) in Hinh.
      congruence.
Qed.

Lemma get_subtypes_IfcRoot :
  exists subs,
    get_subtypes 1000 sample_schema (sample_entity "IfcRoot") true = Ok subs
    /\ get_subtype_names 1000 sample_schema (sample_entity "IfcRoot") true
       = Ok (ent_name <$> subs)
    /\ StronglySorted String.le (ent_name <$> subs)
    /\ NoDup (ent_name <$> subs)
    /\ (sample_entity "IfcRoot" ∉ subs)
    /\ forall D, D ∈ subs <->
         _entities_by_name sample_schema !! ent_name D = Some D
         /\ inherits 1000 sample_schema D
              (ent_name (sample_entity "IfcRoot")) true = Ok true.
Proof.
  apply (get_subtypes_spec sample_schema sample_entities 1000
           (sample_entity "IfcRoot") true).
  - exact sample_schema_wf.
  - vm_compute. reflexivity.
  - exact sample_entities_have_chains.
  - vm_compute. reflexivity.
Defined.

End schema_inheritance.

(** ** Attributes, inverse attributes and elements of the schema *)

Section schema_lookups.
Import Schema.

Lemma dict_get_Ok {V} (d : gmap string V) (k : string) (v : V) :
  dict_get d k = Ok v <-> d !! k = Some v.
Proof. unfold dict_get. destruct (d !! k); split; congruence. Qed.

Lemma dict_get_KeyError {V} (d : gmap string V) (k : string) :
  dict_get d k = Raise KeyError <-> d !! k = None.
Proof. unfold dict_get. destruct (d !! k); split; congruence. Qed.


(** X3. The attributes of an entity by name: the names are in ascending
    order without repeats; [get_attribute] returns for exactly the names of
    [attribute_names] and raises [KeyError] for exactly the others;
    [attributes] is the list of what [get_attribute] returns for each name,
    in the order of the names. *)
Theorem get_attribute_spec (e : IfcSchemaEntity) :
  StronglySorted String.le (attribute_names e)
  /\ NoDup (attribute_names e)
  /\ (forall k, k ∈ attribute_names e <-> exists a, get_attribute e k = Ok a)
  /\ (forall k, k ∉ attribute_names e <-> get_attribute e k = Raise KeyError)
  /\ exists attrs,
       attributes e = Ok attrs
       /\ Forall2 (fun k a => get_attribute e k = Ok a)
            (attribute_names e) attrs.
Proof.
  split; [apply sorted_keys_StronglySorted|].
  split; [apply sorted_keys_NoDup|].
  split; [|split].
  - intros k. unfold attribute_names, get_attribute.
    rewrite sorted_keys_elem. unfold is_Some.
    by setoid_rewrite dict_get_Ok.
  - intros k. unfold attribute_names, get_attribute.
    rewrite sorted_keys_elem, dict_get_KeyError.
    by rewrite eq_None_not_Some.
  - destruct (values_in_key_order (_attributes_by_name e))
      as (attrs & Hattrs & Hall).
    exists attrs. split; [done|].
    eapply Forall2_impl; [exact Hall|]. intros k a. apply dict_get_Ok.
Qed.

(** X4. For an entity as the reader builds it (each attribute stored under
    its own name), [not_optional_attributes] is [attributes] without the
    optional ones, in the same order, and [not_optional_attribute_names]
    gives their names, a sublist of [attribute_names]. *)
Theorem not_optional_attributes_spec (e : IfcSchemaEntity) :
  entity_wf e ->
  exists attrs,
    attributes e = Ok attrs
    /\ not_optional_attributes e
       = Ok (filter (fun a => is_optional a = false) attrs)
    /\ not_optional_attribute_names e
       = Ok (attr_name <$> filter (fun a => is_optional a = false) attrs)
    /\ sublist (attr_name <$> filter (fun a => is_optional a = false) attrs)
         (attribute_names e).
Proof.
  intros Hwf. destruct (attributes_Ok e) as (attrs & Hattrs & Hall).
  pose proof (stored_under_name e _ _ Hwf Hall) as Hst.
  assert (filter (fun attr => negb (is_optional attr)) attrs
          = filter (fun a => is_optional a = false) attrs) as Hfilter.
  { apply list_filter_iff. intros a. by destruct (is_optional a). }
  assert (attr_name <$> attrs = attribute_names e) as Hnames.
  { clear Hattrs Hst Hfilter. revert Hall. generalize (attribute_names e).
    intros ks. induction 1 as [|k a ks attrs Hk _ IH]; [done|].
    cbn. destruct (Hwf k a Hk) as [-> _]. by rewrite IH. }
  exists attrs. split; [done|].
  assert (not_optional_attribute_names e
          = Ok (attr_name <$> filter (fun a => is_optional a = false) attrs))
    as Hno.
  { unfold not_optional_attribute_names. rewrite Hattrs. cbn [rbind].
    by rewrite Hfilter. }
  split; [|split; [done|]].
  - unfold not_optional_attributes. rewrite Hno. cbn [rbind].
    apply mapM_attr_name. apply Forall_forall.
    intros a [_ Ha]%list_elem_of_filter.
    rewrite Forall_forall in Hst. by apply Hst.
  - rewrite <-Hnames. apply fmap_sublist, sublist_filter.
Qed.

Lemma not_optional_attributes_IfcRoot :
  exists attrs,
    attributes (sample_entity "IfcRoot") = Ok attrs
    /\ not_optional_attributes (sample_entity "IfcRoot")
       = Ok (filter (fun a => is_optional a = false) attrs)
    /\ not_optional_attribute_names (sample_entity "IfcRoot")
       = Ok (attr_name <$> filter (fun a => is_optional a = false) attrs)
    /\ sublist (attr_name <$> filter (fun a => is_optional a = false) attrs)
         (attribute_names (sample_entity "IfcRoot")).
Proof.
  apply (not_optional_attributes_spec (sample_entity "IfcRoot")).
  apply (sample_schema_wf "IfcRoot"). vm_compute. reflexivity.
Defined.




(** X6. [get_element] never raises; it returns [None] exactly for a name
    that is in none of the four registries; a name registered as a defined
    type gives the defined type whatever else bears the name, and an entity
    is returned only for a name that is in none of the three other
    registries. *)
Theorem get_element_spec (schema : IfcSchema) (element_name : string) :
  (exists found, get_element schema element_name = Ok found)
  /\ (get_element schema element_name = Ok None <->
        _defined_types_by_name schema !! element_name = None
        /\ _select_types_by_name schema !! element_name = None
        /\ _enumerations_by_name schema !! element_name = None
        /\ _entities_by_name schema !! element_name = None)
  /\ (forall t, get_defined_type schema element_name = Ok t ->
        get_element schema element_name = Ok (Some (ElDefinedType t)))
  /\ (forall t, get_element schema element_name = Ok (Some (ElEntity t)) <->
        _defined_types_by_name schema !! element_name = None
        /\ _select_types_by_name schema !! element_name = None
        /\ _enumerations_by_name schema !! element_name = None
        /\ get_entity schema element_name = Ok t).
Proof.
  unfold get_element, try_get, get_defined_type, get_select_type,
    get_enumeration, get_entity, dict_get.
  destruct (_defined_types_by_name schema !! element_name) as [d|].
  { split; [by eexists|]. split; [split; [done|by intros [[=] _]]|].
    split; [by intros t [= <-]|].
    intros t. split; [done|by intros [[=] _]]. }
  destruct (_select_types_by_name schema !! element_name) as [s|].
  { split; [by eexists|]. split; [split; [done|by intros (_ & [=] & _)]|].
    split; [done|].
    intros t. split; [done|by intros (_ & [=] & _)]. }
  destruct (_enumerations_by_name schema !! element_name) as [n|].
  { split; [by eexists|].
    split; [split; [done|by intros (_ & _ & [=] & _)]|].
    split; [done|].
    intros t. split; [done|by intros (_ & _ & [=] & _)]. }
  destruct (_entities_by_name schema !! element_name) as [en|].
  - split; [by eexists|].
    split; [split; [done|by intros (_ & _ & _ & [=])]|].
    split; [done|].
    intros t. split; [by intros [= <-]|by intros (_ & _ & _ & [= <-])].
  - split; [by eexists|]. split; [done|]. split; [done|].
    intros t. split; [done|by intros (_ & _ & _ & [=])].
Qed.



End schema_lookups.

(** ** The registry of entities as the reader builds it *)

Section schema_registry.
Import Schema.





Lemma before_mark_empty (noa : string) : before_mark EmptyString noa = EmptyString.
Proof. done. Qed.

(** X9. An entity whose text has no [INVERSE] section has no inverse
    attribute: built from such a text, [inverse_names] and [inverse] are
    empty and [get_inverse] raises [KeyError] for every name. *)
Theorem no_inverse_section (name : string) (sup : option string)
  (raw_data inner : string) :
  inner_raw_data raw_data = Ok inner ->
  Py.find (section_mark "INVERSE") inner = None ->
  exists e,
    IfcSchemaEntity_init name sup raw_data = Ok e
    /\ inverse_names e = []
    /\ inverse e = Ok []
    /\ forall k, get_inverse e k = Raise KeyError.
Proof.
  intros Hinner Hfind. unfold IfcSchemaEntity_init. rewrite Hinner.
  cbn [rbind].
  assert (inverse_str inner = Ok EmptyString) as Hinv.
  { unfold inverse_str, Py.partition. rewrite Hfind. done. }
  rewrite Hinv. unfold attrs_str. cbn [map Py.min rbind].
  eexists. split; [done|]. done.
Qed.

Lemma no_inverse_IfcRoot :
  exists e,
    IfcSchemaEntity_init "IfcRoot" None
      ("ABSTRACT SUPERTYPE OF (ONEOF (IfcObjectDefinition));"
       +:+ NL_TAB +:+ "GlobalId : IfcGloballyUniqueId;" +:+ Py.chr NL)
    = Ok e
    /\ inverse_names e = []
    /\ inverse e = Ok []
    /\ forall k, get_inverse e k = Raise KeyError.
Proof.
  apply (no_inverse_section "IfcRoot" None _
           (NL_TAB +:+ "GlobalId : IfcGloballyUniqueId;")).
  - vm_compute. reflexivity.
  - vm_compute. reflexivity.
Defined.

End schema_registry.

(** ** Cleaning strings and making codenames *)

Section tools_more.

Lemma filter_chars_all (p : ascii -> bool) (s : string) :
  (forall c, Py.mem_char c s = true -> p c = true) ->
  Py.filter_chars p s = s.
Proof.
  induction s as [|d s IH]; intros Hall; [done|].
  cbn [Py.filter_chars]. rewrite (Hall d).
  - rewrite IH; [done|]. intros c Hc. apply Hall. cbn [Py.mem_char].
    by destruct (decide (d = c)).
  - cbn [Py.mem_char]. by rewrite decide_True.
Qed.

Lemma mem_char_filter_chars (p : ascii -> bool) (s : string) (c : ascii) :
  Py.mem_char c (Py.filter_chars p s) = Py.mem_char c s && p c.
Proof.
  induction s as [|d s IH]; [done|].
  cbn [Py.filter_chars]. destruct (p d) eqn:Hd; cbn [Py.mem_char].
  - destruct (decide (d = c)) as [<-|]; [by rewrite Hd|done].
  - destruct (decide (d = c)) as [<-|]; [|done].
    rewrite IH, Hd. by rewrite andb_false_r.
Qed.

(** X10. [clean_str] on a string keeps exactly the characters that are not
    in [string.punctuation], in their order; so no punctuation character is
    left in the result, a string without punctuation is returned as it is,
    and cleaning twice is cleaning once. *)
Theorem clean_str_spec (s : string) :
  Tools.clean_str (Some s)
  = Some (Py.filter_chars (not_in Py.punctuation) s)
  /\ (forall cleaned c,
        Tools.clean_str (Some s) = Some cleaned ->
        Py.mem_char c Py.punctuation = true ->
        Py.mem_char c cleaned = false)
  /\ ((forall c, Py.mem_char c s = true ->
                 Py.mem_char c Py.punctuation = false) ->
      Tools.clean_str (Some s) = Some s)
  /\ Tools.clean_str (Tools.clean_str (Some s)) = Tools.clean_str (Some s).
Proof.
  assert (forall t, Tools.clean_str (Some t)
                    = Some (Py.filter_chars (not_in Py.punctuation) t)) as Hc.
  { intros t. cbn [Tools.clean_str]. by rewrite clean_chars_filter. }
  split; [apply Hc|]. split; [|split].
  - intros cleaned c. rewrite Hc. intros [= <-] Hp.
    rewrite mem_char_filter_chars. unfold not_in. rewrite Hp.
    apply andb_false_r.
  - intros Hall. rewrite Hc. f_equal. apply filter_chars_all.
    intros c Hin. unfold not_in. by rewrite (Hall c Hin).
  - rewrite !Hc, filter_chars_twice. f_equal. apply filter_chars_ext.
    intros c. by destruct (not_in Py.punctuation c).
Qed.






End tools_more.

(** ** Kids, defining sets and object type of an object entity *)

Section entity_more.
Import Raw Entity.
Context (file : ifc_file).

Lemma init_wrap (r : rid) :
  IfcObjectEntity_init file (ArgInstance r) default_expected_types
  = if is_a (by_id file r) "IfcObject" then Ok (wrap file r)
    else Raise ValueError.
Proof.
  unfold IfcObjectEntity_init, IfcBaseEntity_init, default_expected_types.
  cbn [check_expected_types]. by destruct (is_a (by_id file r) "IfcObject").
Qed.

Lemma mapM_init_all (rs : list rid) :
  Forall (fun r => is_a (by_id file r) "IfcObject" = true) rs ->
  Schema.mapM (fun r => IfcObjectEntity_init file (ArgInstance r)
                          default_expected_types) rs
  = Ok (wrap file <$> rs).
Proof.
  induction 1 as [|r rs Hr _ IH]; [done|].
  cbn [Schema.mapM]. rewrite init_wrap, Hr, IH. done.
Qed.

Lemma mapM_init_some (rs : list rid) :
  Exists (fun r => is_a (by_id file r) "IfcObject" = false) rs ->
  Schema.mapM (fun r => IfcObjectEntity_init file (ArgInstance r)
                          default_expected_types) rs
  = Raise ValueError.
Proof.
  induction rs as [|r rs IH]; intros Hex.
  - by apply Exists_nil in Hex.
  - cbn [Schema.mapM]. rewrite init_wrap.
    destruct (is_a (by_id file r) "IfcObject") eqn:Hr; [|done].
    apply Exists_cons in Hex as [Hex|Hex]; [congruence|].
    cbn [rbind]. by rewrite IH.
Qed.

Lemma foldl_app_bind {A B} (f : A -> list B) (l : list A) (acc : list B) :
  foldl (fun acc x => acc ++ f x) acc l = acc ++ (l ≫= f).
Proof.
  revert acc. induction l as [|x l IH]; intros acc; cbn.
  - by rewrite app_nil_r.
  - by rewrite IH, app_assoc.
Qed.

Lemma concat_map_bind {A B} (f : A -> list B) (l : list A) :
  concat (map f l) = l ≫= f.
Proof. induction l as [|x l IH]; [done|]. cbn. by rewrite IH. Qed.

Lemma filter_none {A} (P : A -> Prop) `{forall x, Decision (P x)}
  (l : list A) :
  Forall (fun x => ~ P x) l -> filter P l = [].
Proof.
  induction 1 as [|x l Hx _ IH]; [done|].
  by rewrite filter_cons, decide_False.
Qed.

Lemma _get_related_objects_spec (self : IfcObjectEntity) :
  _get_related_objects file self
  = if is_a (raw_of file self) "IfcObjectDefinition"
    then Some (related_records file (raw_of file self)) else None.
Proof.
  unfold _get_related_objects, related_records.
  destruct (is_a (raw_of file self) "IfcObjectDefinition"); [|done].
  by rewrite foldl_app_bind.
Qed.

(** X12. The kids of an entity.  For a record that is not an
    [IfcObjectDefinition] there are none ([None]).  Otherwise the kids are
    the wrappers of the related objects of its decomposition relations (of
    its grouping relations, for a zone), relation after relation, in order
    and with repeats kept, an empty tuple when there is none; and the access
    raises [ValueError] as soon as one of the related records is not an
    [IfcObject]. *)
Theorem kids_spec (self : IfcObjectEntity) :
  (is_a (raw_of file self) "IfcObjectDefinition" = false ->
   kids file self = Ok None)
  /\ (is_a (raw_of file self) "IfcObjectDefinition" = true ->
      Forall (fun r => is_a (by_id file r) "IfcObject" = true)
        (related_records file (raw_of file self)) ->
      kids file self
      = Ok (Some (wrap file <$> related_records file (raw_of file self))))
  /\ (is_a (raw_of file self) "IfcObjectDefinition" = true ->
      Exists (fun r => is_a (by_id file r) "IfcObject" = false)
        (related_records file (raw_of file self)) ->
      kids file self = Raise ValueError).
Proof.
  unfold kids, _load_kids. rewrite _get_related_objects_spec.
  split; [|split].
  - by intros ->.
  - intros -> Hall. by rewrite (mapM_init_all _ Hall).
  - intros -> Hex. by rewrite (mapM_init_some _ Hex).
Qed.

Lemma raw_property_sets_filter (rels : list rid) (acc : list rid) :
  foldl (fun raw_psets cur_rel =>
           if is_a (by_id file cur_rel) "IfcRelDefinesByProperties" then
             let cur_raw_pset :=
               RelatingPropertyDefinition (by_id file cur_rel) in
             if negb (is_a (by_id file cur_raw_pset) "IfcElementQuantity")
             then raw_psets ++ [cur_raw_pset]
             else raw_psets
           else raw_psets)
        acc rels
  = acc ++ filter (fun r => is_quantity_set file r = false)
             ((fun rel => RelatingPropertyDefinition (by_id file rel))
              <$> filter (fun rel => is_a (by_id file rel)
                                       "IfcRelDefinesByProperties") rels).
Proof.
  revert acc. induction rels as [|rel rels IH]; intros acc.
  - cbn. by rewrite app_nil_r.
  - cbn [foldl]. rewrite IH, filter_cons. unfold is_quantity_set.
    destruct (is_a (by_id file rel) "IfcRelDefinesByProperties") eqn:Hrel.
    + rewrite decide_True by done. cbn [fmap list_fmap]. rewrite filter_cons.
      destruct (is_a (by_id file (RelatingPropertyDefinition (by_id file rel)))
                  "IfcElementQuantity") eqn:Hq; cbn [negb].
      * by rewrite decide_False.
      * rewrite decide_True by done. by rewrite <-app_assoc.
    + rewrite decide_False; [done|]. by intros [].
Qed.

Lemma raw_element_quantities_filter (rels : list rid) :
  omap (fun cur_rel =>
          if is_a (by_id file cur_rel) "IfcRelDefinesByProperties"
             && is_a (by_id file
                        (RelatingPropertyDefinition (by_id file cur_rel)))
                  "IfcElementQuantity"
          then Some (RelatingPropertyDefinition (by_id file cur_rel))
          else None) rels
  = filter (fun r => is_quantity_set file r = true)
      ((fun rel => RelatingPropertyDefinition (by_id file rel))
       <$> filter (fun rel => is_a (by_id file rel)
                                "IfcRelDefinesByProperties") rels).
Proof.
  induction rels as [|rel rels IH]; [done|].
  cbn [omap list_omap]. change (list_omap ?f ?l) with (omap f l).
  rewrite IH, filter_cons. unfold is_quantity_set.
  destruct (is_a (by_id file rel) "IfcRelDefinesByProperties") eqn:Hrel.
  - rewrite decide_True by done. cbn [fmap list_fmap andb].
    rewrite filter_cons.
    destruct (is_a (by_id file (RelatingPropertyDefinition (by_id file rel)))
                "IfcElementQuantity") eqn:Hq.
    + by rewrite decide_True.
    + by rewrite decide_False.
  - rewrite decide_False; [done|]. by intros [].
Qed.

Lemma create_each_quantities (rs : list rid) :
  create_each (quantity_create file) rs
  = Ok (quantity_of file
        <$> filter (fun r => is_simple_quantity file r = true) rs).
Proof.
  induction rs as [|r rs IH]; [done|].
  cbn [create_each]. rewrite IH, filter_cons.
  unfold quantity_create, IfcBaseEntity_init, is_simple_quantity.
  cbn [check_expected_types].
  destruct (is_a (by_id file r) "IfcPhysicalSimpleQuantity") eqn:Hr.
  - by rewrite decide_True.
  - by rewrite decide_False.
Qed.

Lemma pset_create_total (r : rid) : pset_create file r = Ok (pset_of file r).
Proof.
  unfold pset_create, pset_of, IfcBaseEntity_init.
  cbn [check_expected_types].
  destruct (is_a (by_id file r) "IfcPropertySet"); [done|].
  by destruct (is_a (by_id file r) "IfcPropertySetDefinition").
Qed.

Lemma create_each_psets (rs : list rid) :
  create_each (pset_create file) rs = Ok (omap (pset_of file) rs).
Proof.
  induction rs as [|r rs IH]; [done|].
  cbn [create_each]. rewrite pset_create_total, IH. cbn [rbind].
  cbn [omap list_omap]. by destruct (pset_of file r).
Qed.

(** X13. The sets the defining relations by properties of an [IfcObject]
    point to are shared out between [property_sets] and [quantities], and
    neither access raises.  The property sets are made, in the order of the
    relations, of the sets that are not an [IfcElementQuantity]; with no
    such set the result is [None], not an empty tuple.  The quantities are
    the simple quantities of the sets that are an [IfcElementQuantity], set
    after set; the result is always a tuple, the other quantities being
    left out. *)
Theorem defining_sets_split (self : IfcObjectEntity) :
  is_a (raw_of file self) "IfcObject" = true ->
  property_sets file self
  = Ok (match filter (fun r => is_quantity_set file r = false)
                (defining_sets file (raw_of file self)) with
        | [] => None
        | sets => Some (omap (pset_of file) sets)
        end)
  /\ quantities file self
     = Ok (Some (quantity_of file
                 <$> filter (fun r => is_simple_quantity file r = true)
                       (filter (fun r => is_quantity_set file r = true)
                          (defining_sets file (raw_of file self))
                        ≫= (fun s => Quantities (by_id file s))))).
Proof.
  intros Hobj. split.
  - unfold property_sets, _load_property_sets, raw_property_sets.
    rewrite Hobj, raw_property_sets_filter. cbn [rbind app].
    fold (defining_sets file (raw_of file self)).
    destruct (filter _ (defining_sets file (raw_of file self)))
      as [|s sets]; [done|].
    cbn [length Nat.ltb Nat.leb]. by rewrite create_each_psets.
  - unfold quantities, _load_quantities. rewrite Hobj.
    unfold raw_element_quantities.
    rewrite raw_element_quantities_filter, concat_map_bind.
    fold (defining_sets file (raw_of file self)).
    by rewrite create_each_quantities.
Qed.

(** X14. The object type of an entity: the first of its defining relations
    that is a relation by type decides.  When what that relation points to
    is an [IfcTypeProduct] it is wrapped and returned, otherwise the access
    raises [ValueError], whatever the later relations are; without such a
    relation, or for a record that is not an [IfcObject], there is no
    object type. *)
Theorem object_type_spec (self : IfcObjectEntity) :
  (is_a (raw_of file self) "IfcObject" = false ->
   object_type file self = Ok None)
  /\ (is_a (raw_of file self) "IfcObject" = true ->
      Forall (fun rel => is_a (by_id file rel) "IfcRelDefinesByType" = false)
        (IsDefinedBy (raw_of file self)) ->
      object_type file self = Ok None)
  /\ (forall pre rel post,
        is_a (raw_of file self) "IfcObject" = true ->
        IsDefinedBy (raw_of file self) = pre ++ rel :: post ->
        Forall (fun rel => is_a (by_id file rel) "IfcRelDefinesByType" = false)
          pre ->
        is_a (by_id file rel) "IfcRelDefinesByType" = true ->
        object_type file self
        = if is_a (by_id file (RelatingType (by_id file rel))) "IfcTypeProduct"
          then Ok (Some (wrap file (RelatingType (by_id file rel))))
          else Raise ValueError).
Proof.
  unfold object_type, _load_object_type, first_type_relation.
  split; [by intros ->|]. split.
  - intros -> Hall.
    rewrite filter_none; [done|].
    eapply Forall_impl; [exact Hall|]. intros r Hr. cbn beta. rewrite Hr.
    by intros [].
  - intros pre rel post -> -> Hpre Hrel.
    rewrite filter_app, filter_cons.
    rewrite decide_True by (by rewrite Hrel).
    rewrite filter_none.
    + cbn [app head]. unfold IfcObjectEntity_init, IfcBaseEntity_init.
      cbn [check_expected_types].
      by destruct (is_a (by_id file (RelatingType (by_id file rel)))
                     "IfcTypeProduct").
    + eapply Forall_impl; [exact Hpre|]. intros r Hr. cbn beta. rewrite Hr.
      by intros [].
Qed.

End entity_more.

Section entity_more_samples.
Import Raw Entity.

Lemma kids_of_site :
  kids two_sites_file (wrap two_sites_file 0)
  = Ok (Some (wrap two_sites_file
              <$> related_records two_sites_file
                    (raw_of two_sites_file (wrap two_sites_file 0)))).
Proof.
  apply (kids_spec two_sites_file (wrap two_sites_file 0)).
  - vm_compute. reflexivity.
  - vm_compute. repeat constructor.
Defined.

Lemma slab_sets_split :
  property_sets slab_file (wrap slab_file 0)
  = Ok (match filter (fun r => is_quantity_set slab_file r = false)
                (defining_sets slab_file
                   (raw_of slab_file (wrap slab_file 0))) with
        | [] => None
        | sets => Some (omap (pset_of slab_file) sets)
        end)
  /\ quantities slab_file (wrap slab_file 0)
     = Ok (Some (quantity_of slab_file
                 <$> filter (fun r => is_simple_quantity slab_file r = true)
                       (filter (fun r => is_quantity_set slab_file r = true)
                          (defining_sets slab_file
                             (raw_of slab_file (wrap slab_file 0)))
                        ≫= (fun s => Quantities (by_id slab_file s))))).
Proof.
  apply (defining_sets_split slab_file (wrap slab_file 0)).
  vm_compute. reflexivity.
Defined.

Lemma object_type_of_slab :
  object_type slab_file (wrap slab_file 0)
  = if is_a (by_id slab_file (RelatingType (by_id slab_file 8)))
         "IfcTypeProduct"
    then Ok (Some (wrap slab_file (RelatingType (by_id slab_file 8))))
    else Raise ValueError.
Proof.
  apply (object_type_spec slab_file (wrap slab_file 0)) with [1; 3]%nat [].
  - vm_compute. reflexivity.
  - vm_compute. reflexivity.
  - repeat constructor.
  - vm_compute. reflexivity.
Defined.

End entity_more_samples.

(** ** Lookups by codename, equality and quantities *)

Section lookups_more.
Import Raw Entity.
Context (file : ifc_file) (schema : option Schema.IfcSchema).

Lemma mapM_app {A B} (f : A -> result B) (l1 l2 : list A)
  (r1 r2 : list B) :
  Schema.mapM f l1 = Ok r1 -> Schema.mapM f l2 = Ok r2 ->
  Schema.mapM f (l1 ++ l2) = Ok (r1 ++ r2).
Proof.
  revert r1. induction l1 as [|x l1 IH]; intros r1 H1 H2.
  - cbn in H1. by injection H1 as <-.
  - cbn [Schema.mapM app] in *.
    destruct (f x) as [y|]; cbn [rbind] in *; [|done].
    destruct (Schema.mapM f l1) as [ys|]; cbn [rbind] in *; [|done].
    injection H1 as <-. by rewrite (IH ys eq_refl H2).
Qed.

(** The two searches by codename have one shape. *)
Lemma codename_search {A} (cn : A -> result string)
  (loop : string -> list A -> result (option A)) :
  (forall c, loop c [] = Ok None) ->
  (forall c x l,
     loop c (x :: l)
     = (n <-! cn x; if bool_decide (c = n) then Ok (Some x) else loop c l)) ->
  forall l cns c,
    Schema.mapM cn l = Ok cns ->
    (c ∈ cns ->
     exists x, loop c l = Ok (Some x) /\ x ∈ l /\ cn x = Ok c)
    /\ (c ∉ cns -> loop c l = Ok None).
Proof.
  intros Hnil Hcons. induction l as [|x l IH]; intros cns c Hcns.
  - cbn in Hcns. injection Hcns as <-. split; [|by rewrite Hnil].
    by intros ?%elem_of_nil.
  - cbn [Schema.mapM] in Hcns. rewrite Hcons.
    destruct (cn x) as [n|] eqn:Hn; cbn [rbind] in *; [|done].
    destruct (Schema.mapM cn l) as [ns|] eqn:Hns; cbn [rbind] in *; [|done].
    injection Hcns as <-. destruct (IH ns c eq_refl) as [Hin Hout].
    case_bool_decide as Hc.
    + subst n. split.
      * intros _. exists x. split; [done|]. split; [|done].
        apply list_elem_of_here.
      * intros Hnot. destruct Hnot. apply list_elem_of_here.
    + split.
      * intros [?|Hc']%elem_of_cons; [done|].
        destruct (Hin Hc') as (y & Hy & Hyl & Hcy).
        exists y. split; [done|]. split; [|done]. by apply list_elem_of_further.
      * intros [_ Hc']%not_elem_of_cons. by apply Hout.
Qed.

(** X15. When every property set of an entity has a codename
    ([get_property_set_codenames] returns), [get_property_set] finds a set
    for exactly the codenames of that list and returns [None] for exactly
    the others; the set found is one of the entity's property sets and has
    the codename asked for. *)
Theorem get_property_set_spec (self : IfcObjectEntity) (cns : list string) :
  get_property_set_codenames file self = Ok cns ->
  exists psets,
    property_sets file self = Ok psets
    /\ Schema.mapM pset_codename (default [] psets) = Ok cns
    /\ (forall c, c ∈ cns <->
          exists ps, get_property_set file self c = Ok (Some ps))
    /\ (forall c, c ∉ cns <-> get_property_set file self c = Ok None)
    /\ (forall c ps,
          get_property_set file self c = Ok (Some ps) ->
          ps ∈ default [] psets /\ pset_codename ps = Ok c).
Proof.
  unfold get_property_set_codenames, get_property_set.
  destruct (property_sets file self) as [psets|]; cbn [rbind]; [|done].
  intros Hcns. exists psets. split; [done|]. split; [done|].
  pose proof (fun c => codename_search pset_codename get_property_set_loop
                (fun _ => eq_refl) (fun _ _ _ => eq_refl)
                (default [] psets) cns c Hcns) as Hsearch.
  split; [|split].
  - intros c. destruct (Hsearch c) as [Hin Hout]. split.
    + intros Hc. destruct (Hin Hc) as (ps & Hps & _). by exists ps.
    + intros [ps Hps]. destruct (decide (c ∈ cns)) as [|Hnot]; [done|].
      rewrite (Hout Hnot) in Hps. done.
  - intros c. destruct (Hsearch c) as [Hin Hout]. split; [done|].
    intros Hnone Hc. destruct (Hin Hc) as (ps & Hps & _).
    rewrite Hps in Hnone. done.
  - intros c ps Hps. destruct (Hsearch c) as [Hin Hout].
    destruct (decide (c ∈ cns)) as [Hc|Hnot].
    + destruct (Hin Hc) as (ps' & Hps' & Hl & Hcn).
      rewrite Hps in Hps'. by injection Hps' as <-.
    + rewrite (Hout Hnot) in Hps. done.
Qed.

Lemma codenames_follow_properties (wanted : option string)
  (psets : list PropertySet) :
  forall acc_c acc_p cns,
    get_property_codenames_loop file schema wanted psets acc_c = Ok cns ->
    Schema.mapM prop_codename acc_p = Ok acc_c ->
    exists props,
      get_properties_loop file schema wanted psets acc_p = Ok props
      /\ Schema.mapM prop_codename props = Ok cns.
Proof.
  induction psets as [|pset psets IH]; intros acc_c acc_p cns Hloop Hacc.
  - cbn in Hloop. injection Hloop as <-. by exists acc_p.
  - cbn [get_property_codenames_loop get_properties_loop] in *.
    destruct (pset_selected wanted pset) as [[|]|]; cbn [rbind] in *;
      [| |done].
    + unfold pset_get_property_codenames in Hloop.
      destruct (properties file schema pset) as [ps|]; cbn [rbind] in *;
        [|done].
      destruct (Schema.mapM prop_codename ps) as [cs|] eqn:Hcs;
        cbn [rbind] in *; [|done].
      apply (IH _ _ _ Hloop). by apply mapM_app.
    + by apply (IH _ _ _ Hloop).
Qed.

(** X16. When [get_property_codenames] returns, its list is the list of the
    codenames of what [get_properties] returns for the same selection, one
    for one and in the same order; and [get_property] finds a property for
    exactly the codenames of that list and returns [None] for exactly the
    others, the property found bearing the codename asked for. *)
Theorem get_property_codenames_spec (self : IfcObjectEntity)
  (wanted : option string) (cns : list string) :
  get_property_codenames file schema self wanted = Ok cns ->
  exists props,
    get_properties file schema self wanted = Ok props
    /\ Schema.mapM prop_codename props = Ok cns
    /\ (forall c, c ∈ cns <->
          exists p, get_property file schema self c wanted = Ok (Some p))
    /\ (forall c, c ∉ cns <->
          get_property file schema self c wanted = Ok None)
    /\ (forall c p,
          get_property file schema self c wanted = Ok (Some p) ->
          p ∈ props /\ prop_codename p = Ok c).
Proof.
  unfold get_property_codenames, get_property, get_properties.
  destruct (property_sets file self) as [psets|]; cbn [rbind]; [|done].
  intros Hcns.
  destruct (codenames_follow_properties wanted (default [] psets) [] [] cns
              Hcns eq_refl) as (props & Hprops & Hnames).
  exists props. rewrite Hprops. cbn [rbind]. split; [done|]. split; [done|].
  pose proof (fun c => codename_search prop_codename
                (fun c l => get_property_loop c l)
                (fun _ => eq_refl) (fun _ _ _ => eq_refl)
                props cns c Hnames) as Hsearch.
  cbn beta in Hsearch. split; [|split].
  - intros c. destruct (Hsearch c) as [Hin Hout]. split.
    + intros Hc. destruct (Hin Hc) as (p & Hp & _). by exists p.
    + intros [p Hp]. destruct (decide (c ∈ cns)) as [|Hnot]; [done|].
      rewrite (Hout Hnot) in Hp. done.
  - intros c. destruct (Hsearch c) as [Hin Hout]. split; [done|].
    intros Hnone Hc. destruct (Hin Hc) as (p & Hp & _).
    rewrite Hp in Hnone. done.
  - intros c p Hp. destruct (Hsearch c) as [Hin Hout].
    destruct (decide (c ∈ cns)) as [Hc|Hnot].
    + destruct (Hin Hc) as (p' & Hp' & Hl & Hcn).
      rewrite Hp in Hp'. by injection Hp' as <-.
    + rewrite (Hout Hnot) in Hp. done.
Qed.

Lemma quantity_create_base (r : rid) (q : Quantity) :
  quantity_create file r = Ok (Some q) -> q_base q = wrap file r.
Proof.
  unfold quantity_create, IfcBaseEntity_init. cbn [check_expected_types].
  destruct (is_a (by_id file r) "IfcPhysicalSimpleQuantity"); cbn; [|done].
  by intros [= <-].
Qed.

Lemma global_id_wrap (r : rid) :
  global_id (wrap file r)
  = as_label (default VNone (fields (by_id file r) !! "GlobalId")).
Proof.
  unfold global_id, wrap, dict_get_default, get_info. cbn [info].
  by rewrite lookup_insert_ne.
Qed.

(** X17. Equality of quantities.  A quantity record has no [GlobalId];
    the comparison the quantity classes inherit looks at nothing else, so
    any two quantities created from such records compare equal, whatever
    their names and values. *)
Theorem quantities_compare_equal (r1 r2 : rid) (q1 q2 : Quantity) :
  quantity_create file r1 = Ok (Some q1) ->
  quantity_create file r2 = Ok (Some q2) ->
  fields (by_id file r1) !! "GlobalId" = None ->
  fields (by_id file r2) !! "GlobalId" = None ->
  base_eq (q_base q1) (q_base q2) = true.
Proof.
  intros H1%quantity_create_base H2%quantity_create_base Hg1 Hg2.
  unfold base_eq. rewrite H1, H2, !global_id_wrap, Hg1, Hg2.
  by apply bool_decide_eq_true_2.
Qed.

Lemma drop_append (p s : string) : Py.drop (String.length p) (p +:+ s) = s.
Proof. induction p as [|c p IH]; [by destruct s|]. exact IH. Qed.

Lemma append_length (s t : string) :
  String.length (s +:+ t) = String.length s + String.length t.
Proof.
  induction s as [|c s IH]; [done|].
  rewrite append_cons. cbn [String.length]. by rewrite IH.
Qed.

(** X18. The value of a simple quantity: a record of type
    [IfcQuantity<Kind>] that is a simple quantity is wrapped, its value is
    the entry [<Kind>Value] of the record and its unit the entry [Unit],
    each [None] when the record has no such entry. *)
Theorem quantity_value_spec (r : rid) (kind : string) :
  ifc_type (by_id file r) = "IfcQuantity" +:+ kind ->
  is_a (by_id file r) "IfcPhysicalSimpleQuantity" = true ->
  exists q,
    quantity_create file r = Ok (Some q)
    /\ quantity_value q
       = Ok (default VNone (fields (by_id file r) !! (kind +:+ "Value")))
    /\ quantity_unit q = default VNone (fields (by_id file r) !! "Unit").
Proof.
  intros Hty Hq. exists {| q_base := wrap file r |}.
  split; [|split].
  - unfold quantity_create, IfcBaseEntity_init. cbn [check_expected_types].
    by rewrite Hq.
  - unfold quantity_value, type_name, dict_get_default, wrap, get_info.
    cbn [q_base info]. rewrite lookup_insert_eq. cbn [default as_label id].
    rewrite Hty, drop_append, lookup_insert_ne; [done|].
    intros Heq. apply (f_equal String.length) in Heq.
    rewrite append_length in Heq. cbn in Heq. lia.
  - unfold quantity_unit, dict_get_default, wrap, get_info.
    cbn [q_base info]. by rewrite lookup_insert_ne.
Qed.

End lookups_more.

Section lookups_samples.
Import Raw Entity.

Lemma door_property_set_codenames :
  exists psets,
    property_sets door_file (wrap door_file 0) = Ok psets
    /\ Schema.mapM pset_codename (default [] psets)
       = Ok ["dimensions"; "identitydata"]
    /\ (forall c, c ∈ ["dimensions"; "identitydata"] <->
          exists ps,
            get_property_set door_file (wrap door_file 0) c = Ok (Some ps))
    /\ (forall c, c ∉ ["dimensions"; "identitydata"] <->
          get_property_set door_file (wrap door_file 0) c = Ok None)
    /\ (forall c ps,
          get_property_set door_file (wrap door_file 0) c = Ok (Some ps) ->
          ps ∈ default [] psets /\ pset_codename ps = Ok c).
Proof.
  apply (get_property_set_spec door_file (wrap door_file 0)
           ["dimensions"; "identitydata"]).
  vm_compute. reflexivity.
Defined.

Lemma door_property_codenames :
  exists props,
    get_properties door_file None (wrap door_file 0) None = Ok props
    /\ Schema.mapM prop_codename props = Ok ["height"; "width"; "mark"]
    /\ (forall c, c ∈ ["height"; "width"; "mark"] <->
          exists p,
            get_property door_file None (wrap door_file 0) c None
            = Ok (Some p))
    /\ (forall c, c ∉ ["height"; "width"; "mark"] <->
          get_property door_file None (wrap door_file 0) c None = Ok None)
    /\ (forall c p,
          get_property door_file None (wrap door_file 0) c None
          = Ok (Some p) ->
          p ∈ props /\ prop_codename p = Ok c).
Proof.
  apply (get_property_codenames_spec door_file None (wrap door_file 0) None
           ["height"; "width"; "mark"]).
  vm_compute. reflexivity.
Defined.

Lemma slab_quantities_compare_equal :
  base_eq (q_base {| q_base := wrap slab_file 5 |})
    (q_base {| q_base := wrap slab_file 6 |}) = true.
Proof.
  apply (quantities_compare_equal slab_file 5 6);
    vm_compute; reflexivity.
Defined.

Lemma slab_depth_value :
  exists q,
    quantity_create slab_file 5 = Ok (Some q)
    /\ quantity_value q
       = Ok (default VNone (fields (by_id slab_file 5) !! ("Length" +:+ "Value")))
    /\ quantity_unit q = default VNone (fields (by_id slab_file 5) !! "Unit").
Proof.
  apply (quantity_value_spec slab_file 5 "Length"); vm_compute; reflexivity.
Defined.

End lookups_samples.

(** ** The queries of the reader *)

Section reader_more.
Import Raw Entity Reader.
Context (file : ifc_file).

Lemma mapM_init_inv (rs : list rid) (ents : list IfcObjectEntity) :
  Schema.mapM (fun r => IfcObjectEntity_init file (ArgInstance r)
                          default_expected_types) rs = Ok ents ->
  ents = wrap file <$> rs
  /\ Forall (fun r => is_a (by_id file r) "IfcObject" = true) rs.
Proof.
  revert ents. induction rs as [|r rs IH]; intros ents Hents.
  - cbn in Hents. by injection Hents as <-.
  - cbn [Schema.mapM] in Hents. rewrite init_wrap in Hents.
    destruct (is_a (by_id file r) "IfcObject") eqn:Hr;
      cbn [rbind] in Hents; [|done].
    destruct (Schema.mapM _ rs) as [es|] eqn:Hes; cbn [rbind] in Hents;
      [|done].
    injection Hents as <-. destruct (IH es eq_refl) as [-> Hall].
    split; [done|]. by constructor.
Qed.





Lemma filterM_inv {A} (f : A -> result bool) (l res : list A) :
  Schema.filterM f l = Ok res ->
  res = filter (fun x => f x = Ok true) l
  /\ Forall (fun x => exists b, f x = Ok b) l.
Proof.
  revert res. induction l as [|x l IH]; intros res Hres.
  - cbn in Hres. by injection Hres as <-.
  - cbn [Schema.filterM] in Hres.
    destruct (f x) as [b|] eqn:Hx; cbn [rbind] in Hres; [|done].
    destruct (Schema.filterM f l) as [ys|]; cbn [rbind] in Hres; [|done].
    injection Hres as <-. destruct (IH ys eq_refl) as [-> Hall].
    split; [|constructor; by eauto]. rewrite filter_cons, Hx.
    destruct b; [by rewrite decide_True|by rewrite decide_False].
Qed.

(** X21. A query by type name for the entities of a parent.  When it
    returns, every entity of that type has a parent, and the result is
    those, in file order, whose parent has the [GlobalId] of the parent
    asked for; so the query does not return (it raises) as soon as one
    entity of that type has no parent. *)
Theorem read_entity_parent_spec (entity_name : string)
  (parent_entity : IfcObjectEntity) (res : list IfcObjectEntity) :
  read_entity file entity_name (ParentEntity parent_entity) = Ok res ->
  exists all,
    read_entity file entity_name ParentNone = Ok all
    /\ sublist res all
    /\ Forall (fun e =>
                 exists p, parent file e = Ok (Some p)
                           /\ (e ∈ res <->
                               global_id p = global_id parent_entity)) all.
Proof.
  unfold read_entity.
  destruct (_read_entities file entity_name) as [all|]; cbn [rbind]; [|done].
  intros [-> Hall]%filterM_inv. exists all. split; [done|].
  split; [apply sublist_filter|].
  apply Forall_forall. intros e He. rewrite Forall_forall in Hall.
  destruct (Hall e He) as [b Hb]. unfold has_parent in Hb.
  destruct (parent file e) as [[p|]|] eqn:Hp; cbn [rbind] in Hb; [|done..].
  exists p. split; [done|]. rewrite list_elem_of_filter.
  unfold has_parent. rewrite Hp. cbn [rbind]. split.
  - intros [[= Heq] _]. by apply bool_decide_eq_true_1 in Heq.
  - intros Heq. split; [|done]. by rewrite bool_decide_eq_true_2.
Qed.

(** X22. The query for walls, when it returns, gives the wrappers of the
    records that answer to [IfcWall] followed by those of the records that
    answer to [IfcWallStandardCase]; a standard-case wall answers to both,
    so it is listed twice, once in each part. *)
Theorem read_walls_spec (res : list IfcObjectEntity) :
  read_walls file = Ok res ->
  res = (wrap file <$> by_type file "IfcWall")
        ++ (wrap file <$> by_type file "IfcWallStandardCase")
  /\ forall r,
       r ∈ by_type file "IfcWallStandardCase" ->
       is_a (by_id file r) "IfcWall" = true ->
       wrap file r ∈ (wrap file <$> by_type file "IfcWall")
       /\ wrap file r ∈ (wrap file <$> by_type file "IfcWallStandardCase").
Proof.
  unfold read_walls, _read_entities.
  destruct (Schema.mapM _ (by_type file "IfcWall")) as [walls|] eqn:Hw;
    cbn [rbind]; [|done].
  destruct (Schema.mapM _ (by_type file "IfcWallStandardCase"))
    as [standard|] eqn:Hs; cbn [rbind]; [|done].
  intros [= <-].
  apply mapM_init_inv in Hw as [-> _]. apply mapM_init_inv in Hs as [-> _].
  split; [done|]. intros r Hr Hwall. split.
  - apply list_elem_of_fmap_2. unfold by_type in *.
    apply list_elem_of_filter in Hr as [_ Hr].
    apply list_elem_of_filter. split; [by rewrite Hwall|done].
  - by apply list_elem_of_fmap_2.
Qed.

(** X23. The project of a file whose project records are valid objects:
    with exactly one project record the reader gets its wrapper; with none,
    or with more than one, it raises [TypeError]. *)
Theorem read_project_spec :
  Forall (fun r => is_a (by_id file r) "IfcObject" = true)
    (by_type file "IfcProject") ->
  _read_project file
  = match by_type file "IfcProject" with
    | [r] => Ok (wrap file r)
    | _ => Raise TypeError
    end.
Proof.
  intros Hall. unfold _read_project, _read_entities.
  rewrite (mapM_init_all _ _ Hall). cbn [rbind].
  by destruct (by_type file "IfcProject") as [|r [|r' rs]].
Qed.

Lemma is_element_wrap (r : rid) :
  is_element file (wrap file r) = undivided file r.
Proof.
  unfold is_element, composition_type, undivided, raw_of, wrap.
  cbn [_raw info].
  destruct (is_a (by_id file r) "IfcSpatialStructureElement"); [|done].
  cbn [andb]. unfold dict_get_default, get_info.
  rewrite lookup_insert_ne by done.
  destruct (fields (by_id file r) !! "CompositionType") as [v|] eqn:Hv;
    cbn [default id].
  - apply bool_decide_ext. split; congruence.
  - by rewrite bool_decide_eq_false_2.
Qed.

Lemma filter_kept_wrap (undivided_only : bool) (rs : list rid) :
  filter (kept file undivided_only) (wrap file <$> rs)
  = wrap file
    <$> filter (fun r => negb undivided_only || undivided file r) rs.
Proof.
  induction rs as [|r rs IH]; [done|].
  rewrite fmap_cons, !filter_cons. unfold IfcObjectEntity in *. rewrite IH.
  assert (kept file undivided_only (wrap file r)
          = negb undivided_only || undivided file r) as Hk.
  { unfold kept. rewrite is_element_wrap.
    by destruct undivided_only, (undivided file r). }
  destruct (negb undivided_only || undivided file r) eqn:Hb.
  - rewrite decide_True by (by rewrite Hk). by rewrite decide_True.
  - rewrite decide_False by (rewrite Hk; by intros []).
    rewrite decide_False; [done|]. by intros [].
Qed.

(** X24. The queries for buildings, storeys and spaces without a parent,
    when they return, give the wrappers of the records of that type in file
    order: all of them when not restricted, and when restricted to the
    undivided ones, those that are spatial structure elements whose
    [CompositionType] entry is [ELEMENT]. *)
Theorem read_spatial_spec (undivided_only : bool)
  (res : list IfcObjectEntity) :
  (read_buildings file undivided_only ParentNone = Ok res ->
   res = wrap file
         <$> filter (fun r => negb undivided_only || undivided file r)
               (by_type file "IfcBuilding"))
  /\ (read_building_storeys file undivided_only ParentNone = Ok res ->
      res = wrap file
            <$> filter (fun r => negb undivided_only || undivided file r)
                  (by_type file "IfcBuildingStorey"))
  /\ (read_spaces file undivided_only ParentNone = Ok res ->
      res = wrap file
            <$> filter (fun r => negb undivided_only || undivided file r)
                  (by_type file "IfcSpace")).
Proof.
  unfold read_buildings, read_building_storeys, read_spaces, read_entity,
    _read_entities.
  split; [|split].
  - destruct (Schema.mapM _ (by_type file "IfcBuilding")) as [ents|] eqn:He;
      cbn [rbind]; [|done].
    apply mapM_init_inv in He as [-> _]. intros [= <-].
    apply filter_kept_wrap.
  - destruct (Schema.mapM _ (by_type file "IfcBuildingStorey"))
      as [ents|] eqn:He; cbn [rbind]; [|done].
    apply mapM_init_inv in He as [-> _]. intros [= <-].
    apply filter_kept_wrap.
  - destruct (Schema.mapM _ (by_type file "IfcSpace")) as [ents|] eqn:He;
      cbn [rbind]; [|done].
    apply mapM_init_inv in He as [-> _]. intros [= <-].
    apply filter_kept_wrap.
Qed.

End reader_more.

Section reader_samples.
Import Raw Entity Reader.



Lemma read_openings_of_storey :
  exists all,
    read_entity opening_file "IfcOpeningElement" ParentNone = Ok all
    /\ sublist [wrap opening_file 0] all
    /\ Forall (fun e =>
                 exists p, parent opening_file e = Ok (Some p)
                           /\ (e ∈ [wrap opening_file 0] <->
                               global_id p = global_id (wrap opening_file 2)))
         all.
Proof.
  apply (read_entity_parent_spec opening_file "IfcOpeningElement"
           (wrap opening_file 2) [wrap opening_file 0]).
  vm_compute. reflexivity.
Defined.

Lemma read_walls_building_file :
  [wrap building_file 1; wrap building_file 2; wrap building_file 2]
  = (wrap building_file <$> by_type building_file "IfcWall")
    ++ (wrap building_file <$> by_type building_file "IfcWallStandardCase")
  /\ forall r,
       r ∈ by_type building_file "IfcWallStandardCase" ->
       is_a (by_id building_file r) "IfcWall" = true ->
       wrap building_file r
       ∈ (wrap building_file <$> by_type building_file "IfcWall")
       /\ wrap building_file r
          ∈ (wrap building_file <$> by_type building_file "IfcWallStandardCase").
Proof.
  apply (read_walls_spec building_file
           [wrap building_file 1; wrap building_file 2; wrap building_file 2]).
  vm_compute. reflexivity.
Defined.

Lemma read_project_building_file :
  _read_project building_file
  = match by_type building_file "IfcProject" with
    | [r] => Ok (wrap building_file r)
    | _ => Raise TypeError
    end.
Proof.
  apply (read_project_spec building_file).
  vm_compute. repeat constructor.
Defined.

Lemma read_buildings_building_file :
  [wrap building_file 3]
  = wrap building_file
    <$> filter (fun r => negb true || undivided building_file r)
          (by_type building_file "IfcBuilding").
Proof.
  apply (read_spatial_spec building_file true [wrap building_file 3]).
  vm_compute. reflexivity.
Defined.

End reader_samples.

(** ** What an access leaves of the heap *)

Section memo_more.
Import Raw Entity Memo.
Context (file : ifc_file) (schema : option Schema.IfcSchema).

Lemma frame_length (F : attribute) (s : addr) (h h' : heap) :
  frame F s h h' -> length h <= length h'.
Proof.
  intros Hframe. destruct (decide (length h = 0)) as [->|Hne]; [lia|].
  destruct (lookup_lt_is_Some_2 h (length h - 1)) as [c Hc]; [lia|].
  destruct (Hframe _ _ Hc) as (c' & Hc' & _).
  apply lookup_lt_Some in Hc'. lia.
Qed.

(** X25. An access to a lazily loaded attribute of an object, whatever
    comes of it, removes no object and moves none; every object keeps the
    data it was created with, and every cached attribute of every object
    keeps its state, but for the attribute accessed on the object
    accessed. *)
Theorem access_leaves_the_rest (a : accessor) (s : addr) (h h' : heap)
  (res : result (option addr)) :
  access file schema a s h = (res, h') ->
  length h <= length h'
  /\ forall i c,
       h !! i = Some c ->
       exists c',
         h' !! i = Some c'
         /\ as_created c' = as_created c
         /\ forall b, i <> s \/ b <> a ->
              fget (attr_of b) c' = fget (attr_of b) c.
Proof.
  intros Hacc. pose proof (access_framed file schema a s h res h' Hacc)
    as Hframe.
  split; [by eapply frame_length|].
  intros i c Hc. destruct (Hframe i c Hc) as (c' & Hc' & Hrel).
  exists c'. split; [done|].
  destruct Hrel as [->|(-> & v & ->)]; [done|].
  split; [apply as_created_fset|].
  intros b [?|Hb]; [done|]. by apply fget_fset_other.
Qed.

(** X26. The first access to the parent of an object whose parent is not
    loaded yet does what the resolution of the parent says: when there is
    no relating record, or the relating record is refused, the heap is left
    as it is and [None], or the error, comes back; otherwise one object is
    created, the wrapper of the relating record with nothing loaded, and
    the object accessed remembers its address. *)
Theorem parent_first_access (self : addr) (o : object_entity) (h : heap) :
  h !! self = Some (CObjectEntity o) ->
  _parent o = None ->
  Memo.parent file self h
  = match Entity.parent file (oe_base o) with
    | Ok None => (Ok None, h)
    | Ok (Some e) =>
        (Ok (Some (length h)),
         <[self := fset F_parent (Some (length h)) (CObjectEntity o)]>
           (h ++ [new_object_entity e]))
    | Raise ex => (Raise ex, h)
    end.
Proof.
  intros Hself Hnone.
  assert (self < length h) as Hlt by by eapply lookup_lt_Some.
  unfold Memo.parent, lazy, bind, get_attr at 1. rewrite Hself.
  cbn [mbind option_bind fget F_parent]. rewrite Hnone.
  unfold Memo._load_parent, Entity.parent, Entity._load_parent, bind,
    object_base.
  rewrite Hself. cbn [oe_base].
  destruct (_get_relating_object file (oe_base o)) as [r|].
  - unfold IfcObjectEntity_new, bind, lift, alloc, ret.
    destruct (IfcObjectEntity_init file (ArgInstance r)
                default_expected_types) as [e|ex]; cbn [rbind]; [|done].
    unfold set_attr. rewrite lookup_app_l by done. rewrite Hself.
    cbn [fget F_parent]. unfold get_attr.
    rewrite list_lookup_insert_eq by (rewrite length_app; lia).
    cbn [mbind option_bind]. destruct o. done.
  - unfold ret, set_attr. rewrite Hself. cbn [fget F_parent].
    unfold get_attr. rewrite list_lookup_insert_eq by done.
    cbn [mbind option_bind]. destruct o. cbn in Hnone. subst.
    cbn. by rewrite list_insert_id.
Qed.

(** X27. A load of the properties of an object-type property set that
    fails on the schema is not tried again: the set has been given an empty
    tuple before the schema is asked, so the first access raises the error
    of the schema lookup and the next access returns the empty tuple. *)
Theorem failed_properties_load_is_kept (self : addr) (ps : PropertySet)
  (h : heap) (ex : exn) :
  h !! self = Some (new_pset_entity ps) ->
  ps_class ps = IfcObjectEntityTypePropertySet ->
  schema_metadata schema (ps_base ps) = Raise ex ->
  exists h1,
    Memo.properties file schema self h = (Raise ex, h1)
    /\ Memo.properties file schema self h1 = (Ok (Some (length h)), h1)
    /\ h1 !! length h = Some (CTuple []).
Proof.
  intros Hself Hclass Hmeta.
  assert (self < length h) as Hlt by by eapply lookup_lt_Some.
  exists (<[self := fset F_properties (Some (length h)) (new_pset_entity ps)]>
            (h ++ [CTuple []])).
  split; [|split].
  - destruct ps as [cl base]. cbn in Hclass, Hmeta. subst cl.
    unfold Memo.properties, lazy, Memo._load_properties, bind, pset_self,
      get_attr, set_attr, alloc, lift, ret.
    cbn [new_pset_entity ps_class ps_base] in *.
    repeat (rewrite ?Hself, ?(lookup_app_l h [CTuple []] self Hlt);
            cbn [mbind option_bind fget F_properties _properties pe_class
                 pe_base ps_class ps_base new_pset_entity]).
    by rewrite Hmeta.
  - unfold Memo.properties, lazy, bind, get_attr at 1.
    rewrite list_lookup_insert_eq by (rewrite length_app; lia).
    done.
  - rewrite list_lookup_insert_ne by lia.
    by rewrite lookup_app_r, Nat.sub_diag.
Qed.

End memo_more.

Section memo_more_samples.
Import Raw Entity Memo.

Lemma access_parent_of_opening :
  length opening_heap <= length opening_heap_loaded
  /\ forall i c,
       opening_heap !! i = Some c ->
       exists c',
         opening_heap_loaded !! i = Some c'
         /\ as_created c' = as_created c
         /\ forall b, i <> 0 \/ b <> Parent ->
              fget (attr_of b) c' = fget (attr_of b) c.
Proof.
  apply (access_leaves_the_rest opening_file None Parent 0 opening_heap
           opening_heap_loaded (Ok (Some 1))).
  vm_compute. reflexivity.
Defined.

Lemma parent_of_opening_first_access :
  Memo.parent opening_file 0 opening_heap
  = match Entity.parent opening_file (wrap opening_file 0) with
    | Ok None => (Ok None, opening_heap)
    | Ok (Some e) =>
        (Ok (Some (length opening_heap)),
         <[0 := fset F_parent (Some (length opening_heap))
                  (new_object_entity (wrap opening_file 0))]>
           (opening_heap ++ [new_object_entity e]))
    | Raise ex => (Raise ex, opening_heap)
    end.
Proof.
  apply (parent_first_access opening_file 0
           {| oe_base := wrap opening_file 0; _parent := None; _kids := None;
              _property_sets := None; _quantities := None;
              _object_type := None |} opening_heap).
  - reflexivity.
  - reflexivity.
Defined.

Lemma slab_type_pset_load_is_kept :
  exists h1,
    Memo.properties slab_file None 0 [new_pset_entity slab_type_pset]
    = (Raise AttributeError, h1)
    /\ Memo.properties slab_file None 0 h1
       = (Ok (Some (length [new_pset_entity slab_type_pset])), h1)
    /\ h1 !! length [new_pset_entity slab_type_pset] = Some (CTuple []).
Proof.
  apply (failed_properties_load_is_kept slab_file None 0 slab_type_pset
           [new_pset_entity slab_type_pset] AttributeError).
  - reflexivity.
  - reflexivity.
  - reflexivity.
Defined.

End memo_more_samples.
